(** * NEOATTEND: attendance aggregation and attendance marking

    A shallow embedding of the attendance logic of the NEOATTEND front end
    and the properties of its aggregation functions.

    Conventions of the embedding.
    - A JavaScript [Date] is its [getTime()] value: an integer number of
      milliseconds since the epoch ([Z]).  The local time zone is a fixed
      offset [offsetMs] (wall clock = UTC + offset); daylight-saving
      transitions are outside the model.
    - JavaScript numbers that hold counts are [nat] (or [Z] where the source
      can go below zero).  The two window rates of the trend comparison are
      IEEE 754 doubles ([PrimFloat.float]) with the source's operations in
      the source's order, since the trend depends on how they round; the
      other ratios and percentages, which are only shown, are exact
      rationals ([Qc]).
    - A JavaScript [Map] that is only read with [get] is a [gmap]; a [Map]
      whose iteration order is observed is an association list in insertion
      order.
    - [Array.prototype.sort] is stable (ECMAScript 2019), so with a
      comparator that orders by one key its result is the stable sort on
      that key. *)

From Stdlib Require Import QArith Qcanon PrimFloat.
From stdpp Require Import base numbers list strings gmap sorting.

Local Open Scope Z_scope.

(** ** types.ts *)

Module Types.

Inductive Role := student | faculty.

(** [status: 'Present' | 'Late' | 'Absent'] *)
Inductive Status := Present | Late | Absent.

#[global] Instance Role_eq_dec : EqDecision Role.
Proof. solve_decision. Defined.

#[global] Instance Status_eq_dec : EqDecision Status.
Proof. solve_decision. Defined.

(** [interface Student]; presentation-only fields (image, year,
    designation, creation date) play no part in the aggregation. *)
Record Student := mkStudent {
  id : string;
  rollNo : string;
  name : string;
  department : string;
  role : Role;
  faceRegistered : bool
}.

(** [interface AttendanceRecord]; [timestamp] in milliseconds.  The
    descriptive fields some writers add (roll number, name, location,
    subject) are never read by the aggregation and are left out. *)
Record AttendanceRecord := mkRecord {
  recordId : string;
  studentId : string;
  timestamp : Z;
  status : Status;
  confidence : Qc
}.

#[global] Instance Student_eq_dec : EqDecision Student.
Proof. solve_decision. Defined.

#[global] Instance AttendanceRecord_eq_dec : EqDecision AttendanceRecord.
Proof. solve_decision. Defined.

End Types.
Export Types.

(** ** The [Date] operations the source relies on *)

Module Clock.

Definition msPerDay : Z := 1000 * 60 * 60 * 24.

(** The offset of the local zone from UTC, in milliseconds. *)
Class LocalZone := offsetMs : Z.

Section Local.
Context {zone : LocalZone}.

(** Number of the local calendar day of [t] (day 0 = 1970-01-01).
    [toDateString()] and [setHours(0,0,0,0)] are both determined by,
    and determine, this number. *)
Definition localDay (t : Z) : Z := (t + offsetMs) `div` msPerDay.

Definition msOfLocalDay (t : Z) : Z := (t + offsetMs) `mod` msPerDay.

(** [getHours()], [getMinutes()] *)
Definition getHours (t : Z) : Z := msOfLocalDay t `div` 3600000.

Definition getMinutes (t : Z) : Z := (msOfLocalDay t `div` 60000) `mod` 60.

(** [getDay()]: 0 is Sunday; 1970-01-01 was a Thursday. *)
Definition getDay (t : Z) : Z := (localDay t + 4) `mod` 7.

(** [d.setDate(d.getDate() - k)]: [k] local days earlier, same time of
    day. *)
Definition minusDays (t k : Z) : Z := t - k * msPerDay.

(** [a.toDateString() === b.toDateString()] *)
Definition sameLocalDay (a b : Z) : Prop := localDay a = localDay b.

#[global] Instance sameLocalDay_dec a b : Decision (sameLocalDay a b).
Proof. unfold sameLocalDay. apply _. Defined.

End Local.

(** [toISOString().split('T')[0]]: the UTC calendar date.  The text
    YYYY-MM-DD is an injective rendering of the UTC day number, which
    stands for it here. *)
Definition isoDate (t : Z) : Z := t `div` msPerDay.

(** [Math.floor((now.getTime() - t.getTime()) / (1000*60*60*24))] *)
Definition daysAgo (now t : Z) : Z := (now - t) `div` msPerDay.

(** [d.setHours(0, 0, 0, 0)]: the start of the local day of [t]. *)
Definition startOfLocalDay `{LocalZone} (t : Z) : Z := t - msOfLocalDay t.

(** [d.setDate(d.getDate() + k)]: [k] local days later, same time of
    day. *)
Definition plusDays (t k : Z) : Z := t + k * msPerDay.

End Clock.
Export Clock.

(** ** utils/database.ts *)

Module Database.

(** The two collections kept in local storage. *)
Record Store := mkStore {
  students : list Student;
  attendance : list AttendanceRecord
}.

Definition getStudents (db : Store) : list Student := students db.

Definition getAttendanceRecords (db : Store) : list AttendanceRecord :=
  attendance db.

(** [markAttendance(record)]: the record gets a generated identifier
    ([newId], ten random characters in the source) and is appended. *)
Definition markAttendance (db : Store) (newId : string)
    (sid : string) (ts : Z) (conf : Qc) (st : Status)
    : Store * AttendanceRecord :=
  let newRecord := mkRecord newId sid ts st conf in
  (mkStore (students db) (getAttendanceRecords db ++ [newRecord]), newRecord).

(** [getTodayAttendance()], with the clock reading [today]. *)
Definition getTodayAttendance `{LocalZone} (db : Store) (today : Z)
    : list AttendanceRecord :=
  filter (λ r, sameLocalDay (timestamp r) today) (getAttendanceRecords db).

(** [saveStudent(student)]: the record gets a generated identifier (and a
    creation date) and is appended.  [student] carries the other fields;
    its own [id] is not read. *)
Definition saveStudent (db : Store) (newId : string) (student : Student)
    : Store * Student :=
  let newStudent :=
    mkStudent newId (rollNo student) (name student) (department student)
              (role student) (faceRegistered student) in
  (mkStore (getStudents db ++ [newStudent]) (attendance db), newStudent).

(** [addStudent] *)
Definition addStudent (db : Store) (newId : string) (student : Student)
    : Store * Student :=
  saveStudent db newId student.

(** [getStudentByRollNo(rollNo)]: [find(...) || null]. *)
Definition getStudentByRollNo (db : Store) (wanted : string) : option Student :=
  snd <$> list_find (λ s, rollNo s = wanted) (getStudents db).

(** [updateStudent(studentData)]: [findIndex] by identifier, overwrite in
    place; nothing is written when the identifier is unknown. *)
Definition updateStudent (db : Store) (studentData : Student) : Store :=
  match list_find (λ s, id s = id studentData) (getStudents db) with
  | Some (index, _) =>
      mkStore (<[index := studentData]> (getStudents db)) (attendance db)
  | None => db
  end.

(** [deleteStudent(id)] *)
Definition deleteStudent (db : Store) (gone : string) : Store :=
  mkStore (filter (λ s, id s ≠ gone) (getStudents db)) (attendance db).

(** [clearAllData()] *)
Definition clearAllData (db : Store) : Store := mkStore [] [].

End Database.
Export Database.

(** Percentages: [(a / b) * 100]. *)
Definition percentOf (a b : nat) : Qc :=
  (Qc_of_Z (Z.of_nat a) / Qc_of_Z (Z.of_nat b) * Qc_of_Z 100)%Qc.

(** A count as the JavaScript number that holds it, read off its binary
    digits; doubling and adding 1 are exact below 2^53, far above any
    array length. *)
Fixpoint numberOfPos (p : positive) : float :=
  match p with
  | xH => 1%float
  | xO q => PrimFloat.mul 2%float (numberOfPos q)
  | xI q => PrimFloat.add (PrimFloat.mul 2%float (numberOfPos q)) 1%float
  end.

Definition numberOf (n : nat) : float :=
  match N.of_nat n with
  | N0 => 0%float
  | Npos p => numberOfPos p
  end.

(** [(a / b) * 100] in double precision: the quotient is rounded, then
    the product. *)
Definition percentOf64 (a b : nat) : float :=
  PrimFloat.mul (PrimFloat.div (numberOf a) (numberOf b)) 100%float.

(** [l.filter(r => r.status === s).length] *)
Definition countStatus (s : Status) (l : list AttendanceRecord) : nat :=
  length (filter (λ r, status r = s) l).

(** ** components/Dashboard.tsx *)

Module Dashboard.

Record DashboardStats := mkDashboardStats {
  totalStudents : nat;
  presentToday : nat;
  lateToday : nat;
  absentToday : Z;
  attendanceRate : Qc
}.

(** [loadDashboardData], faculty branch: the statistics handed to
    [setStats].  [absentToday] is a difference of counts and is not
    clamped in the source. *)
Definition loadDashboardData `{LocalZone} (db : Store) (today : Z)
    : DashboardStats :=
  let people := getStudents db in
  let todayAttendance := getTodayAttendance db today in
  let present := countStatus Present todayAttendance in
  let late := countStatus Late todayAttendance in
  let absent := Z.of_nat (length people) - Z.of_nat (present + late) in
  {| totalStudents := length people;
     presentToday := present;
     lateToday := late;
     absentToday := absent;
     attendanceRate :=
       if decide (0 < length people)%nat
       then percentOf present (length people) else 0%Qc |}.

(** [allAttendance.slice(-5).reverse()], the list handed to
    [setRecentAttendance] in the faculty branch. *)
Definition recentAttendance (db : Store) : list AttendanceRecord :=
  let allAttendance := getAttendanceRecords db in
  reverse (drop (length allAttendance - 5) allAttendance).

(** [loadDashboardData], student branch: the list handed to
    [setUserAttendance] and the statistics handed to [setStats].  The
    filter on the logged-in student is a placeholder that keeps every
    record. *)
Definition loadDashboardDataStudent `{LocalZone} (db : Store) (today : Z)
    : list AttendanceRecord * DashboardStats :=
  let allAttendance := getAttendanceRecords db in
  let studentAttendance := filter (λ _, True) allAttendance in
  let todayRecords :=
    filter (λ r, sameLocalDay (timestamp r) today) studentAttendance in
  let presentCount := countStatus Present todayRecords in
  let totalDays := length studentAttendance in
  (reverse (drop (length studentAttendance - 10) studentAttendance),
   {| totalStudents := 1;
      presentToday := presentCount;
      lateToday := 0;
      absentToday := 0;
      attendanceRate :=
        if decide (0 < totalDays)%nat
        then percentOf (countStatus Present studentAttendance) totalDays
        else 0%Qc |}).

End Dashboard.

(** ** components/FacultyAnalytics.tsx *)

Module FacultyAnalytics.

Inductive MarkedBy := faceRecognition | manual | none.

#[global] Instance MarkedBy_eq_dec : EqDecision MarkedBy.
Proof. solve_decision. Defined.

Record TodaySessionStudent := mkSessionStudent {
  sessStudent : Student;
  sessStatus : Status;
  markedBy : MarkedBy;
  sessTimestamp : option Z;
  sessConfidence : option Qc
}.

(** [todayAttendance.forEach(record => attendanceMap.set(record.studentId,
    record))] *)
Definition attendanceMapOf (todayAttendance : list AttendanceRecord)
    : gmap string AttendanceRecord :=
  foldl (λ m r, <[studentId r := r]> m) ∅ todayAttendance.

(** The body of [allStudents.map(student => ...)]. *)
Definition sessionRow (attendanceMap : gmap string AttendanceRecord)
    (s : Student) : TodaySessionStudent :=
  match attendanceMap !! id s with
  | Some record =>
      {| sessStudent := s;
         sessStatus := status record;
         markedBy := if decide (confidence record = 1%Qc)
                     then manual else faceRecognition;
         sessTimestamp := Some (timestamp record);
         sessConfidence := Some (confidence record) |}
  | None =>
      {| sessStudent := s;
         sessStatus := Absent;
         markedBy := none;
         sessTimestamp := None;
         sessConfidence := None |}
  end.

Record SessionStats := mkSessionStats {
  total : nat;
  recognized : nat;
  notRecognized : nat;
  present : nat;
  late : nat;
  absent : nat;
  recognitionRate : Qc;
  attendanceRate : Qc
}.

Definition calculateStats (data : list TodaySessionStudent) : SessionStats :=
  let total := length data in
  let recognized := length (filter (λ d, markedBy d = faceRecognition) data) in
  let notRecognized := length (filter (λ d, markedBy d = none) data) in
  let present := length (filter (λ d, sessStatus d = Present) data) in
  let late := length (filter (λ d, sessStatus d = Late) data) in
  let absent := length (filter (λ d, sessStatus d = Absent) data) in
  {| total := total;
     recognized := recognized;
     notRecognized := notRecognized;
     present := present;
     late := late;
     absent := absent;
     recognitionRate :=
       if decide (0 < total)%nat then percentOf recognized total else 0%Qc;
     attendanceRate :=
       if decide (0 < total)%nat
       then percentOf (present + late) total else 0%Qc |}.

(** The rows handed to [setSessionData]. *)
Definition sessionStudents `{LocalZone} (db : Store) (today : Z)
    : list TodaySessionStudent :=
  let allStudents := filter (λ s, role s = student) (getStudents db) in
  let todayAttendance := getTodayAttendance db today in
  sessionRow (attendanceMapOf todayAttendance) <$> allStudents.

(** [loadTodaySession]: the session rows and the statistics computed from
    them. *)
Definition loadTodaySession `{LocalZone} (db : Store) (today : Z)
    : list TodaySessionStudent * SessionStats :=
  let rows := sessionStudents db today in
  (rows, calculateStats rows).

(** [handleStatusChange(studentId, status)]: [new Map(editedStatuses)]
    followed by [set].  The map is iterated later, so it is kept in
    insertion order: a known key keeps its place. *)
Fixpoint handleStatusChange (editedStatuses : list (string * Status))
    (sid : string) (st : Status) : list (string * Status) :=
  match editedStatuses with
  | [] => [(sid, st)]
  | (k, v) :: rest =>
      if decide (k = sid) then (k, st) :: rest
      else (k, v) :: handleStatusChange rest sid st
  end.

(** The [forEach] of [saveManualAttendance].  [people] is the component's
    [students] state, [now] the clock reading taken at the start, [today]
    the one taken inside [getTodayAttendance], [genId n] the identifier
    generated when the store holds [n] attendance records. *)
Fixpoint saveEach `{LocalZone} (db : Store) (people : list Student)
    (editedStatuses : list (string * Status)) (now today : Z)
    (genId : nat → string) (updatedCount : nat) : Store * nat :=
  match editedStatuses with
  | [] => (db, updatedCount)
  | (sid, st) :: rest =>
      let existing :=
        list_find (λ r, studentId r = sid) (getTodayAttendance db today) in
      match existing with
      | None =>
          if decide (st ≠ Absent) then
            match list_find (λ s, id s = sid) people with
            | Some _ =>
                let db' :=
                  (markAttendance db (genId (length (getAttendanceRecords db)))
                                  sid now 1%Qc st).1 in
                saveEach db' people rest now today genId (S updatedCount)
            | None => saveEach db people rest now today genId updatedCount
            end
          else saveEach db people rest now today genId updatedCount
      | Some _ => saveEach db people rest now today genId updatedCount
      end
  end.

(** [saveManualAttendance]: the store, the session reloaded from it and
    the number shown in the alert. *)
Definition saveManualAttendance `{LocalZone} (db : Store)
    (people : list Student) (editedStatuses : list (string * Status))
    (now today : Z) (genId : nat → string)
    : Store * (list TodaySessionStudent * SessionStats) * nat :=
  let out := saveEach db people editedStatuses now today genId 0 in
  (out.1, loadTodaySession out.1 today, out.2).

(** [sessionData.filter(item => item.status === 'Present' || item.status
    === 'Late')], the rows of the PDF report. *)
Definition presentStudents (sessionData : list TodaySessionStudent)
    : list TodaySessionStudent :=
  filter (λ item, sessStatus item = Present ∨ sessStatus item = Late)
         sessionData.

End FacultyAnalytics.

(** ** components/StudentMonitoring.tsx *)

Module StudentMonitoring.

Inductive Trend := improving | declining | stable.

#[global] Instance Trend_eq_dec : EqDecision Trend.
Proof. solve_decision. Defined.

(** [interface StudentAttendanceStats]; the per-month chart data
    ([monthlyStats]) is left out. *)
Record StudentAttendanceStats := mkStudentStats {
  statStudent : Student;
  totalClasses : nat;
  attended : nat;
  present : nat;
  late : nat;
  absent : nat;
  attendancePercentage : Qc;
  trend : Trend;
  lastAttended : option Z;
  consecutiveAbsences : nat;
  weeklyAttendance : list nat
}.

(** [l.sort((a, b) => b.timestamp - a.timestamp)]: stable, most recent
    first.  A record is placed in front of the first one that is not
    strictly more recent, so records with equal timestamps keep their
    order. *)
Fixpoint insertDesc (r : AttendanceRecord) (l : list AttendanceRecord)
    : list AttendanceRecord :=
  match l with
  | [] => [r]
  | y :: l' =>
      if decide (timestamp y ≤ timestamp r) then r :: y :: l'
      else y :: insertDesc r l'
  end.

Definition sortByTimestampDesc (l : list AttendanceRecord)
    : list AttendanceRecord :=
  foldr insertDesc [] l.

(** [for (const record of sortedRecords) { if (record.status === 'Absent')
    consecutiveAbsences++; else break; }] *)
Fixpoint countLeadingAbsent (l : list AttendanceRecord) : nat :=
  match l with
  | [] => 0%nat
  | record :: rest =>
      if decide (status record = Absent) then S (countLeadingAbsent rest)
      else 0%nat
  end.

(** [w.length > 0 ? (w.filter(r => r.status !== 'Absent').length /
    w.length) * 100 : 0] *)
Definition windowPercentage (w : list AttendanceRecord) : float :=
  if decide (0 < length w)%nat
  then percentOf64 (length (filter (λ r, status r ≠ Absent) w)) (length w)
  else 0%float.

(** The two [if] statements that assign [trend], on doubles:
    [a > b] is [b < a], and the second assignment overrides the first. *)
Definition classifyTrend (last7Percentage previous7Percentage : float)
    : Trend :=
  let trend := stable in
  let trend :=
    if PrimFloat.ltb (PrimFloat.add previous7Percentage 10%float)
                     last7Percentage
    then improving else trend in
  if PrimFloat.ltb last7Percentage
                   (PrimFloat.sub previous7Percentage 10%float)
  then declining else trend.

Definition last7Days (now : Z) (studentRecords : list AttendanceRecord)
    : list AttendanceRecord :=
  filter (λ r, daysAgo now (timestamp r) ≤ 7) studentRecords.

Definition previous7Days (now : Z) (studentRecords : list AttendanceRecord)
    : list AttendanceRecord :=
  filter (λ r, 7 < daysAgo now (timestamp r) ∧ daysAgo now (timestamp r) ≤ 14)
         studentRecords.

(** The body of [students.map(student => ...)].  [now] is the clock
    reading [new Date()] taken in it. *)
Definition studentStats (now : Z) (records : list AttendanceRecord)
    (s : Student) : StudentAttendanceStats :=
  let studentRecords := filter (λ r, studentId r = id s) records in
  let totalClasses := length studentRecords in
  let present := countStatus Present studentRecords in
  let late := countStatus Late studentRecords in
  let absent := countStatus Absent studentRecords in
  let attended := (present + late)%nat in
  let attendancePercentage :=
    if decide (0 < totalClasses)%nat
    then percentOf attended totalClasses else 0%Qc in
  let last7Percentage := windowPercentage (last7Days now studentRecords) in
  let previous7Percentage :=
    windowPercentage (previous7Days now studentRecords) in
  let attendedRecords :=
    sortByTimestampDesc (filter (λ r, status r ≠ Absent) studentRecords) in
  let sortedRecords := sortByTimestampDesc studentRecords in
  let weekly :=
    (λ i : Z,
       let dayRecords :=
         filter (λ r, daysAgo now (timestamp r) = i) studentRecords in
       if decide (0 < length (filter (λ r, status r ≠ Absent) dayRecords))%nat
       then 1%nat else 0%nat) <$> [6; 5; 4; 3; 2; 1; 0] in
  {| statStudent := s;
     totalClasses := totalClasses;
     attended := attended;
     present := present;
     late := late;
     absent := absent;
     attendancePercentage := attendancePercentage;
     trend := classifyTrend last7Percentage previous7Percentage;
     lastAttended := timestamp <$> head attendedRecords;
     consecutiveAbsences := countLeadingAbsent sortedRecords;
     weeklyAttendance := weekly |}.

(** [calculateStudentStats]; the clock, read once per student in the
    source, is the single reading [now] here. *)
Definition calculateStudentStats (now : Z) (people : list Student)
    (records : list AttendanceRecord) : list StudentAttendanceStats :=
  studentStats now records <$> people.

(** [loadStudentData]: statistics for the registered students. *)
Definition loadStudentData (db : Store) (now : Z)
    : list StudentAttendanceStats :=
  let allStudents := filter (λ s, role s = student) (getStudents db) in
  calculateStudentStats now allStudents (getAttendanceRecords db).

End StudentMonitoring.

(** ** components/StudentAnalytics.tsx *)

Module StudentAnalytics.

(** [{ present: number; late: number; absent: number; total: number }] *)
Record Counts := mkCounts {
  present : nat;
  late : nat;
  absent : nat;
  total : nat
}.

#[global] Instance Counts_eq_dec : EqDecision Counts.
Proof. solve_decision. Defined.

(** [interface WeeklyData]: the week and the spread counters.  [week]
    holds the day number of the map key; the source shows it as a short
    month-and-day label. *)
Record WeeklyData := mkWeekly {
  week : Z;
  data : Counts
}.

#[global] Instance WeeklyData_eq_dec : EqDecision WeeklyData.
Proof. solve_decision. Defined.

(** The key of a record's week: the ISO date of the Sunday reached by
    [weekStart.setDate(date.getDate() - date.getDay())]. *)
Definition weekStartOf `{LocalZone} (t : Z) : Z := minusDays t (getDay t).

Definition weekKeyOf `{LocalZone} (t : Z) : Z := isoDate (weekStartOf t).

(** [weekData.total++] followed by the increment chosen by the status. *)
Definition tally (st : Status) (w : Counts) : Counts :=
  let w := mkCounts (present w) (late w) (absent w) (S (total w)) in
  match st with
  | Present => mkCounts (S (present w)) (late w) (absent w) (total w)
  | Late => mkCounts (present w) (S (late w)) (absent w) (total w)
  | Absent => mkCounts (present w) (late w) (S (absent w)) (total w)
  end.

(** One step of the [forEach]: a new key is appended with zero counters,
    then the counters under the key are incremented in place. *)
Fixpoint tallyInto (key : Z) (st : Status) (weekMap : list (Z * Counts))
    : list (Z * Counts) :=
  match weekMap with
  | [] => [(key, tally st (mkCounts 0 0 0 0))]
  | (k, w) :: rest =>
      if decide (k = key) then (k, tally st w) :: rest
      else (k, w) :: tallyInto key st rest
  end.

Definition weekMapOf `{LocalZone} (records : list AttendanceRecord)
    : list (Z * Counts) :=
  foldl (λ m r, tallyInto (weekKeyOf (timestamp r)) (status r) m) [] records.

(** [a.slice(-n)] *)
Definition sliceLast {A} (n : nat) (a : list A) : list A :=
  drop (length a - n) a.

(** [calculateWeeklyStats]: the array handed to [setWeeklyData]. *)
Definition calculateWeeklyStats `{LocalZone} (records : list AttendanceRecord)
    : list WeeklyData :=
  reverse (sliceLast 8 ((λ e, mkWeekly e.1 e.2) <$> weekMapOf records)).

(** [getDayAttendance(date)] over the component's [attendanceRecords]. *)
Definition getDayAttendance `{LocalZone}
    (attendanceRecords : list AttendanceRecord) (date : Z) : option Status :=
  let dayRecords :=
    filter (λ r, sameLocalDay (timestamp r) date) attendanceRecords in
  status <$> last dayRecords.

(** [interface AttendanceStats] *)
Record AttendanceStats := mkAttendanceStats {
  totalDays : nat;
  dailyPresent : nat;
  dailyLate : nat;
  dailyAbsent : Z;
  attendanceRate : Qc
}.

(** [calculateDailyStats]: the days are counted through a [Set] of
    [toDateString()] texts, the entries through the whole list. *)
Definition calculateDailyStats `{LocalZone} (records : list AttendanceRecord)
    : AttendanceStats :=
  let uniqueDays : gset Z :=
    list_to_set ((λ r, localDay (timestamp r)) <$> records) in
  let totalDays := size uniqueDays in
  let present := countStatus Present records in
  let late := countStatus Late records in
  {| totalDays := totalDays;
     dailyPresent := present;
     dailyLate := late;
     dailyAbsent :=
       Z.max 0 (Z.of_nat totalDays - Z.of_nat present - Z.of_nat late);
     attendanceRate :=
       if decide (0 < totalDays)%nat then percentOf present totalDays
       else 0%Qc |}.

End StudentAnalytics.

(** ** components/AttendanceMarking.tsx *)

Module AttendanceMarking.

Inductive Outcome := success | error.

(** The texts shown to the user. *)
Inductive Message :=
| AlreadyMarked           (* 'Attendance already marked for today' *)
| MarkedSuccessfully (st : Status)
                          (* `Attendance marked successfully! Status: ...` *)
| ConfidenceTooLow        (* 'Face recognition confidence too low. ...' *)
| NoMatchingFace          (* 'No matching face found. ...' *)
| NoneRecognized (detected : nat)
                          (* `Detected n face(s) but no registered ...` *)
| RecognizedCount (marked detected : nat).
                          (* `Successfully recognized m student(s) ...` *)

(** The argument of [setResult]. *)
Record Result := mkResult {
  resStudent : option Student;
  resConfidence : Qc;
  resStatus : Outcome;
  resMessage : Message
}.

(** What [facialRecognition.detectClassroomFaces] hands back: the
    recognition itself is simulated in the source and is an input here. *)
Record Detection := mkDetection {
  totalDetected : nat;
  recognized : list (Student * Qc)
}.

(** An element of [markedStudents]. *)
Record Marked := mkMarked {
  markedStudent : Student;
  markedConfidence : Qc;
  markedStatus : Status
}.

Definition lectureStart : Z := 9 * 60.

Definition lateThreshold : Z := lectureStart + 15.

(** "Determine attendance status based on time". *)
Definition statusAt `{LocalZone} (now : Z) : Status :=
  let currentTime := getHours now * 60 + getMinutes now in
  if decide (lateThreshold < currentTime) then Late else Present.

(** [todayAttendance.find(r => r.studentId === id)] *)
Definition alreadyMarked `{LocalZone} (db : Store) (today : Z) (sid : string)
    : option AttendanceRecord :=
  snd <$> list_find (λ r, studentId r = sid) (getTodayAttendance db today).

Definition threshold : Qc := Q2Qc (3 # 4).

(** [captureAndRecognize] from the recognition result on: [now] is the
    clock reading taken for the record, [today] the one taken inside
    [getTodayAttendance], [newId] the identifier the store would
    generate.  Returns the store and the result shown. *)
Definition captureAndRecognize `{LocalZone} (db : Store) (result : Detection)
    (now today : Z) (newId : string) : Store * Result :=
  let recognition :=
    match recognized result with
    | (s, c) :: _ => (Some s, c)
    | [] => (None, 0%Qc)
    end in
  match recognition with
  | (Some s, c) =>
      if decide (threshold < c)%Qc then
        let st := statusAt now in
        match alreadyMarked db today (id s) with
        | Some _ => (db, mkResult (Some s) c error AlreadyMarked)
        | None =>
            ((markAttendance db newId (id s) now c st).1,
             mkResult (Some s) c success (MarkedSuccessfully st))
        end
      else
        (db, mkResult None c error
               (if decide (0 < c)%Qc then ConfidenceTooLow
                else NoMatchingFace))
  | (None, c) =>
      (db, mkResult None c error
             (if decide (0 < c)%Qc then ConfidenceTooLow else NoMatchingFace))
  end.

(** The loop "Mark attendance for each recognized student".  The store is
    read again on every round.  [genId n] is the identifier generated when
    the store holds [n] attendance records. *)
Fixpoint markEach `{LocalZone} (db : Store) (detections : list (Student * Qc))
    (st : Status) (now today : Z) (genId : nat → string)
    (markedStudents : list Marked) : Store * list Marked :=
  match detections with
  | [] => (db, markedStudents)
  | (s, c) :: rest =>
      if decide (threshold ≤ c)%Qc then
        match alreadyMarked db today (id s) with
        | None =>
            let db' :=
              (markAttendance db (genId (length (getAttendanceRecords db)))
                              (id s) now c st).1 in
            markEach db' rest st now today genId
                     (markedStudents ++ [mkMarked s c st])
        | Some _ =>
            markEach db rest st now today genId
                     (markedStudents ++ [mkMarked s c st])
        end
      else markEach db rest st now today genId markedStudents
  end.

(** [processUploadedImage] once an image is present, from the detection
    result on.  Returns the store, [multipleResults] and the result
    shown. *)
Definition processUploadedImage `{LocalZone} (db : Store)
    (detectionResult : Detection) (now today : Z) (genId : nat → string)
    : Store * list Marked * Result :=
  match recognized detectionResult with
  | [] =>
      (db, [], mkResult None 0%Qc error
                 (NoneRecognized (totalDetected detectionResult)))
  | _ =>
      let st := statusAt now in
      let '(db', markedStudents) :=
        markEach db (recognized detectionResult) st now today genId [] in
      (db', markedStudents,
       mkResult None 0%Qc success
         (RecognizedCount (length markedStudents)
                          (totalDetected detectionResult)))
  end.

End AttendanceMarking.

(** ** components/ClassroomAttendance.tsx *)

Module ClassroomAttendance.
Import AttendanceMarking.

(** The loop "Mark attendance for recognized students" of
    [processClassroomAttendance]: every recognized face is listed, a
    record is written unless one exists today. *)
Fixpoint markEachDetected `{LocalZone} (db : Store)
    (detections : list (Student * Qc)) (st : Status) (now today : Z)
    (genId : nat → string) (markedStudents : list Marked)
    : Store * list Marked :=
  match detections with
  | [] => (db, markedStudents)
  | (s, c) :: rest =>
      match alreadyMarked db today (id s) with
      | None =>
          let db' :=
            (markAttendance db (genId (length (getAttendanceRecords db)))
                            (id s) now c st).1 in
          markEachDetected db' rest st now today genId
                           (markedStudents ++ [mkMarked s c st])
      | Some _ =>
          markEachDetected db rest st now today genId
                           (markedStudents ++ [mkMarked s c st])
      end
  end.

(** [processClassroomAttendance] once a photo is present, from the
    detection result on: the store and [markedStudents]. *)
Definition processClassroomAttendance `{LocalZone} (db : Store)
    (result : Detection) (now today : Z) (genId : nat → string)
    : Store * list Marked :=
  markEachDetected db (recognized result) (statusAt now) now today genId [].

End ClassroomAttendance.

(** ** utils/facialRecognition.ts *)

Module FacialRecognition.
Import AttendanceMarking.

Definition RECOGNITION_THRESHOLD : Qc := Q2Qc (6 # 10).

Definition MIN_CONFIDENCE : Qc := Q2Qc (75 # 100).

Section Recognition.

(** A face descriptor is an array of 128 floats in the source and
    [calculateEuclideanDistance] the square root of a sum of squares;
    both are taken as given here. *)
Context {Descriptor : Type}.
Context (calculateEuclideanDistance : Descriptor → Descriptor → Qc).

(** One round of the loop of [findBestMatch] on the pair
    ([bestMatch], [bestDistance]); no distance yet stands for
    [Infinity]. *)
Definition bestStep (faceDescriptors : gmap string Descriptor)
    (descriptor : Descriptor) (best : option Student * option Qc)
    (s : Student) : option Student * option Qc :=
  if decide (rollNo s = "") then best
  else
    match faceDescriptors !! rollNo s with
    | None => best
    | Some registeredFace =>
        let distance := calculateEuclideanDistance descriptor registeredFace in
        match best.2 with
        | None => (Some s, Some distance)
        | Some bestDistance =>
            if decide (distance < bestDistance)%Qc
            then (Some s, Some distance) else best
        end
    end.

(** [findBestMatch(descriptor, students)] *)
Definition findBestMatch (faceDescriptors : gmap string Descriptor)
    (descriptor : Descriptor) (people : list Student) : option Student * Qc :=
  let best := foldl (bestStep faceDescriptors descriptor) (None, None) people in
  let confidence :=
    match best.2 with
    | Some bestDistance =>
        if decide (bestDistance < RECOGNITION_THRESHOLD)%Qc
        then (1 - bestDistance / RECOGNITION_THRESHOLD)%Qc else 0%Qc
    | None => 0%Qc
    end in
  (if decide (MIN_CONFIDENCE ≤ confidence)%Qc then best.1 else None,
   if decide (confidence ≤ 1)%Qc then confidence else 1%Qc).

(** The loop "Match each face with registered students" of
    [detectClassroomFaces] on the pair ([recognized], [unrecognized]). *)
Definition matchStep (faceDescriptors : gmap string Descriptor)
    (registeredStudents : list Student)
    (acc : list (Student * Qc) * nat) (descriptor : Descriptor)
    : list (Student * Qc) * nat :=
  let found := findBestMatch faceDescriptors descriptor registeredStudents in
  match found.1 with
  | Some s =>
      if decide (MIN_CONFIDENCE ≤ found.2)%Qc
      then (acc.1 ++ [(s, found.2)], acc.2)
      else (acc.1, S acc.2)
  | None => (acc.1, S acc.2)
  end.

(** [detectClassroomFaces(imageData, registeredStudents)]: the detection
    result and the count of unrecognized faces.  The descriptors of the
    faces found in the image, random in the source, are the input
    [faces]. *)
Definition detectClassroomFaces (faceDescriptors : gmap string Descriptor)
    (imageData : string) (registeredStudents : list Student)
    (faces : list Descriptor) : Detection * nat :=
  if String.prefix "data:image/" imageData then
    let out := foldl (matchStep faceDescriptors registeredStudents) ([], 0%nat)
                     faces in
    (mkDetection (length faces) out.1, out.2)
  else (mkDetection 0 [], 0%nat).

End Recognition.

End FacialRecognition.

(** ** components/FacultyDashboard.tsx *)

Module FacultyDashboard.

(** [interface StudentAttendanceStatus] *)
Record StudentAttendanceStatus := mkAttendanceStatus {
  rowStudent : Student;
  rowStatus : Status;
  rowTimestamp : option Z;
  rowConfidence : option Qc;
  isManual : bool
}.

(** [loadDailyAttendance(allStudents)]: the rows handed to
    [setAttendanceData]; the attendance map is built as in the session
    view. *)
Definition loadDailyAttendance `{LocalZone} (db : Store) (today : Z)
    (allStudents : list Student) : list StudentAttendanceStatus :=
  let attendanceMap :=
    FacultyAnalytics.attendanceMapOf (getTodayAttendance db today) in
  (λ s,
     match attendanceMap !! id s with
     | Some record =>
         mkAttendanceStatus s (status record) (Some (timestamp record))
                            (Some (confidence record)) false
     | None => mkAttendanceStatus s Absent None None false
     end) <$> allStudents.

Record DailyStats := mkDailyStats {
  total : nat;
  present : nat;
  absent : nat;
  late : nat;
  percentage : Qc
}.

Definition calculateStats (data : list StudentAttendanceStatus) : DailyStats :=
  let total := length data in
  let present := length (filter (λ d, rowStatus d = Present) data) in
  let late := length (filter (λ d, rowStatus d = Late) data) in
  let absent := length (filter (λ d, rowStatus d = Absent) data) in
  {| total := total;
     present := present;
     absent := absent;
     late := late;
     percentage :=
       if decide (0 < total)%nat
       then percentOf (present + late) total else 0%Qc |}.

(** [loadData] in the daily view. *)
Definition loadData `{LocalZone} (db : Store) (today : Z)
    : list StudentAttendanceStatus * DailyStats :=
  let rows := loadDailyAttendance db today (getStudents db) in
  (rows, calculateStats rows).

(** An element of [dayWiseData]; [dayDate] is the date the two labels
    are printed from. *)
Record DayWise := mkDayWise {
  dayDate : Z;
  dayPresent : nat;
  dayLate : nat;
  dayTotal : nat;
  dayPercentage : Qc
}.

(** [getWeeklyStats()], with the clock reading [today]. *)
Definition getWeeklyStats `{LocalZone} (db : Store) (today : Z)
    : list DayWise :=
  let people := getStudents db in
  let allRecords := getAttendanceRecords db in
  let startOfWeek := startOfLocalDay (minusDays today (getDay today)) in
  let weekRecords := filter (λ r, startOfWeek ≤ timestamp r) allRecords in
  (λ i : Z,
     let date := plusDays startOfWeek i in
     let dayRecords :=
       filter (λ r, sameLocalDay (timestamp r) date) weekRecords in
     let present := countStatus Present dayRecords in
     let late := countStatus Late dayRecords in
     mkDayWise date present late (present + late)
       (if decide (0 < length people)%nat
        then percentOf (present + late) (length people) else 0%Qc))
    <$> [0; 1; 2; 3; 4; 5; 6].

End FacultyDashboard.

(** ** Vocabulary of the statements *)

(** [a] is listed before [b] in a most-recent-first list. *)
Definition notOlder (a b : AttendanceRecord) : Prop :=
  timestamp b ≤ timestamp a.

(** [a] is listed before [b] in a chronological list. *)
Definition notNewer (a b : AttendanceRecord) : Prop :=
  timestamp a ≤ timestamp b.

Definition isAbsent (r : AttendanceRecord) : Prop := status r = Absent.

Definition attendedAt (r : AttendanceRecord) : Prop := status r ≠ Absent.

(** The records of one person. *)
Definition recordsOf (s : Student) (records : list AttendanceRecord)
    : list AttendanceRecord :=
  filter (λ r, studentId r = id s) records.

(** The same record with another time of observation. *)
Definition retimed (g : AttendanceRecord → Z) (r : AttendanceRecord)
    : AttendanceRecord :=
  mkRecord (recordId r) (studentId r) (g r) (status r) (confidence r).

(** The windows of the trend comparison as the specification words
    them, by age in milliseconds at the clock reading [now]: the last
    seven days reach back to (not including) eight full days, the prior
    window covers days 8 to 14 back. *)
Definition specRecentWindow (now : Z) (mine : list AttendanceRecord)
    : list AttendanceRecord :=
  filter (λ r, now - timestamp r < 8 * msPerDay) mine.

Definition specPriorWindow (now : Z) (mine : list AttendanceRecord)
    : list AttendanceRecord :=
  filter (λ r, 8 * msPerDay ≤ now - timestamp r ∧
               now - timestamp r < 15 * msPerDay) mine.

(** The non-absent rate of a window, in percent; 0 for an empty window. *)
Definition specNonAbsentRate (w : list AttendanceRecord) : Qc :=
  match w with
  | [] => 0%Qc
  | _ => (Qc_of_Z (Z.of_nat (length (filter attendedAt w)))
          / Qc_of_Z (Z.of_nat (length w)) * Qc_of_Z 100)%Qc
  end.

(** The trend as the specification words it, on exact rates. *)
Definition specTrend (recent prior : Qc) : StudentMonitoring.Trend :=
  if bool_decide (prior + Qc_of_Z 10 < recent)%Qc
  then StudentMonitoring.improving
  else if bool_decide (recent < prior - Qc_of_Z 10)%Qc
       then StudentMonitoring.declining
       else StudentMonitoring.stable.

(** The rate of a window with [k] attended entries out of [n], exact and
    as the double the code computes. *)
Definition exactRateOf (k n : nat) : Qc :=
  if decide (0 < n)%nat then percentOf k n else 0%Qc.

Definition doubleRateOf (k n : nat) : float :=
  if decide (0 < n)%nat then percentOf64 k n else 0%float.

(** A check [f k n k' n'] run over all counts [k ≤ n ≤ bound] and
    [k' ≤ n' ≤ bound]: all pairs of windows of at most [bound] entries
    each. *)
Definition forallCounts (bound : nat) (f : nat → nat → nat → nat → bool)
    : bool :=
  forallb (λ n,
    forallb (λ k,
      forallb (λ n',
        forallb (λ k', f k n k' n') (seq 0 (S n')))
        (seq 0 (S bound)))
      (seq 0 (S n)))
    (seq 0 (S bound)).

(** The code's trend on doubles and the specification's on exact rates
    agree. *)
Definition trendsAgree (k n k' n' : nat) : bool :=
  bool_decide
    (StudentMonitoring.classifyTrend (doubleRateOf k n) (doubleRateOf k' n')
     = specTrend (exactRateOf k n) (exactRateOf k' n')).

(** The code's trend departs from the specification's only where the
    exact rates are at least 10 points apart, and then only from
    stable. *)
Definition trendsNear (k n k' n' : nat) : bool :=
  match specTrend (exactRateOf k n) (exactRateOf k' n'),
        StudentMonitoring.classifyTrend (doubleRateOf k n)
                                        (doubleRateOf k' n') with
  | StudentMonitoring.improving, StudentMonitoring.improving
  | StudentMonitoring.declining, StudentMonitoring.declining
  | StudentMonitoring.stable, StudentMonitoring.stable => true
  | StudentMonitoring.stable, StudentMonitoring.improving =>
      bool_decide (exactRateOf k' n' + Qc_of_Z 10 ≤ exactRateOf k n)%Qc
  | StudentMonitoring.stable, StudentMonitoring.declining =>
      bool_decide (exactRateOf k n ≤ exactRateOf k' n' - Qc_of_Z 10)%Qc
  | _, _ => false
  end.

(** The minute of the local day shown by the wall clock at [t]
    (09:15 is minute 555). *)
Definition specMinuteOfDay `{LocalZone} (t : Z) : Z :=
  msOfLocalDay t `div` 60000.

(** A detection confident enough for the classroom path. *)
Definition qualifies (d : Student * Qc) : Prop :=
  (AttendanceMarking.threshold ≤ d.2)%Qc.

#[global] Instance qualifies_dec d : Decision (qualifies d).
Proof. unfold qualifies. apply _. Defined.

(** Today's stored attendance holds a record of the person [sid]. *)
Definition markedToday `{LocalZone} (db : Store) (today : Z) (sid : string)
    : Prop :=
  ∃ r, r ∈ getTodayAttendance db today ∧ studentId r = sid.

(** [r] is the last element of [l], in stored order, that satisfies
    [P]. *)
Definition lastStored {A} (P : A → Prop) (l : list A) (r : A) : Prop :=
  ∃ before after,
    l = before ++ r :: after ∧ P r ∧ Forall (λ x, ¬ P x) after.

(** The example of the specification: three people, A present at 09:02,
    B late at 09:20, C without entry; the clock reads 10:00 (UTC). *)
Definition personA : Student := mkStudent "idA" "CS001" "A" "CS" student true.

Definition personB : Student := mkStudent "idB" "CS002" "B" "CS" student true.

Definition personC : Student := mkStudent "idC" "CS003" "C" "CS" student true.

Definition exampleStore : Store :=
  mkStore [personA; personB; personC]
    [mkRecord "r1" "idA" (9 * 3600000 + 2 * 60000) Present (Q2Qc (9 # 10));
     mkRecord "r2" "idB" (9 * 3600000 + 20 * 60000) Late (Q2Qc (9 # 10))].

Definition exampleNow : Z := 10 * 3600000.

(** Entries of person A for the trend at the clock reading of day 20:
    six of the day before, five of them attended, and fifteen of ten
    days before, eleven of them attended.  The exact rates, 250/3 and
    220/3, are exactly 10 points apart. *)
Definition entriesAt (n : nat) (t : Z) (st : Status) : list AttendanceRecord :=
  replicate n (mkRecord "r" "idA" t st 1%Qc).

Definition boundaryRecords : list AttendanceRecord :=
  entriesAt 11 (10 * msPerDay) Present ++ entriesAt 4 (10 * msPerDay) Absent
  ++ entriesAt 5 (19 * msPerDay) Present ++ entriesAt 1 (19 * msPerDay) Absent.

(** The same with the two windows exchanged in their rates: one of six
    against four of fifteen. *)
Definition boundaryRecordsBelow : list AttendanceRecord :=
  entriesAt 4 (10 * msPerDay) Present ++ entriesAt 11 (10 * msPerDay) Absent
  ++ entriesAt 1 (19 * msPerDay) Present ++ entriesAt 5 (19 * msPerDay) Absent.

(** The distinct keys of a list in the order in which they first occur. *)
Definition specFirstSeen (keys : list Z) : list Z :=
  foldl (λ seen k, if decide (k ∈ seen) then seen else seen ++ [k]) [] keys.

(** The counters of a group of records. *)
Definition specCounts (group : list AttendanceRecord)
    : StudentAnalytics.Counts :=
  StudentAnalytics.mkCounts (countStatus Present group)
    (countStatus Late group) (countStatus Absent group) (length group).

(** The records of the week with key [k]. *)
Definition weekGroup `{LocalZone} (k : Z) (records : list AttendanceRecord)
    : list AttendanceRecord :=
  filter (λ r, StudentAnalytics.weekKeyOf (timestamp r) = k) records.

(** * Properties *)

(** ** Percentages *)

Section Percent.
Local Open Scope Qc_scope.

Lemma Qc_of_nat_pos (b : nat) : (0 < b)%nat → 0 < Qc_of_Z (Z.of_nat b).
Proof.
  intros Hb. rewrite <- Z2Qc_inj_0. apply (proj1 (Z2Qc_inj_lt 0 _)). lia.
Qed.

Lemma percentOf_zero (b : nat) : percentOf 0 b = 0.
Proof.
  unfold percentOf. change (Z.of_nat 0) with 0%Z. rewrite Z2Qc_inj_0.
  unfold Qcdiv. by rewrite !Qcmult_0_l.
Qed.

Lemma percentOf_nonneg (a b : nat) : (0 < b)%nat → 0 ≤ percentOf a b.
Proof.
  intros Hb. unfold percentOf, Qcdiv.
  repeat apply Qcmult_nonneg_nonneg.
  - rewrite <- Z2Qc_inj_0. apply (proj1 (Z2Qc_inj_le 0 _)). lia.
  - apply Qclt_le_weak, Qcinv_pos, Qc_of_nat_pos, Hb.
  - rewrite <- Z2Qc_inj_0. by apply (proj1 (Z2Qc_inj_le 0 100)).
Qed.

Lemma percentOf_le_100 (a b : nat) :
  (0 < b)%nat → (a ≤ b)%nat → percentOf a b ≤ Qc_of_Z 100.
Proof.
  intros Hb Hab. unfold percentOf.
  rewrite <- (Qcmult_1_l (Qc_of_Z 100)) at 2.
  apply Qcmult_le_compat_r;
    [|rewrite <- Z2Qc_inj_0; by apply (proj1 (Z2Qc_inj_le 0 100))].
  pose proof (Qc_of_nat_pos b Hb) as Hpos.
  apply (Qcmult_lt_0_le_reg_r _ _ (Qc_of_Z (Z.of_nat b))); [done|].
  rewrite test_field, Qcmult_1_l.
  - apply (proj1 (Z2Qc_inj_le _ _)). lia.
  - apply not_eq_sym, Qclt_not_eq, Hpos.
Qed.

End Percent.

(** ** Sorting most recent first *)

Section SortDesc.
Import StudentMonitoring.

Lemma insertDesc_perm r l : insertDesc r l ≡ₚ r :: l.
Proof.
  induction l as [|y l IH]; simpl; [done|].
  case_decide; [done|]. rewrite IH. apply Permutation_swap.
Qed.

Lemma sortByTimestampDesc_perm l : sortByTimestampDesc l ≡ₚ l.
Proof.
  induction l as [|x l IH]; simpl; [done|].
  by rewrite insertDesc_perm, IH.
Qed.

Lemma insertDesc_sorted r l :
  StronglySorted notOlder l → StronglySorted notOlder (insertDesc r l).
Proof.
  induction l as [|y l IH]; simpl; intros Hs.
  - repeat constructor.
  - apply StronglySorted_cons in Hs as [Hy Hl]. case_decide as Hc.
    + apply StronglySorted_cons. split.
      * constructor; [done|].
        eapply Forall_impl; [exact Hy|]. unfold notOlder. intros; lia.
      * by apply StronglySorted_cons.
    + apply StronglySorted_cons. split; [|by apply IH].
      rewrite insertDesc_perm. constructor; [|done]. unfold notOlder. lia.
Qed.

Lemma sortByTimestampDesc_sorted l :
  StronglySorted notOlder (sortByTimestampDesc l).
Proof.
  induction l as [|x l IH]; simpl; [constructor|].
  by apply insertDesc_sorted.
Qed.

(** Records observed at the same time keep their stored order. *)
Lemma insertDesc_stable t r l :
  filter (λ x, timestamp x = t) (insertDesc r l)
  = filter (λ x, timestamp x = t) (r :: l).
Proof.
  induction l as [|y l IH]; simpl; [done|].
  case_decide as Hc; [done|].
  rewrite (filter_cons _ y), IH, !filter_cons.
  repeat case_decide; try done. lia.
Qed.

Lemma sortByTimestampDesc_stable t l :
  filter (λ x, timestamp x = t) (sortByTimestampDesc l)
  = filter (λ x, timestamp x = t) l.
Proof.
  induction l as [|x l IH]; simpl; [done|].
  rewrite insertDesc_stable, !filter_cons. by rewrite IH.
Qed.

Lemma sortByTimestampDesc_nil l : sortByTimestampDesc l = [] ↔ l = [].
Proof.
  split; [|by intros ->].
  intros E. apply Permutation_nil_r. rewrite <- E.
  by rewrite sortByTimestampDesc_perm.
Qed.

Lemma sortByTimestampDesc_head l r :
  head (sortByTimestampDesc l) = Some r →
  r ∈ l ∧ ∀ r', r' ∈ l → timestamp r' ≤ timestamp r.
Proof.
  intros Hh.
  pose proof (sortByTimestampDesc_perm l) as Hp.
  pose proof (sortByTimestampDesc_sorted l) as Hs.
  destruct (sortByTimestampDesc l) as [|x rest]; simplify_eq/=.
  apply StronglySorted_cons in Hs as [Hx _].
  split; [rewrite <- Hp; set_solver|].
  intros r' Hr'. rewrite <- Hp in Hr'.
  apply elem_of_cons in Hr' as [->|Hr']; [done|].
  rewrite Forall_forall in Hx. by apply Hx.
Qed.

Lemma countLeadingAbsent_run l :
  ∃ run rest,
    l = run ++ rest ∧ Forall isAbsent run ∧
    match rest with [] => True | r :: _ => attendedAt r end ∧
    countLeadingAbsent l = length run.
Proof.
  induction l as [|x l (run & rest & -> & Hrun & Hrest & Hlen)]; simpl.
  - by exists [], [].
  - case_decide as Hx.
    + exists (x :: run), rest. rewrite Hlen. by repeat split; [constructor|..].
    + by exists [], (x :: run ++ rest).
Qed.

End SortDesc.

(** ** Per-student statistics (StudentMonitoring) *)

Section Monitoring.
Import StudentMonitoring.

Lemma countStatus_cons st r l :
  countStatus st (r :: l)
  = ((if decide (status r = st) then 1 else 0) + countStatus st l)%nat.
Proof. unfold countStatus. rewrite filter_cons. by case_decide. Qed.

Lemma attended_le_total l :
  (countStatus Present l + countStatus Late l ≤ length l)%nat.
Proof.
  induction l as [|r l IH]; [done|].
  rewrite !countStatus_cons. simpl.
  repeat case_decide; try lia. congruence.
Qed.

Lemma counts_partition l :
  (countStatus Present l + countStatus Late l + countStatus Absent l
   = length l)%nat.
Proof.
  induction l as [|r l IH]; [done|].
  rewrite !countStatus_cons. simpl.
  destruct (status r); repeat case_decide; try congruence; lia.
Qed.

(** C6: consecutiveAbsences.  With the person's entries arranged most
    recent first (a stable rearrangement of the stored entries), the
    value is the length of the longest prefix made of Absent entries: the
    arrangement splits into a run of Absent entries, as long as the
    value, followed by nothing or by an entry that is not Absent.  It is 0
    for a person without entries and 0 when the most recent entry is not
    Absent. *)
Theorem consecutiveAbsences_leading_run
    (now : Z) (records : list AttendanceRecord) (s : Student) :
  let sorted := sortByTimestampDesc (recordsOf s records) in
  let n := consecutiveAbsences (studentStats now records s) in
  sorted ≡ₚ recordsOf s records ∧
  StronglySorted notOlder sorted ∧
  (∃ run rest,
      sorted = run ++ rest ∧ Forall isAbsent run ∧
      match rest with [] => True | r :: _ => attendedAt r end ∧
      n = length run) ∧
  (recordsOf s records = [] → n = 0%nat) ∧
  (∀ r, head sorted = Some r → attendedAt r → n = 0%nat).
Proof.
  intros sorted n. subst sorted n. unfold studentStats; simpl.
  fold (recordsOf s records).
  split; [apply sortByTimestampDesc_perm|].
  split; [apply sortByTimestampDesc_sorted|].
  split; [apply countLeadingAbsent_run|].
  split.
  - by intros ->.
  - intros r Hh Hr.
    destruct (sortByTimestampDesc (recordsOf s records)); simplify_eq/=.
    by case_decide.
Qed.

Lemma consecutiveAbsences_leading_run_witness :
  consecutiveAbsences
    (studentStats 0
       [mkRecord "r1" "s1" 10 Absent 1%Qc; mkRecord "r2" "s1" 30 Late 1%Qc;
        mkRecord "r3" "s1" 20 Absent 1%Qc]
       (mkStudent "s1" "CS001" "A" "CS" student true)) = 0%nat.
Proof.
  eapply (consecutiveAbsences_leading_run 0 _ _); [reflexivity|].
  unfold attendedAt. simpl. discriminate.
Defined.

(** C7 as amended: for a person whose entries, most recent first, are
    Present, Absent, Absent the value of consecutiveAbsences is 0, the
    most recent entry not being Absent; it is 2 when they are Absent,
    Absent, Present. *)
Theorem consecutiveAbsences_example
    (now : Z) (s : Student) (r1 r2 r3 : AttendanceRecord) :
  studentId r1 = id s → studentId r2 = id s → studentId r3 = id s →
  timestamp r3 ≤ timestamp r2 → timestamp r2 ≤ timestamp r1 →
  (status r1 = Present → status r2 = Absent → status r3 = Absent →
   consecutiveAbsences (studentStats now [r1; r2; r3] s) = 0%nat) ∧
  (status r1 = Absent → status r2 = Absent → status r3 = Present →
   consecutiveAbsences (studentStats now [r1; r2; r3] s) = 2%nat).
Proof.
  intros H1 H2 H3 H32 H21.
  unfold studentStats; simpl.
  rewrite !filter_cons, filter_nil.
  rewrite !decide_True by done. simpl.
  rewrite (decide_True (P := timestamp r3 ≤ timestamp r2)) by done. simpl.
  rewrite (decide_True (P := timestamp r2 ≤ timestamp r1)) by done. simpl.
  split; intros E1 E2 E3; rewrite E1, ?E2, ?E3; by simpl.
Qed.

Lemma consecutiveAbsences_example_witness :
  let s := mkStudent "s1" "CS001" "A" "CS" student true in
  consecutiveAbsences
    (studentStats 0
       [mkRecord "r1" "s1" 3 Present 1%Qc; mkRecord "r2" "s1" 2 Absent 1%Qc;
        mkRecord "r3" "s1" 1 Absent 1%Qc] s) = 0%nat.
Proof.
  intros s.
  apply (consecutiveAbsences_example 0 s
           (mkRecord "r1" "s1" 3 Present 1%Qc)
           (mkRecord "r2" "s1" 2 Absent 1%Qc)
           (mkRecord "r3" "s1" 1 Absent 1%Qc));
    simpl; try reflexivity; lia.
Defined.

(** C7 as first stated fails: on Present, Absent, Absent (most recent
    first) the code answers 0, not 2. *)
Lemma consecutiveAbsences_example_not_2 :
  consecutiveAbsences
    (studentStats 0
       [mkRecord "r1" "s1" 3 Present 1%Qc; mkRecord "r2" "s1" 2 Absent 1%Qc;
        mkRecord "r3" "s1" 1 Absent 1%Qc]
       (mkStudent "s1" "CS001" "A" "CS" student true)) ≠ 2%nat.
Proof. vm_compute. discriminate. Qed.

(** C8: attendancePercentage and lastAttended.  The percentage is
    (present + late) / total observed, times 100, over the person's own
    entries; it lies between 0 and 100 and is 0 for a person without
    entries.  lastAttended is the time of an entry of the person that is
    not Absent and that no other such entry exceeds; it is null exactly
    when every entry of the person is Absent (in particular when there is
    none). *)
Theorem attendancePercentage_lastAttended
    (now : Z) (records : list AttendanceRecord) (s : Student) :
  let mine := recordsOf s records in
  let st := studentStats now records s in
  totalClasses st = length mine ∧
  present st = length (filter (λ r, status r = Present) mine) ∧
  late st = length (filter (λ r, status r = Late) mine) ∧
  attendancePercentage st
  = (if decide (totalClasses st = 0%nat) then 0%Qc
     else (Qc_of_Z (Z.of_nat (present st + late st))
           / Qc_of_Z (Z.of_nat (totalClasses st)) * Qc_of_Z 100)%Qc) ∧
  (0 ≤ attendancePercentage st ≤ Qc_of_Z 100)%Qc ∧
  (mine = [] → attendancePercentage st = 0%Qc) ∧
  match lastAttended st with
  | Some t =>
      ∃ r, r ∈ mine ∧ attendedAt r ∧ timestamp r = t ∧
           ∀ r', r' ∈ mine → attendedAt r' → timestamp r' ≤ t
  | None => Forall isAbsent mine
  end.
Proof.
  intros mine st. subst mine st. unfold studentStats; simpl.
  fold (recordsOf s records).
  set (mine := recordsOf s records).
  pose proof (attended_le_total mine) as Hle.
  repeat split; try done.
  - repeat case_decide; try done; lia.
  - case_decide; [by apply percentOf_nonneg|done].
  - case_decide; [by apply percentOf_le_100|].
    rewrite <- Z2Qc_inj_0. by apply (proj1 (Z2Qc_inj_le 0 100)).
  - intros ->. by simpl.
  - destruct (head _) as [r|] eqn:Hh; simpl.
    + apply sortByTimestampDesc_head in Hh as [Hin Hmax].
      apply list_elem_of_filter in Hin as [Hatt Hin].
      exists r. repeat split; try done.
      intros r' Hr' Hatt'. apply Hmax. by apply list_elem_of_filter.
    + apply head_None in Hh.
      apply (proj1 (sortByTimestampDesc_nil _)) in Hh.
      apply Forall_forall. intros r Hr. unfold isAbsent.
      destruct (decide (status r = Absent)) as [|Hne]; [done|].
      assert (r ∈ filter (λ r, status r ≠ Absent) mine) as Hin
        by by apply list_elem_of_filter.
      rewrite Hh in Hin. by apply not_elem_of_nil in Hin.
Qed.

Lemma attendancePercentage_lastAttended_witness :
  attendancePercentage
    (studentStats 0 [mkRecord "r1" "s2" 10 Late 1%Qc]
       (mkStudent "s1" "CS001" "A" "CS" student true)) = 0%Qc.
Proof.
  by eapply (attendancePercentage_lastAttended 0 _ _).
Defined.

Lemma daysAgo_le (now t k : Z) :
  daysAgo now t ≤ k ↔ now - t < (k + 1) * msPerDay.
Proof.
  unfold daysAgo, msPerDay. change (1000 * 60 * 60 * 24) with 86400000.
  Z.to_euclidean_division_equations. lia.
Qed.

Lemma last7Days_spec now mine : last7Days now mine = specRecentWindow now mine.
Proof.
  apply list_filter_iff. intros r. rewrite daysAgo_le. by simpl.
Qed.

Lemma previous7Days_spec now mine :
  previous7Days now mine = specPriorWindow now mine.
Proof.
  apply list_filter_iff. intros r.
  rewrite daysAgo_le.
  assert (7 < daysAgo now (timestamp r) ↔ ¬ daysAgo now (timestamp r) ≤ 7)
    as -> by lia.
  rewrite daysAgo_le. simpl. lia.
Qed.

Lemma windowPercentage_counts w :
  windowPercentage w
  = doubleRateOf (length (filter attendedAt w)) (length w).
Proof. done. Qed.

Lemma specNonAbsentRate_counts w :
  specNonAbsentRate w = exactRateOf (length (filter attendedAt w)) (length w).
Proof.
  unfold specNonAbsentRate, exactRateOf.
  destruct w; [done|]. by rewrite decide_True by (simpl; lia).
Qed.

Lemma not_both_trends (l p : Qc) :
  (p + Qc_of_Z 10 < l)%Qc → (l < p - Qc_of_Z 10)%Qc → False.
Proof.
  intros H1 H2. pose proof (Qclt_trans _ _ _ H1 H2) as H.
  unfold Qcminus in H. apply Qcplus_lt_mono_l in H. by vm_compute in H.
Qed.

Lemma specTrend_spec (recent prior : Qc) :
  (specTrend recent prior = improving ↔ (prior + Qc_of_Z 10 < recent)%Qc) ∧
  (specTrend recent prior = declining ↔ (recent < prior - Qc_of_Z 10)%Qc) ∧
  (specTrend recent prior = stable
   ↔ ¬ (prior + Qc_of_Z 10 < recent)%Qc ∧ ¬ (recent < prior - Qc_of_Z 10)%Qc).
Proof.
  unfold specTrend. pose proof (not_both_trends recent prior) as Hx.
  repeat case_bool_decide; repeat split; try done; try tauto;
    try (intros [? ?]; tauto).
Qed.

Lemma classifyTrend_spec (l p : float) :
  (classifyTrend l p = declining
   ↔ PrimFloat.ltb l (PrimFloat.sub p 10%float) = true) ∧
  (classifyTrend l p = improving
   ↔ PrimFloat.ltb (PrimFloat.add p 10%float) l = true ∧
     PrimFloat.ltb l (PrimFloat.sub p 10%float) = false) ∧
  (classifyTrend l p = stable
   ↔ PrimFloat.ltb (PrimFloat.add p 10%float) l = false ∧
     PrimFloat.ltb l (PrimFloat.sub p 10%float) = false).
Proof.
  unfold classifyTrend.
  destruct (PrimFloat.ltb (PrimFloat.add p 10%float) l),
           (PrimFloat.ltb l (PrimFloat.sub p 10%float));
    repeat split; try done; by intros [? ?].
Qed.

(** The finite check: up to fourteen entries in each window the
    comparison of the doubles gives the trend of the exact rates. *)
Lemma forallCounts_spec (bound : nat) (f : nat → nat → nat → nat → bool) :
  forallCounts bound f = true →
  ∀ k n k' n' : nat,
    (k ≤ n)%nat → (n ≤ bound)%nat → (k' ≤ n')%nat → (n' ≤ bound)%nat →
    f k n k' n' = true.
Proof.
  intros H k n k' n' Hk Hn Hk' Hn'.
  assert (∀ a b : nat, (a ≤ b)%nat → In a (seq 0 (S b))) as Hin
    by (intros; apply in_seq; lia).
  unfold forallCounts in H.
  pose proof (proj1 (forallb_forall _ _) H n (Hin _ _ Hn)) as H1.
  pose proof (proj1 (forallb_forall _ _) H1 k (Hin _ _ Hk)) as H2.
  pose proof (proj1 (forallb_forall _ _) H2 n' (Hin _ _ Hn')) as H3.
  exact (proj1 (forallb_forall _ _) H3 k' (Hin _ _ Hk')).
Qed.

Lemma trendsAgree_14 : forallCounts 14 trendsAgree = true.
Proof. vm_compute. reflexivity. Qed.

Lemma trends_agree (k n k' n' : nat) :
  (k ≤ n)%nat → (n ≤ 14)%nat → (k' ≤ n')%nat → (n' ≤ 14)%nat →
  classifyTrend (doubleRateOf k n) (doubleRateOf k' n')
  = specTrend (exactRateOf k n) (exactRateOf k' n').
Proof.
  intros Hk Hn Hk' Hn'.
  pose proof (forallCounts_spec 14 trendsAgree trendsAgree_14
                k n k' n' Hk Hn Hk' Hn') as H.
  unfold trendsAgree in H. by apply bool_decide_eq_true in H.
Qed.

(** The second finite check: up to thirty entries in each window the
    comparison of the doubles leaves the trend of the exact rates only
    where these are 10 points apart or more. *)
Lemma trendsNear_30 : forallCounts 30 trendsNear = true.
Proof. vm_compute. reflexivity. Qed.

Lemma trends_near (k n k' n' : nat) :
  (k ≤ n)%nat → (n ≤ 30)%nat → (k' ≤ n')%nat → (n' ≤ 30)%nat →
  let exactRecent := exactRateOf k n in
  let exactPrior := exactRateOf k' n' in
  let t := classifyTrend (doubleRateOf k n) (doubleRateOf k' n') in
  ((exactPrior + Qc_of_Z 10 < exactRecent)%Qc → t = improving) ∧
  ((exactRecent < exactPrior - Qc_of_Z 10)%Qc → t = declining) ∧
  (t = improving → (exactPrior + Qc_of_Z 10 ≤ exactRecent)%Qc) ∧
  (t = declining → (exactRecent ≤ exactPrior - Qc_of_Z 10)%Qc).
Proof.
  intros Hk Hn Hk' Hn' exactRecent exactPrior t.
  pose proof (forallCounts_spec 30 trendsNear trendsNear_30
                k n k' n' Hk Hn Hk' Hn') as H4.
  unfold trendsNear in H4.
  fold exactRecent exactPrior t in H4.
  destruct (specTrend_spec exactRecent exactPrior) as (Hi & Hd & Hs).
  destruct (specTrend exactRecent exactPrior), t; try discriminate H4;
    try apply bool_decide_eq_true in H4;
    (split; [intros Hx; first [done|by apply Hi in Hx]|]);
    (split; [intros Hx; first [done|by apply Hd in Hx]|]);
    (split; [intros Hx; first [discriminate Hx|done
                              |by apply Qclt_le_weak, Hi]|]);
    intros Hx; first [discriminate Hx|done|by apply Qclt_le_weak, Hd].
Qed.

(** C4 as amended: the recent window holds the person's entries less than
    eight full days old (days 0 to 7 back), the prior window those 8 to
    14 days back.  Each window is rated by its share of entries that are
    not Absent, computed in double precision as (k / n) * 100, and 0 for
    an empty window; the two rates are compared in double precision.
    The trend is declining exactly when the recent rate is below the
    prior one minus 10, otherwise improving exactly when it is above the
    prior one plus 10, and stable otherwise.  When each window holds at
    most fourteen entries this is the rule on the exact rates: improving
    exactly when the recent rate is more than 10 points above the prior
    one, declining exactly when it is more than 10 points below, and
    stable otherwise.  When each window holds at most thirty entries the
    trend is still improving whenever the exact recent rate is more than
    10 points above and declining whenever it is more than 10 points
    below, and it is improving or declining only for exact rates at
    least 10 points apart in that direction. *)
Theorem trend_classification
    (now : Z) (records : list AttendanceRecord) (s : Student) :
  let mine := recordsOf s records in
  let recentWindow := specRecentWindow now mine in
  let priorWindow := specPriorWindow now mine in
  let recent := windowPercentage recentWindow in
  let prior := windowPercentage priorWindow in
  let t := trend (studentStats now records s) in
  (t = declining
   ↔ PrimFloat.ltb recent (PrimFloat.sub prior 10%float) = true) ∧
  (t = improving
   ↔ PrimFloat.ltb (PrimFloat.add prior 10%float) recent = true ∧
     PrimFloat.ltb recent (PrimFloat.sub prior 10%float) = false) ∧
  (t = stable
   ↔ PrimFloat.ltb (PrimFloat.add prior 10%float) recent = false ∧
     PrimFloat.ltb recent (PrimFloat.sub prior 10%float) = false) ∧
  (recentWindow = [] → recent = 0%float) ∧
  (priorWindow = [] → prior = 0%float) ∧
  (recentWindow ≠ [] →
   recent = percentOf64 (length (filter attendedAt recentWindow))
                        (length recentWindow)) ∧
  (priorWindow ≠ [] →
   prior = percentOf64 (length (filter attendedAt priorWindow))
                       (length priorWindow)) ∧
  ((length recentWindow ≤ 14)%nat → (length priorWindow ≤ 14)%nat →
   let exactRecent := specNonAbsentRate recentWindow in
   let exactPrior := specNonAbsentRate priorWindow in
   (t = improving ↔ (exactPrior + Qc_of_Z 10 < exactRecent)%Qc) ∧
   (t = declining ↔ (exactRecent < exactPrior - Qc_of_Z 10)%Qc) ∧
   (t = stable ↔ ¬ (exactPrior + Qc_of_Z 10 < exactRecent)%Qc ∧
                 ¬ (exactRecent < exactPrior - Qc_of_Z 10)%Qc)) ∧
  ((length recentWindow ≤ 30)%nat → (length priorWindow ≤ 30)%nat →
   let exactRecent := specNonAbsentRate recentWindow in
   let exactPrior := specNonAbsentRate priorWindow in
   ((exactPrior + Qc_of_Z 10 < exactRecent)%Qc → t = improving) ∧
   ((exactRecent < exactPrior - Qc_of_Z 10)%Qc → t = declining) ∧
   (t = improving → (exactPrior + Qc_of_Z 10 ≤ exactRecent)%Qc) ∧
   (t = declining → (exactRecent ≤ exactPrior - Qc_of_Z 10)%Qc)).
Proof.
  intros mine recentWindow priorWindow recent prior t.
  assert (t = classifyTrend recent prior) as Ht.
  { subst t recent prior recentWindow priorWindow mine.
    unfold studentStats; simpl. fold (recordsOf s records).
    by rewrite last7Days_spec, previous7Days_spec. }
  rewrite Ht.
  destruct (classifyTrend_spec recent prior) as (Hd & Hi & Hs).
  split; [exact Hd|]. split; [exact Hi|]. split; [exact Hs|].
  split; [by subst recent; intros ->|]. split; [by subst prior; intros ->|].
  split.
  { subst recent. destruct recentWindow; [done|]. intros _.
    unfold windowPercentage. by rewrite decide_True by (simpl; lia). }
  split.
  { subst prior. destruct priorWindow; [done|]. intros _.
    unfold windowPercentage. by rewrite decide_True by (simpl; lia). }
  split.
  - intros Hr Hp exactRecent exactPrior.
    subst recent prior exactRecent exactPrior.
    rewrite !windowPercentage_counts, !specNonAbsentRate_counts.
    rewrite trends_agree; [apply specTrend_spec| | | |]; try done;
      apply length_filter.
  - intros Hr Hp exactRecent exactPrior.
    subst recent prior exactRecent exactPrior.
    rewrite !windowPercentage_counts, !specNonAbsentRate_counts.
    apply trends_near; try done; apply length_filter.
Qed.

Lemma trend_classification_witness :
  let mine := recordsOf personA (attendance exampleStore) in
  trend (studentStats exampleNow (attendance exampleStore) personA) = stable
  ↔ ¬ (specNonAbsentRate (specPriorWindow exampleNow mine) + Qc_of_Z 10
       < specNonAbsentRate (specRecentWindow exampleNow mine))%Qc ∧
    ¬ (specNonAbsentRate (specRecentWindow exampleNow mine)
       < specNonAbsentRate (specPriorWindow exampleNow mine) - Qc_of_Z 10)%Qc.
Proof.
  apply (trend_classification exampleNow (attendance exampleStore) personA);
    simpl; lia.
Defined.

(** C4 as first stated fails where the exact rates are exactly 10
    points apart: with five of six entries attended in the recent window
    and eleven of fifteen in the prior one the recent rate does not
    exceed the prior one by more than 10 points, yet the doubles
    83.33333333333334 and 73.33333333333333 + 10 = 83.33333333333333
    make the trend improving. *)
Theorem trend_rounds_at_ten_points :
  let now := 20 * msPerDay in
  let mine := recordsOf personA boundaryRecords in
  let exactRecent := specNonAbsentRate (specRecentWindow now mine) in
  let exactPrior := specNonAbsentRate (specPriorWindow now mine) in
  length (specRecentWindow now mine) = 6%nat ∧
  length (specPriorWindow now mine) = 15%nat ∧
  ¬ (exactPrior + Qc_of_Z 10 < exactRecent)%Qc ∧
  (exactRecent ≤ exactPrior + Qc_of_Z 10)%Qc ∧
  (exactPrior + Qc_of_Z 10 ≤ exactRecent)%Qc ∧
  trend (studentStats now boundaryRecords personA) = improving.
Proof.
  cbv zeta. split; [reflexivity|]. split; [reflexivity|].
  split; [by vm_compute|]. split; [by vm_compute|]. split; [by vm_compute|].
  reflexivity.
Qed.

(** The mirror image: one of six against four of fifteen is exactly 10
    points below and is classified declining. *)
Example trend_rounds_below_ten_points :
  let now := 20 * msPerDay in
  let mine := recordsOf personA boundaryRecordsBelow in
  ¬ (specNonAbsentRate (specRecentWindow now mine)
     < specNonAbsentRate (specPriorWindow now mine) - Qc_of_Z 10)%Qc ∧
  trend (studentStats now boundaryRecordsBelow personA) = declining.
Proof.
  cbv zeta. split; [by vm_compute|]. reflexivity.
Qed.

(** The trend on concrete data: two entries this week, both attended,
    against two entries the week before, one of them Absent (100 against
    50 percent), and the same with the weeks exchanged. *)
Example trend_improving :
  let day := msPerDay in
  trend (studentStats (20 * day)
           [mkRecord "r1" "s1" (8 * day) Absent 1%Qc;
            mkRecord "r2" "s1" (9 * day) Present 1%Qc;
            mkRecord "r3" "s1" (18 * day) Late 1%Qc;
            mkRecord "r4" "s1" (19 * day) Present 1%Qc]
           (mkStudent "s1" "CS001" "A" "CS" student true)) = improving.
Proof. reflexivity. Qed.

Example trend_declining :
  let day := msPerDay in
  trend (studentStats (20 * day)
           [mkRecord "r1" "s1" (8 * day) Late 1%Qc;
            mkRecord "r2" "s1" (9 * day) Present 1%Qc;
            mkRecord "r3" "s1" (18 * day) Absent 1%Qc;
            mkRecord "r4" "s1" (19 * day) Present 1%Qc]
           (mkStudent "s1" "CS001" "A" "CS" student true)) = declining.
Proof. reflexivity. Qed.

End Monitoring.

(** ** Status derivation and attendance marking (AttendanceMarking) *)

Import AttendanceMarking.

Section Marking.
Context {zone : LocalZone}.

Lemma currentTime_minuteOfDay (now : Z) :
  getHours now * 60 + getMinutes now = specMinuteOfDay now.
Proof.
  unfold getHours, getMinutes, specMinuteOfDay.
  generalize (msOfLocalDay now). intros m.
  Z.to_euclidean_division_equations. lia.
Qed.

Lemma statusAt_Present (now : Z) :
  statusAt now = Present ↔ specMinuteOfDay now ≤ 9 * 60 + 15.
Proof.
  unfold statusAt. rewrite currentTime_minuteOfDay.
  unfold lateThreshold, lectureStart. case_decide; split; intros; try done; lia.
Qed.

Lemma statusAt_Late (now : Z) :
  statusAt now = Late ↔ 9 * 60 + 15 < specMinuteOfDay now.
Proof.
  unfold statusAt. rewrite currentTime_minuteOfDay.
  unfold lateThreshold, lectureStart. case_decide; split; intros; try done; lia.
Qed.

(** Whatever [captureAndRecognize] does to the store, it is at most one
    appended record, stamped [now] and carrying the status derived from
    [now]. *)
Lemma captureAndRecognize_store db result now today newId :
  let db' := (captureAndRecognize db result now today newId).1 in
  students db' = students db ∧
  (attendance db' = attendance db ∨
   ∃ r, attendance db' = attendance db ++ [r] ∧
        timestamp r = now ∧ status r = statusAt now).
Proof.
  unfold captureAndRecognize.
  destruct (recognized result) as [|[s c] rest]; simpl; [by auto|].
  case_decide; simpl; [|by auto].
  destruct (alreadyMarked db today (id s)); simpl; [by auto|].
  split; [done|]. right. by eexists.
Qed.

Lemma alreadyMarked_Some db today sid :
  is_Some (alreadyMarked db today sid) ↔ markedToday db today sid.
Proof.
  unfold alreadyMarked, markedToday. rewrite fmap_is_Some. split.
  - intros [[i r] Hf]. apply list_find_Some in Hf as (Hi & Hr & _).
    exists r. split; [|done]. by eapply list_elem_of_lookup_2.
  - intros (r & Hin & Hr).
    by eapply (list_find_elem_of (λ r, studentId r = sid)).
Qed.

Lemma alreadyMarked_None db today sid :
  alreadyMarked db today sid = None ↔ ¬ markedToday db today sid.
Proof.
  rewrite <- alreadyMarked_Some, <- eq_None_not_Some. done.
Qed.

Lemma markedToday_mono db db' today sid added :
  attendance db' = attendance db ++ added →
  markedToday db today sid → markedToday db' today sid.
Proof.
  intros E (r & Hin & Hr). exists r. split; [|done].
  unfold getTodayAttendance, getAttendanceRecords in *.
  rewrite E, filter_app. set_solver.
Qed.

Lemma markEach_spec st now today genId detections :
  ∀ db marked,
    let out := markEach db detections st now today genId marked in
    students out.1 = students db ∧
    out.2 = marked ++ ((λ d, mkMarked d.1 d.2 st) <$> filter qualifies detections) ∧
    ∃ added,
      attendance out.1 = attendance db ++ added ∧
      Forall (λ r, timestamp r = now ∧ status r = st ∧
                   ¬ markedToday db today (studentId r) ∧
                   ∃ d, d ∈ detections ∧ qualifies d ∧
                        studentId r = id d.1 ∧ confidence r = d.2) added.
Proof.
  induction detections as [|[s c] rest IH]; intros db marked; simpl.
  - rewrite app_nil_r. repeat split; try done. exists []. by rewrite app_nil_r.
  - rewrite filter_cons.
    destruct (decide (qualifies (s, c))) as [Hq|Hq];
      unfold qualifies in Hq; simpl in Hq;
      [rewrite decide_True by done|rewrite decide_False by done].
    + destruct (alreadyMarked db today (id s)) as [r0|] eqn:Ha.
      * destruct (IH db (marked ++ [mkMarked s c st])) as (Hs & Hm & added & Ha' & Hall).
        split; [done|]. split; [by rewrite Hm, fmap_cons, <- app_assoc|].
        exists added. split; [done|].
        eapply Forall_impl; [exact Hall|]. simpl.
        intros r (? & ? & ? & d & ? & ?). repeat split; try done.
        exists d. split; [by apply list_elem_of_further|done].
      * match goal with |- context [markEach ?d rest] => set (db1 := d) end.
        destruct (IH db1 (marked ++ [mkMarked s c st])) as (Hs & Hm & added & Ha' & Hall).
        split; [done|]. split; [by rewrite Hm, fmap_cons, <- app_assoc|].
        eexists (_ :: added). split.
        { rewrite Ha'. subst db1. simpl. unfold getAttendanceRecords.
          by rewrite <- app_assoc. }
        constructor.
        { simpl. repeat split; try done.
          - by apply alreadyMarked_None.
          - exists (s, c). split; [by apply list_elem_of_here|done]. }
        eapply Forall_impl; [exact Hall|]. simpl.
        intros r (? & ? & Hn & d & ? & ?). repeat split; try done.
        -- intros Hm'. apply Hn. eapply markedToday_mono; [|done].
           subst db1. simpl. done.
        -- exists d. split; [by apply list_elem_of_further|done].
    + destruct (IH db marked) as (Hs & Hm & added & Ha' & Hall).
      split; [done|]. split; [done|].
      exists added. split; [done|].
      eapply Forall_impl; [exact Hall|]. simpl.
      intros r (? & ? & ? & d & ? & ?). repeat split; try done.
      exists d. split; [by apply list_elem_of_further|done].
Qed.

Lemma processUploadedImage_spec db detection now today genId :
  let out := processUploadedImage db detection now today genId in
  students out.1.1 = students db ∧
  out.1.2 = ((λ d, mkMarked d.1 d.2 (statusAt now))
               <$> filter qualifies (recognized detection)) ∧
  ∃ added,
    attendance out.1.1 = attendance db ++ added ∧
    Forall (λ r, timestamp r = now ∧ status r = statusAt now ∧
                 ¬ markedToday db today (studentId r)) added.
Proof.
  unfold processUploadedImage.
  pose proof (markEach_spec (statusAt now) now today genId
                (recognized detection) db [])
    as (Hs & Hm & added & Ha & Hall).
  destruct (markEach db (recognized detection) _ _ _ _ _)
    as [db' marked] eqn:E.
  destruct (recognized detection) as [|d rest] eqn:Hrec; cbn [fst snd] in *.
  - split; [done|]. split; [done|]. exists []. by rewrite app_nil_r.
  - split; [done|]. split; [done|].
    exists added. split; [done|].
    eapply Forall_impl; [exact Hall|]. simpl. tauto.
Qed.

(** C10: no second record for a person already marked today.  On the
    single-capture path the recognition of such a person leaves the store
    as it was and ends in an error, which for a confident recognition is
    "already marked".  On the classroom path the people collection is
    untouched, every record appended belongs to a person who had no
    record today, and the result list names every detection at or above
    the confidence threshold, already marked or not. *)
Theorem no_duplicate_marking
    (db : Store) (detection : Detection) (now today : Z) :
  (∀ newId s c rest,
      recognized detection = (s, c) :: rest →
      markedToday db today (id s) →
      let out := captureAndRecognize db detection now today newId in
      out.1 = db ∧ resStatus out.2 = error ∧
      ((threshold < c)%Qc →
       out.2 = mkResult (Some s) c error AlreadyMarked)) ∧
  (∀ genId,
      let out := processUploadedImage db detection now today genId in
      students out.1.1 = students db ∧
      (∃ added,
          attendance out.1.1 = attendance db ++ added ∧
          Forall (λ r, ¬ markedToday db today (studentId r)) added) ∧
      out.1.2 = (λ d, mkMarked d.1 d.2 (statusAt now))
                  <$> filter qualifies (recognized detection)).
Proof.
  split.
  - intros newId s c rest Hrec Hm. unfold captureAndRecognize.
    rewrite Hrec. simpl.
    apply alreadyMarked_Some in Hm as [r0 ->].
    case_decide; simpl; [done|]. repeat split. by intros.
  - intros genId.
    destruct (processUploadedImage_spec db detection now today genId)
      as (Hs & Hm & added & Ha & Hall).
    split; [done|]. split; [|done].
    exists added. split; [done|].
    eapply Forall_impl; [exact Hall|]. simpl. tauto.
Qed.

End Marking.

Lemma no_duplicate_marking_witness :
  let a := mkStudent "s1" "CS001" "A" "CS" student true in
  let db := mkStore [a] [mkRecord "r1" "s1" 0 Present (Q2Qc (9 # 10))] in
  let seen := mkDetection 1 [(a, Q2Qc (9 # 10))] in
  (@captureAndRecognize 0 db seen 60000 60000 "r2").2
  = mkResult (Some a) (Q2Qc (9 # 10)) error AlreadyMarked.
Proof.
  intros a db seen.
  apply (proj1 (@no_duplicate_marking 0 db seen 60000 60000) "r2" a _ []).
  - reflexivity.
  - exists (mkRecord "r1" "s1" 0 Present (Q2Qc (9 # 10))).
    split; [|reflexivity]. apply list_elem_of_here.
  - reflexivity.
Defined.

(** ** The stored status is what is aggregated *)

Lemma recordsOf_retimed g s records :
  recordsOf s (retimed g <$> records) = retimed g <$> recordsOf s records.
Proof.
  unfold recordsOf. induction records as [|r l IH]; [done|].
  rewrite fmap_cons, !filter_cons, IH. simpl. by case_decide.
Qed.

Lemma countStatus_retimed g st l :
  countStatus st (retimed g <$> l) = countStatus st l.
Proof.
  induction l as [|r l IH]; [done|].
  by rewrite fmap_cons, !countStatus_cons, IH.
Qed.

Lemma getTodayAttendance_retimed `{LocalZone} g people records today :
  Forall (λ r, localDay (g r) = localDay (timestamp r)) records →
  getTodayAttendance (mkStore people (retimed g <$> records)) today
  = retimed g <$> getTodayAttendance (mkStore people records) today.
Proof.
  unfold getTodayAttendance, getAttendanceRecords. simpl.
  induction 1 as [|r l Hg _ IH]; [done|].
  rewrite fmap_cons, !filter_cons, IH. unfold sameLocalDay. simpl.
  destruct (decide (localDay (g r) = localDay today)) as [H1|H1];
    destruct (decide (localDay (timestamp r) = localDay today)) as [H2|H2];
    try done; by rewrite Hg in H1.
Qed.



(** A record stored as Present although stamped 10:00 is counted as
    Present by the statistics. *)
Example stored_status_is_counted :
  let a := mkStudent "s1" "CS001" "A" "CS" student true in
  let r := mkRecord "r1" "s1" (10 * 3600000) Present 1%Qc in
  @statusAt 0 (timestamp r) = Late ∧
  StudentMonitoring.present (StudentMonitoring.studentStats 0 [r] a) = 1%nat ∧
  Dashboard.presentToday (@Dashboard.loadDashboardData 0 (mkStore [a] [r]) 0)
  = 1%nat.
Proof. by vm_compute. Qed.

(** ** Daily summaries (Dashboard, FacultyAnalytics, StudentAnalytics) *)

Lemma last_filter_Some {A} (P : A → Prop) `{!∀ x, Decision (P x)} l r :
  last (filter P l) = Some r ↔ lastStored P l r.
Proof.
  unfold lastStored. induction l as [|x l IH] using rev_ind.
  - split; [done|]. intros (before & after & E & _). by destruct before.
  - rewrite filter_app, filter_cons, filter_nil.
    destruct (decide (P x)) as [Hx|Hx].
    + rewrite last_snoc. split.
      * intros [= ->]. exists l, []. by repeat split.
      * intros (before & after & E & Hr & Hafter).
        destruct after as [|y after _] using rev_ind.
        -- apply app_inj_tail in E as [_ ->]. done.
        -- rewrite app_comm_cons, app_assoc in E.
           apply app_inj_tail in E as [_ ->].
           apply Forall_app in Hafter as [_ Hy].
           rewrite Forall_singleton in Hy. by destruct Hy.
    + rewrite app_nil_r, IH. split.
      * intros (before & after & -> & Hr & Hafter).
        exists before, (after ++ [x]).
        rewrite <- app_assoc. repeat split; try done.
        apply Forall_app. split; [done|]. by rewrite Forall_singleton.
      * intros (before & after & E & Hr & Hafter).
        destruct after as [|y after _] using rev_ind.
        -- apply app_inj_tail in E as [_ ->]. done.
        -- rewrite app_comm_cons, app_assoc in E.
           apply app_inj_tail in E as [-> ->].
           apply Forall_app in Hafter as [Hafter _]. by exists before, after.
Qed.

Lemma last_filter_None {A} (P : A → Prop) `{!∀ x, Decision (P x)} l :
  last (filter P l) = None ↔ Forall (λ x, ¬ P x) l.
Proof.
  rewrite last_None. split.
  - intros E. apply Forall_forall. intros x Hx HP.
    assert (x ∈ filter P l) as Hin by by apply list_elem_of_filter.
    rewrite E in Hin. by apply not_elem_of_nil in Hin.
  - intros HF. induction HF as [|x l Hx _ IH]; [done|].
    by rewrite filter_cons, decide_False.
Qed.

Lemma lastStored_latest (P : AttendanceRecord → Prop) l r :
  StronglySorted notNewer l → lastStored P l r →
  ∀ r', r' ∈ l → P r' → timestamp r' ≤ timestamp r.
Proof.
  intros Hs (before & after & -> & Hr & Hafter) r' Hin HP.
  apply elem_of_app in Hin as [Hin|Hin].
  - eapply (StronglySorted_app_1_elem_of notNewer); [done..|].
    apply list_elem_of_here.
  - apply elem_of_cons in Hin as [->|Hin]; [done|].
    rewrite Forall_forall in Hafter. by destruct (Hafter r' Hin).
Qed.

Lemma attendanceMapOf_lookup (l : list AttendanceRecord) (sid : string) :
  FacultyAnalytics.attendanceMapOf l !! sid
  = last (filter (λ r, studentId r = sid) l).
Proof.
  unfold FacultyAnalytics.attendanceMapOf.
  induction l as [|x l IH] using rev_ind; [done|].
  rewrite foldl_app, filter_app, filter_cons, filter_nil. simpl.
  destruct (decide (studentId x = sid)) as [<-|Hne].
  - by rewrite lookup_insert_eq, last_snoc.
  - by rewrite lookup_insert_ne, app_nil_r.
Qed.

Lemma sessionRow_empty (s : Student) :
  FacultyAnalytics.sessionRow ∅ s
  = FacultyAnalytics.mkSessionStudent s Absent FacultyAnalytics.none None None.
Proof. unfold FacultyAnalytics.sessionRow. by rewrite lookup_empty. Qed.

Lemma absentRows_count st (l : list Student) :
  length (filter (λ d, FacultyAnalytics.sessStatus d = st)
                 (FacultyAnalytics.sessionRow ∅ <$> l))
  = if decide (st = Absent) then length l else 0%nat.
Proof.
  induction l as [|s l IH]; [by case_decide|].
  rewrite fmap_cons, filter_cons, sessionRow_empty.
  cbn [FacultyAnalytics.sessStatus].
  destruct (decide (st = Absent)) as [->|Hne].
  - rewrite decide_True by done. simpl. by rewrite IH.
  - by rewrite decide_False by done.
Qed.

Lemma calculateStats_all_absent (l : list Student) :
  let st := FacultyAnalytics.calculateStats
              (FacultyAnalytics.sessionRow ∅ <$> l) in
  FacultyAnalytics.present st = 0%nat ∧ FacultyAnalytics.late st = 0%nat ∧
  FacultyAnalytics.absent st = length l ∧
  FacultyAnalytics.absent st = FacultyAnalytics.total st ∧
  FacultyAnalytics.attendanceRate st = 0%Qc.
Proof.
  unfold FacultyAnalytics.calculateStats.
  cbn [FacultyAnalytics.present FacultyAnalytics.late FacultyAnalytics.absent
       FacultyAnalytics.total FacultyAnalytics.attendanceRate].
  rewrite !absentRows_count, length_fmap.
  rewrite !decide_False by done. rewrite decide_True by done.
  repeat split. case_decide; [apply percentOf_zero|done].
Qed.

Section Daily.
Context {zone : LocalZone}.

Lemma getDayAttendance_Some mine date st :
  StudentAnalytics.getDayAttendance mine date = Some st
  ↔ ∃ r, lastStored (λ r, sameLocalDay (timestamp r) date) mine r ∧
         status r = st.
Proof.
  unfold StudentAnalytics.getDayAttendance. rewrite fmap_Some.
  split; intros (r & Hr & E); exists r; split; try done.
  - by apply last_filter_Some in Hr.
  - by apply last_filter_Some.
Qed.

Lemma todayOf_filter db today sid :
  filter (λ r, studentId r = sid) (getTodayAttendance db today)
  = filter (λ r, sameLocalDay (timestamp r) today ∧ studentId r = sid)
           (attendance db).
Proof.
  unfold getTodayAttendance, getAttendanceRecords.
  induction (attendance db) as [|r l IH]; [done|].
  rewrite !filter_cons.
  destruct (decide (sameLocalDay (timestamp r) today)) as [Hd|Hd].
  - rewrite filter_cons, IH.
    destruct (decide (studentId r = sid)) as [Hs|Hs].
    + by rewrite decide_True.
    + by rewrite decide_False by tauto.
  - by rewrite IH, decide_False by tauto.
Qed.

Lemma sessionRow_last db today s r :
  lastStored (λ r, sameLocalDay (timestamp r) today ∧ studentId r = id s)
             (attendance db) r →
  FacultyAnalytics.sessionRow
    (FacultyAnalytics.attendanceMapOf (getTodayAttendance db today)) s
  = FacultyAnalytics.mkSessionStudent s (status r)
      (if decide (confidence r = 1%Qc) then FacultyAnalytics.manual
       else FacultyAnalytics.faceRecognition)
      (Some (timestamp r)) (Some (confidence r)).
Proof.
  intros Hl. apply (proj2 (last_filter_Some _ _ _)) in Hl.
  unfold FacultyAnalytics.sessionRow.
  by rewrite attendanceMapOf_lookup, todayOf_filter, Hl.
Qed.

Lemma sessionRow_none db today s :
  ¬ markedToday db today (id s) →
  FacultyAnalytics.sessionRow
    (FacultyAnalytics.attendanceMapOf (getTodayAttendance db today)) s
  = FacultyAnalytics.mkSessionStudent s Absent FacultyAnalytics.none None None.
Proof.
  intros Hn. unfold FacultyAnalytics.sessionRow.
  rewrite attendanceMapOf_lookup.
  assert (last (filter (λ r, studentId r = id s) (getTodayAttendance db today))
          = None) as ->; [|done].
  apply last_filter_None, Forall_forall. intros r Hin Hr.
  apply Hn. by exists r.
Qed.

(** C5 as amended: for a person with several entries on one day the
    daily views take the status of the entry of that day that comes last
    in stored order.  When the stored entries are in chronological order
    that entry has the latest time of the person's entries of the day,
    stored order deciding among equal times. *)
Theorem daily_status_last_stored :
  (∀ mine date st,
      StudentAnalytics.getDayAttendance mine date = Some st
      ↔ ∃ r, lastStored (λ r, sameLocalDay (timestamp r) date) mine r ∧
             status r = st) ∧
  (∀ db today s r,
      lastStored (λ r, sameLocalDay (timestamp r) today ∧ studentId r = id s)
                 (attendance db) r →
      let row := FacultyAnalytics.sessionRow
                   (FacultyAnalytics.attendanceMapOf
                      (getTodayAttendance db today)) s in
      FacultyAnalytics.sessStatus row = status r ∧
      FacultyAnalytics.sessTimestamp row = Some (timestamp r)) ∧
  (∀ (P : AttendanceRecord → Prop) l r,
      StronglySorted notNewer l → lastStored P l r →
      ∀ r', r' ∈ l → P r' → timestamp r' ≤ timestamp r).
Proof.
  split; [|split].
  - apply getDayAttendance_Some.
  - intros db today s r Hl. simpl. by rewrite (sessionRow_last db today s r).
  - apply lastStored_latest.
Qed.


End Daily.


Lemma daily_status_last_stored_witness :
  let r1 := mkRecord "r1" "idA" 1000 Late 1%Qc in
  let r2 := mkRecord "r2" "idA" 2000 Present 1%Qc in
  @StudentAnalytics.getDayAttendance 0 [r1; r2] 0 = Some Present.
Proof.
  intros r1 r2.
  apply (proj1 (@daily_status_last_stored 0)).
  exists r2. split; [|reflexivity].
  exists [r1], []. split; [reflexivity|split; [reflexivity|constructor]].
Defined.

(** C5 as first stated fails: with the later entry stored first, the
    daily views answer with the entry stored last, not with the entry
    whose time is latest. *)
Lemma daily_status_not_latest_time :
  let early := mkRecord "r2" "idA" (9 * 3600000) Late 1%Qc in
  let later := mkRecord "r1" "idA" (10 * 3600000) Present 1%Qc in
  let db := mkStore [personA] [later; early] in
  timestamp early < timestamp later ∧
  @StudentAnalytics.getDayAttendance 0 (attendance db) exampleNow
  = Some (status early) ∧
  FacultyAnalytics.sessStatus <$> (@FacultyAnalytics.loadTodaySession 0 db exampleNow).1
  = [status early] ∧
  status early ≠ status later.
Proof. by vm_compute. Qed.

(** ** The attendance rate of the day *)

(** The session view divides present + late by the number of people it
    lists; the rate is 0 when it lists no one. *)
Lemma calculateStats_rate (rows : list FacultyAnalytics.TodaySessionStudent) :
  let st := FacultyAnalytics.calculateStats rows in
  FacultyAnalytics.total st = length rows ∧
  FacultyAnalytics.attendanceRate st
  = (if decide (length rows = 0%nat) then 0%Qc
     else percentOf (FacultyAnalytics.present st + FacultyAnalytics.late st)
                    (length rows)).
Proof.
  unfold FacultyAnalytics.calculateStats. simpl. split; [done|].
  repeat case_decide; try done; lia.
Qed.

(** The dashboard divides the Present entries alone by the number of
    people; the rate is 0 when there is no one. *)
Lemma loadDashboardData_rate `{LocalZone} (db : Store) (today : Z) :
  let st := Dashboard.loadDashboardData db today in
  Dashboard.attendanceRate st
  = (if decide (length (students db) = 0%nat) then 0%Qc
     else percentOf (Dashboard.presentToday st) (length (students db))).
Proof.
  unfold Dashboard.loadDashboardData, getStudents. simpl.
  repeat case_decide; try done; lia.
Qed.

(** C1 on the example of the specification (people A, B, C; A Present at
    09:02, B Late at 09:20): the dashboard counts present 1, late 1,
    absent 1 of 3 and reports the rate 100/3, which is not
    (present + late) / 3 = 200/3; the session view reports 200/3 on the
    same store. *)
Theorem dashboard_rate_omits_late :
  let st := @Dashboard.loadDashboardData 0 exampleStore exampleNow in
  let session := (@FacultyAnalytics.loadTodaySession 0 exampleStore exampleNow).2 in
  Dashboard.totalStudents st = 3%nat ∧
  Dashboard.presentToday st = 1%nat ∧
  Dashboard.lateToday st = 1%nat ∧
  Dashboard.absentToday st = 1 ∧
  Dashboard.attendanceRate st = Q2Qc (100 # 3) ∧
  Dashboard.attendanceRate st
  ≠ percentOf (Dashboard.presentToday st + Dashboard.lateToday st)
              (Dashboard.totalStudents st) ∧
  FacultyAnalytics.attendanceRate session = Q2Qc (200 # 3) ∧
  FacultyAnalytics.attendanceRate session
  = percentOf (FacultyAnalytics.present session + FacultyAnalytics.late session)
              (FacultyAnalytics.total session).
Proof.
  intros st session.
  do 4 (split; [by vm_compute|]).
  split; [apply Qc_is_canon; by vm_compute|].
  split; [intros E; apply (f_equal this) in E; by vm_compute in E|].
  split; apply Qc_is_canon; by vm_compute.
Qed.

(** ** Weekly buckets (StudentAnalytics) *)

Section FirstSeen.

Lemma specFirstSeen_snoc keys k :
  specFirstSeen (keys ++ [k])
  = if decide (k ∈ specFirstSeen keys) then specFirstSeen keys
    else specFirstSeen keys ++ [k].
Proof. unfold specFirstSeen. by rewrite foldl_snoc. Qed.

Lemma specFirstSeen_elem_of keys k : k ∈ specFirstSeen keys ↔ k ∈ keys.
Proof.
  revert k. induction keys as [|x keys IH] using rev_ind; intros k; [done|].
  rewrite specFirstSeen_snoc. case_decide as Hx.
  - rewrite IH in Hx. rewrite IH, elem_of_app, list_elem_of_singleton.
    split; [by left|]. by intros [?| ->].
  - by rewrite !elem_of_app, IH.
Qed.

Lemma specFirstSeen_NoDup keys : NoDup (specFirstSeen keys).
Proof.
  induction keys as [|x keys IH] using rev_ind; [constructor|].
  rewrite specFirstSeen_snoc. case_decide as Hx; [done|].
  apply NoDup_app. repeat split; [done| |apply NoDup_singleton].
  intros y Hy Hy'. apply list_elem_of_singleton in Hy' as ->. done.
Qed.

Lemma specFirstSeen_increasing keys :
  StronglySorted Z.le keys → StronglySorted Z.lt (specFirstSeen keys).
Proof.
  induction keys as [|x keys IH] using rev_ind; [constructor|].
  intros Hs. apply StronglySorted_app in Hs as (Hle & Hkeys & _).
  rewrite specFirstSeen_snoc. case_decide as Hx; [by apply IH|].
  apply StronglySorted_app. split; [|split; [by apply IH|repeat constructor]].
  intros a b Ha Hb. apply list_elem_of_singleton in Hb as ->.
  assert (a ≠ x) by (intros ->; by apply Hx).
  apply (proj1 (specFirstSeen_elem_of _ _)) in Ha.
  assert (a ≤ x) by (apply Hle; [done|apply list_elem_of_here]). lia.
Qed.

End FirstSeen.

Section Weekly.
Import StudentAnalytics.
Context {zone : LocalZone}.

Lemma countStatus_snoc st l r :
  countStatus st (l ++ [r])
  = (countStatus st l + if decide (status r = st) then 1 else 0)%nat.
Proof.
  unfold countStatus. rewrite filter_app, filter_cons, filter_nil, length_app.
  by case_decide.
Qed.

Lemma specCounts_snoc l r :
  specCounts (l ++ [r]) = tally (status r) (specCounts l).
Proof.
  unfold specCounts, tally. rewrite !countStatus_snoc, length_app. simpl.
  destruct (status r); simpl; f_equal; lia.
Qed.

Lemma weekGroup_snoc k l r :
  weekGroup k (l ++ [r])
  = if decide (weekKeyOf (timestamp r) = k) then weekGroup k l ++ [r]
    else weekGroup k l.
Proof.
  unfold weekGroup. rewrite filter_app, filter_cons, filter_nil.
  case_decide; [done|by rewrite app_nil_r].
Qed.

Lemma weekGroup_nil k records :
  k ∉ (λ r, weekKeyOf (timestamp r)) <$> records → weekGroup k records = [].
Proof.
  intros Hk. unfold weekGroup.
  induction records as [|r l IH]; [done|].
  rewrite fmap_cons, not_elem_of_cons in Hk. destruct Hk as [Hne Hk].
  rewrite filter_cons, decide_False by done. by apply IH.
Qed.

Lemma tallyInto_cons key st k w rest :
  tallyInto key st ((k, w) :: rest)
  = if decide (k = key) then (k, tally st w) :: rest
    else (k, w) :: tallyInto key st rest.
Proof. done. Qed.

Lemma tallyInto_fmap (f : Z → Counts) k st ks :
  NoDup ks →
  tallyInto k st ((λ k', (k', f k')) <$> ks)
  = if decide (k ∈ ks)
    then (λ k', (k', if decide (k' = k) then tally st (f k') else f k')) <$> ks
    else ((λ k', (k', f k')) <$> ks) ++ [(k, tally st (mkCounts 0 0 0 0))].
Proof.
  induction ks as [|x ks IH]; intros Hnd.
  - by rewrite decide_False by apply not_elem_of_nil.
  - apply NoDup_cons in Hnd as [Hx Hnd].
    rewrite (fmap_cons _ x ks), tallyInto_cons.
    destruct (decide (x = k)) as [->|Hne].
    + rewrite decide_True by apply list_elem_of_here.
      rewrite !fmap_cons, decide_True by done. f_equal.
      apply Forall_fmap_ext_1, Forall_forall. intros y Hy.
      rewrite decide_False; [done|]. by intros ->.
    + rewrite IH by done. destruct (decide (k ∈ ks)) as [Hin|Hin].
      * rewrite decide_True by by apply list_elem_of_further.
        by rewrite !fmap_cons, decide_False.
      * rewrite decide_False; [done|].
        rewrite not_elem_of_cons. by split; [intros ->|].
Qed.

(** The week map in closed form: one entry per week key, in the order in
    which the keys first occur, holding the counters of the week. *)
Lemma weekMapOf_closed records :
  weekMapOf records
  = (λ k, (k, specCounts (weekGroup k records)))
      <$> specFirstSeen ((λ r, weekKeyOf (timestamp r)) <$> records).
Proof.
  induction records as [|r l IH] using rev_ind; [done|].
  unfold weekMapOf in *. rewrite foldl_snoc, IH.
  rewrite fmap_app. cbn [fmap list_fmap]. rewrite specFirstSeen_snoc.
  set (keys := (λ r, weekKeyOf (timestamp r)) <$> l).
  rewrite (tallyInto_fmap (λ k, specCounts (weekGroup k l)))
    by apply specFirstSeen_NoDup.
  destruct (decide (weekKeyOf (timestamp r) ∈ specFirstSeen keys)) as [Hin|Hin].
  - apply Forall_fmap_ext_1, Forall_forall. intros k Hk.
    rewrite weekGroup_snoc.
    destruct (decide (k = weekKeyOf (timestamp r))) as [->|Hne].
    + by rewrite decide_True, specCounts_snoc.
    + by rewrite decide_False.
  - rewrite fmap_app. f_equal.
    + apply Forall_fmap_ext_1, Forall_forall. intros k Hk.
      rewrite weekGroup_snoc, decide_False; [done|]. by intros <-.
    + simpl. rewrite weekGroup_snoc, decide_True by done.
      rewrite specCounts_snoc, weekGroup_nil; [done|].
      by rewrite <- specFirstSeen_elem_of.
Qed.

Lemma getDay_range t : 0 ≤ getDay t ≤ 6.
Proof. unfold getDay. pose proof (Z.mod_pos_bound (localDay t + 4) 7). lia. Qed.

Lemma localDay_minusDays t k : localDay (minusDays t k) = localDay t - k.
Proof.
  unfold localDay, minusDays, msPerDay.
  change (1000 * 60 * 60 * 24) with 86400000.
  Z.to_euclidean_division_equations. lia.
Qed.

(** The week of a record starts on a Sunday of the local calendar, at
    most six days before the record. *)
Lemma weekStartOf_sunday t :
  getDay (weekStartOf t) = 0 ∧
  weekStartOf t ≤ t ∧ t < weekStartOf t + 7 * msPerDay.
Proof.
  pose proof (getDay_range t) as Hr. unfold weekStartOf. split.
  - unfold getDay at 1. rewrite localDay_minusDays. unfold getDay.
    Z.to_euclidean_division_equations. lia.
  - unfold minusDays, msPerDay. lia.
Qed.

Lemma weekKeyOf_utc_mono t1 t2 :
  offsetMs = 0 → t1 ≤ t2 → weekKeyOf t1 ≤ weekKeyOf t2.
Proof.
  intros Hz Hle. unfold weekKeyOf, weekStartOf, isoDate, minusDays, getDay,
    localDay, msPerDay. rewrite Hz.
  change (1000 * 60 * 60 * 24) with 86400000.
  Z.to_euclidean_division_equations. lia.
Qed.

Lemma weekKeys_utc_sorted records :
  offsetMs = 0 → StronglySorted notNewer records →
  StronglySorted Z.le ((λ r, weekKeyOf (timestamp r)) <$> records).
Proof.
  intros Hz Hs. induction Hs as [|r l Hl IH Hr]; [constructor|].
  rewrite fmap_cons. constructor; [done|].
  apply Forall_fmap. eapply Forall_impl; [exact Hr|].
  intros r' Hle. by apply weekKeyOf_utc_mono.
Qed.

Lemma sliceLast_sorted {A} (R : relation A) n (l : list A) :
  StronglySorted R l → StronglySorted R (sliceLast n l).
Proof.
  intros Hs. unfold sliceLast.
  rewrite <- (take_drop (length l - n) l) in Hs.
  by apply StronglySorted_app_1_r in Hs.
Qed.

Lemma reverse_decreasing (l : list Z) :
  StronglySorted Z.lt l → StronglySorted (λ a b, b < a) (reverse l).
Proof.
  intros Hs. apply StronglySorted_Sorted in Hs. apply Sorted_reverse in Hs.
  assert (Transitive (flip Z.lt)) by (intros a b c; unfold flip; lia).
  by apply (Sorted_StronglySorted (flip Z.lt)).
Qed.

Lemma calculateWeeklyStats_weeks records :
  week <$> calculateWeeklyStats records
  = reverse (sliceLast 8 (specFirstSeen
                            ((λ r, weekKeyOf (timestamp r)) <$> records))).
Proof.
  unfold calculateWeeklyStats, sliceLast.
  rewrite fmap_reverse, fmap_drop, !length_fmap, <- !list_fmap_compose.
  rewrite weekMapOf_closed, <- list_fmap_compose, length_fmap.
  f_equal. f_equal. by rewrite <- (list_fmap_id (specFirstSeen _)) at 2.
Qed.

(** C3 as amended: the week of an entry starts on the Sunday (local
    day-of-week 0) on or before it, at most six days back; in UTC two
    entries share a key exactly when they share that Sunday.  The buckets
    hold the counters of the entries with their key, and the sequence
    returned is the last eight keys in order of first occurrence in the
    input, reversed.  So for an input whose week keys do not decrease
    along the list (entries stored chronologically, in UTC) the buckets
    come most recent week first, in strictly decreasing order. *)
Theorem weekly_buckets (records : list AttendanceRecord) :
  let keys := (λ r, weekKeyOf (timestamp r)) <$> records in
  (∀ t, getDay (weekStartOf t) = 0 ∧
        weekStartOf t ≤ t ∧ t < weekStartOf t + 7 * msPerDay) ∧
  (offsetMs = 0 →
   ∀ t1 t2, weekKeyOf t1 = weekKeyOf t2
            ↔ localDay (weekStartOf t1) = localDay (weekStartOf t2)) ∧
  calculateWeeklyStats records
  = reverse (sliceLast 8 ((λ k, mkWeekly k (specCounts (weekGroup k records)))
                            <$> specFirstSeen keys)) ∧
  (StronglySorted Z.le keys →
   StronglySorted (λ a b, b < a) (week <$> calculateWeeklyStats records)) ∧
  (offsetMs = 0 → StronglySorted notNewer records →
   StronglySorted (λ a b, b < a) (week <$> calculateWeeklyStats records)).
Proof.
  intros keys.
  assert (StronglySorted Z.le keys →
          StronglySorted (λ a b, b < a) (week <$> calculateWeeklyStats records))
    as Hdec.
  { intros Hs. rewrite calculateWeeklyStats_weeks.
    by apply reverse_decreasing, sliceLast_sorted, specFirstSeen_increasing. }
  split; [apply weekStartOf_sunday|]. split; [|split; [|split; [done|]]].
  - intros Hz t1 t2. unfold weekKeyOf, isoDate, localDay.
    by rewrite Hz, !Z.add_0_r.
  - unfold calculateWeeklyStats. rewrite weekMapOf_closed.
    by rewrite <- list_fmap_compose.
  - intros Hz Hs. by apply Hdec, weekKeys_utc_sorted.
Qed.

End Weekly.

Lemma weekly_buckets_witness :
  let a := mkRecord "r1" "idA" (3 * msPerDay) Present 1%Qc in
  let b := mkRecord "r2" "idA" (10 * msPerDay) Late 1%Qc in
  StronglySorted (λ a b, b < a)
    (StudentAnalytics.week <$> @StudentAnalytics.calculateWeeklyStats 0 [a; b]).
Proof.
  intros a b.
  apply (proj2 (proj2 (proj2 (proj2 (@weekly_buckets 0 [a; b])))));
    [reflexivity|].
  repeat constructor. by vm_compute.
Defined.

(** C3 as first stated fails: two entries a week apart, stored in
    chronological order, come back with the later week first, and the
    permuted input comes back in the other order. *)
Lemma weekly_buckets_depend_on_order :
  let a := mkRecord "r1" "idA" (3 * msPerDay) Present 1%Qc in
  let b := mkRecord "r2" "idA" (10 * msPerDay) Late 1%Qc in
  [a; b] ≡ₚ [b; a] ∧
  StudentAnalytics.week <$> @StudentAnalytics.calculateWeeklyStats 0 [a; b]
  = [10; 3] ∧
  StudentAnalytics.week <$> @StudentAnalytics.calculateWeeklyStats 0 [b; a]
  = [3; 10] ∧
  @StudentAnalytics.calculateWeeklyStats 0 [a; b]
  ≠ @StudentAnalytics.calculateWeeklyStats 0 [b; a].
Proof.
  intros a b. split; [apply Permutation_swap|].
  split; [by vm_compute|]. split; [by vm_compute|].
  intros E. apply (f_equal (fmap StudentAnalytics.week)) in E.
  by vm_compute in E.
Qed.

(** Outside UTC the key is the UTC date of the local Sunday instant, so
    the time of day enters it: at UTC+05:30 an entry of Monday 02:00 and
    one of Monday 10:00 local time (5 January 1970) fall under different
    keys. *)
Example weekKey_follows_time_of_day :
  let zone : LocalZone := 19800000 in
  let early := 4 * msPerDay + 2 * 3600000 - 19800000 in
  let later := 4 * msPerDay + 10 * 3600000 - 19800000 in
  localDay early = 4 ∧ localDay later = 4 ∧ getDay early = 1 ∧
  StudentAnalytics.weekKeyOf early = 2 ∧ StudentAnalytics.weekKeyOf later = 3.
Proof. by vm_compute. Qed.

(** * Further properties of the store and the screens *)

(** ** The record store (database.ts) *)

Section StoreProps.

Lemma list_find_snoc_None {A} (P : A → Prop) `{!∀ x, Decision (P x)} l x :
  list_find P l = None →
  list_find P (l ++ [x])
  = if decide (P x) then Some (length l, x) else None.
Proof.
  intros Hn. case_decide as Hx.
  - apply list_find_app_Some. right. split; [lia|]. split; [done|].
    rewrite Nat.sub_diag. simpl. by rewrite decide_True.
  - apply list_find_app_None. split; [done|]. simpl. by rewrite decide_False.
Qed.

(** X1: saving a student appends one record under the generated
    identifier and leaves the attendance alone.  A lookup by roll number
    that succeeded before gives the same student afterwards, a roll
    number unknown before now leads to the new student, so of two
    students saved under one roll number only the first can be found by
    it. *)
Theorem saveStudent_getStudentByRollNo
    (db : Store) (newId : string) (student : Student) :
  let out := saveStudent db newId student in
  id out.2 = newId ∧ rollNo out.2 = rollNo student ∧
  students out.1 = students db ++ [out.2] ∧
  attendance out.1 = attendance db ∧
  (∀ wanted s, getStudentByRollNo db wanted = Some s →
               getStudentByRollNo out.1 wanted = Some s) ∧
  (getStudentByRollNo db (rollNo student) = None →
   getStudentByRollNo out.1 (rollNo student) = Some out.2) ∧
  (∀ wanted, wanted ≠ rollNo student →
             getStudentByRollNo out.1 wanted = getStudentByRollNo db wanted).
Proof.
  unfold saveStudent, getStudentByRollNo, getStudents. simpl.
  do 4 (split; [done|]). split; [|split].
  - intros wanted s Hs. apply fmap_Some in Hs as ([i x] & Hf & ->).
    by rewrite (list_find_app_l _ _ _ _ _ Hf).
  - intros Hn. apply fmap_None in Hn.
    rewrite list_find_snoc_None by done. by rewrite decide_True.
  - intros wanted Hne.
    destruct (list_find (λ s, rollNo s = wanted) (students db))
      as [[i x]|] eqn:Hf.
    + by rewrite (list_find_app_l _ _ _ _ _ Hf).
    + rewrite list_find_snoc_None by done. by rewrite decide_False.
Qed.

Lemma saveStudent_getStudentByRollNo_witness :
  getStudentByRollNo (saveStudent (mkStore [] []) "id1" personA).1 "CS001"
  = Some (mkStudent "id1" "CS001" "A" "CS" student true).
Proof.
  by apply (saveStudent_getStudentByRollNo (mkStore [] []) "id1" personA).
Defined.

(** X2: updating a student overwrites the first stored record with that
    identifier and nothing else: the number of students, every other
    position and the attendance stay as they were.  With an unknown
    identifier the store is returned unchanged. *)
Theorem updateStudent_in_place (db : Store) (studentData : Student) :
  let db' := updateStudent db studentData in
  length (students db') = length (students db) ∧
  attendance db' = attendance db ∧
  (∀ i s, students db !! i = Some s → id s = id studentData →
          (∀ j s', students db !! j = Some s' → id s' = id studentData →
                   (i ≤ j)%nat) →
          students db' !! i = Some studentData ∧
          ∀ j, j ≠ i → students db' !! j = students db !! j) ∧
  ((∀ s, s ∈ students db → id s ≠ id studentData) → db' = db).
Proof.
  unfold updateStudent, getStudents.
  destruct (list_find _ (students db)) as [[index x]|] eqn:Hf; simpl.
  - apply list_find_Some in Hf as (Hx & Hid & Hfirst).
    split; [apply length_insert|]. split; [done|]. split.
    + intros i s Hi Hs Hmin.
      assert (i = index) as ->.
      { assert (i ≤ index)%nat by by eapply Hmin.
        destruct (decide (i < index)%nat) as [Hlt|]; [|lia].
        by destruct (Hfirst i s Hi Hlt). }
      split.
      * apply list_lookup_insert_eq. by eapply lookup_lt_Some.
      * intros j Hj. by apply list_lookup_insert_ne.
    + intros Hnone. destruct (Hnone x); [|done].
      by eapply list_elem_of_lookup_2.
  - apply list_find_None in Hf. split; [done|]. split; [done|]. split; [|done].
    intros i s Hi Hs. rewrite Forall_forall in Hf.
    destruct (Hf s); [|done]. by eapply list_elem_of_lookup_2.
Qed.

Lemma updateStudent_in_place_witness :
  let renamed := mkStudent "idB" "CS002" "B2" "CS" student true in
  students (updateStudent exampleStore renamed) !! 1%nat = Some renamed.
Proof.
  intros renamed.
  apply (proj1 (proj2 (proj2 (updateStudent_in_place exampleStore renamed)))
           1%nat personB); [reflexivity|reflexivity|].
  intros [|[|[|j]]] s' Hj Hs'; simpl in *; try lia; by simplify_eq.
Defined.

(** X3: deleting by identifier removes every student with that
    identifier and keeps the others in their order; the attendance
    records, including those of the deleted person, stay in the store. *)
Theorem deleteStudent_keeps_attendance (db : Store) (gone : string) :
  let db' := deleteStudent db gone in
  (∀ s, s ∈ students db' ↔ s ∈ students db ∧ id s ≠ gone) ∧
  students db' `sublist_of` students db ∧
  attendance db' = attendance db ∧
  ((∀ s, s ∈ students db → id s ≠ gone) → db' = db).
Proof.
  unfold deleteStudent, getStudents. simpl. split; [|split; [|split]].
  - intros s. rewrite list_elem_of_filter. tauto.
  - apply sublist_filter.
  - done.
  - intros Hnone. destruct db as [people records]. simpl in *. f_equal.
    induction people as [|s l IH]; [done|].
    rewrite filter_cons, decide_True by (apply Hnone; left).
    f_equal. apply IH. intros s' Hs'. apply Hnone. by right.
Qed.

Lemma deleteStudent_keeps_attendance_witness :
  deleteStudent (mkStore [personA] []) "idB" = mkStore [personA] [].
Proof.
  apply (deleteStudent_keeps_attendance (mkStore [personA] []) "idB").
  intros s Hs. apply list_elem_of_singleton in Hs as ->. discriminate.
Defined.

End StoreProps.

Section TodayProps.
Context {zone : LocalZone}.

Lemma sameLocalDay_startOfLocalDay (a b : Z) :
  sameLocalDay a b ↔ startOfLocalDay a + offsetMs = startOfLocalDay b + offsetMs.
Proof.
  unfold sameLocalDay, startOfLocalDay, msOfLocalDay, localDay, msPerDay.
  change (1000 * 60 * 60 * 24) with 86400000.
  Z.to_euclidean_division_equations. lia.
Qed.

Lemma sameLocalDay_range (t today : Z) :
  sameLocalDay t today
  ↔ startOfLocalDay today ≤ t ∧ t < startOfLocalDay today + msPerDay.
Proof.
  unfold sameLocalDay, startOfLocalDay, msOfLocalDay, localDay, msPerDay.
  change (1000 * 60 * 60 * 24) with 86400000.
  Z.to_euclidean_division_equations. lia.
Qed.

(** X4: today's attendance is the stored records stamped from local
    midnight of the clock reading up to, not including, the next
    midnight, in stored order.  Marking attendance appends the new record
    to the store; it shows up last in today's attendance when it is
    stamped today and leaves today's attendance as it was otherwise. *)
Theorem markAttendance_getTodayAttendance
    (db : Store) (newId sid : string) (ts : Z) (conf : Qc) (st : Status)
    (today : Z) :
  let out := markAttendance db newId sid ts conf st in
  (∀ r, r ∈ getTodayAttendance db today
        ↔ r ∈ attendance db ∧ startOfLocalDay today ≤ timestamp r ∧
          timestamp r < startOfLocalDay today + msPerDay) ∧
  getTodayAttendance db today `sublist_of` attendance db ∧
  students out.1 = students db ∧
  attendance out.1 = attendance db ++ [mkRecord newId sid ts st conf] ∧
  (sameLocalDay ts today →
   getTodayAttendance out.1 today = getTodayAttendance db today ++ [out.2]) ∧
  (¬ sameLocalDay ts today →
   getTodayAttendance out.1 today = getTodayAttendance db today).
Proof.
  unfold markAttendance, getTodayAttendance, getAttendanceRecords. simpl.
  split; [|split; [apply sublist_filter|]].
  - intros r. rewrite list_elem_of_filter, sameLocalDay_range. tauto.
  - do 2 (split; [done|]).
    rewrite filter_app, filter_cons, filter_nil. simpl.
    split; intros Hd.
    + by rewrite decide_True.
    + by rewrite decide_False, app_nil_r.
Qed.

End TodayProps.

Lemma markAttendance_getTodayAttendance_witness :
  @getTodayAttendance 0
    (markAttendance exampleStore "r3" "idC" (11 * 3600000) 1%Qc Late).1
    exampleNow
  = @getTodayAttendance 0 exampleStore exampleNow
    ++ [mkRecord "r3" "idC" (11 * 3600000) Late 1%Qc].
Proof.
  by apply (@markAttendance_getTodayAttendance 0 exampleStore "r3" "idC"
              (11 * 3600000) 1%Qc Late exampleNow).
Defined.

(** ** The dashboard (Dashboard.tsx) *)

Section DashboardProps.
Context {zone : LocalZone}.

Lemma reverse_lastn {A} (n : nat) (l : list A) :
  reverse (drop (length l - n) l) = take n (reverse l).
Proof.
  rewrite reverse_drop.
  destruct (decide (n ≤ length l)%nat) as [Hle|Hgt].
  - f_equal. lia.
  - replace (length l - (length l - n))%nat with (length l) by lia.
    rewrite !take_ge; [done|rewrite length_reverse; lia..].
Qed.

(** X5: the lists of recent activity are the last stored records, the
    last stored first: five of them for the faculty, ten for the student,
    all of them when the store holds fewer. *)
Theorem recent_activity_newest_first (db : Store) (today : Z) :
  Dashboard.recentAttendance db = take 5 (reverse (attendance db)) ∧
  (Dashboard.loadDashboardDataStudent db today).1
  = take 10 (reverse (attendance db)) ∧
  length (Dashboard.recentAttendance db) = (5 `min` length (attendance db))%nat ∧
  head (Dashboard.recentAttendance db) = last (attendance db).
Proof.
  unfold Dashboard.recentAttendance, Dashboard.loadDashboardDataStudent,
    getAttendanceRecords. simpl.
  assert (filter (λ _ : AttendanceRecord, True) (attendance db) = attendance db)
    as ->.
  { induction (attendance db) as [|r l IH]; [done|].
    by rewrite filter_cons, decide_True, IH. }
  rewrite !reverse_lastn. split; [done|]. split; [done|]. split.
  - by rewrite length_take, length_reverse.
  - destruct (attendance db) as [|r l _] using rev_ind; [done|].
    by rewrite reverse_snoc, last_snoc.
Qed.

Lemma countAbsent_zero (l : list AttendanceRecord) :
  Forall (λ r, status r ≠ Absent) l → countStatus Absent l = 0%nat.
Proof.
  induction 1 as [|r l Hr _ IH]; [done|].
  by rewrite countStatus_cons, decide_False, IH.
Qed.

Lemma NoDup_fmap_filter {A B} (f : A → B) (P : A → Prop)
    `{!∀ x, Decision (P x)} (l : list A) :
  NoDup (f <$> l) → NoDup (f <$> filter P l).
Proof.
  induction l as [|x l IH]; [done|]. rewrite fmap_cons, NoDup_cons.
  intros [Hx Hl]. rewrite filter_cons. case_decide; [|by apply IH].
  rewrite fmap_cons. apply NoDup_cons. split; [|by apply IH].
  intros Hin. apply Hx. apply list_elem_of_fmap in Hin as (y & -> & Hy).
  apply list_elem_of_filter in Hy as [_ Hy]. by apply list_elem_of_fmap_2.
Qed.

(** X6: when today's attendance holds at most one entry per person, each
    of a registered person and none of status Absent (as the marking
    paths write them), and identifiers are unique, the dashboard's absent
    count is the number of people without an entry today, and is not
    negative. *)
Theorem absentToday_counts_unmarked (db : Store) (today : Z) :
  let todayAttendance := getTodayAttendance db today in
  NoDup (id <$> students db) →
  NoDup (studentId <$> todayAttendance) →
  Forall (λ r, status r ≠ Absent ∧ studentId r ∈ id <$> students db)
         todayAttendance →
  Dashboard.absentToday (Dashboard.loadDashboardData db today)
  = Z.of_nat (length (filter (λ s, id s ∉ studentId <$> todayAttendance)
                             (students db))) ∧
  (Dashboard.presentToday (Dashboard.loadDashboardData db today)
   + Dashboard.lateToday (Dashboard.loadDashboardData db today)
   = length todayAttendance)%nat.
Proof.
  intros todayAttendance Hids Hsids Hall.
  unfold Dashboard.loadDashboardData, getStudents. simpl. fold todayAttendance.
  set (sids := studentId <$> todayAttendance).
  set (people := students db) in *.
  assert (countStatus Present todayAttendance + countStatus Late todayAttendance
          = length todayAttendance)%nat as Hcount.
  { pose proof (counts_partition todayAttendance) as Hp.
    rewrite countAbsent_zero in Hp; [lia|].
    eapply Forall_impl; [exact Hall|]. simpl. tauto. }
  split; [|done]. rewrite Hcount.
  assert (length (filter (λ s, id s ∈ sids) people) = length todayAttendance)
    as Hmarked.
  { rewrite <- (length_fmap id), <- (length_fmap studentId todayAttendance).
    apply Permutation_length, NoDup_Permutation; [|done|].
    - by apply NoDup_fmap_filter.
    - intros x. rewrite list_elem_of_fmap. split.
      + intros (s & -> & Hs). by apply list_elem_of_filter in Hs as [? _].
      + intros Hx. rewrite Forall_forall in Hall.
        apply list_elem_of_fmap in Hx as Hx'. destruct Hx' as (r & -> & Hr).
        destruct (Hall r Hr) as [_ Hreg].
        apply list_elem_of_fmap in Hreg as (s & Hs & Hin).
        exists s. split; [done|]. apply list_elem_of_filter. by rewrite <- Hs. }
  pose proof (Permutation_length (filter_app_complement (λ s, id s ∈ sids) people))
    as Hsplit.
  rewrite length_app, Hmarked in Hsplit. lia.
Qed.

End DashboardProps.

Lemma absentToday_counts_unmarked_witness :
  Dashboard.absentToday (@Dashboard.loadDashboardData 0 exampleStore exampleNow)
  = Z.of_nat
      (length (filter (λ s, id s ∉ studentId
                                   <$> @getTodayAttendance 0 exampleStore exampleNow)
                      (students exampleStore))).
Proof.
  apply (@absentToday_counts_unmarked 0 exampleStore exampleNow).
  - apply (bool_decide_unpack _). by vm_compute.
  - apply (bool_decide_unpack _). by vm_compute.
  - apply (bool_decide_unpack _). by vm_compute.
Defined.


(** ** The session view (FacultyAnalytics.tsx) *)

Section SessionProps.
Context {zone : LocalZone}.

Lemma sessionRow_student m s :
  FacultyAnalytics.sessStudent (FacultyAnalytics.sessionRow m s) = s.
Proof. unfold FacultyAnalytics.sessionRow. by destruct (m !! id s). Qed.

Lemma sessionRow_none_absent m s :
  FacultyAnalytics.markedBy (FacultyAnalytics.sessionRow m s)
  = FacultyAnalytics.none →
  FacultyAnalytics.sessStatus (FacultyAnalytics.sessionRow m s) = Absent.
Proof.
  unfold FacultyAnalytics.sessionRow. destruct (m !! id s); simpl; [|done].
  by case_decide.
Qed.

Lemma length_filter_status (rows : list FacultyAnalytics.TodaySessionStudent) :
  (length (filter (λ d, FacultyAnalytics.sessStatus d = Present) rows)
   + length (filter (λ d, FacultyAnalytics.sessStatus d = Late) rows)
   + length (filter (λ d, FacultyAnalytics.sessStatus d = Absent) rows)
   = length rows)%nat.
Proof.
  induction rows as [|d rows IH]; [done|]. rewrite !filter_cons.
  destruct (FacultyAnalytics.sessStatus d);
    repeat case_decide; try done; simpl; lia.
Qed.

Lemma length_filter_impl {A} (P Q : A → Prop)
    `{!∀ x, Decision (P x), !∀ x, Decision (Q x)} (l : list A) :
  Forall (λ x, P x → Q x) l →
  (length (filter P l) ≤ length (filter Q l))%nat.
Proof.
  induction 1 as [|x l Hx _ IH]; [done|]. rewrite !filter_cons.
  destruct (decide (P x)) as [HP|HP]; destruct (decide (Q x)) as [HQ|HQ];
    simpl; try lia. by destruct HQ; apply Hx.
Qed.

Lemma length_filter_disjoint {A} (P Q : A → Prop)
    `{!∀ x, Decision (P x), !∀ x, Decision (Q x)} (l : list A) :
  (∀ x, P x → Q x → False) →
  (length (filter P l) + length (filter Q l) ≤ length l)%nat.
Proof.
  intros Hd. induction l as [|x l IH]; [done|]. rewrite !filter_cons.
  destruct (decide (P x)) as [HP|HP]; destruct (decide (Q x)) as [HQ|HQ];
    simpl; try lia. by destruct (Hd x).
Qed.

(** X7: the session of the day lists the people of role student, one row
    each in stored order.  Its counts of Present, Late and Absent add up
    to the total, everyone marked by no one is among the Absent, and both
    rates lie between 0 and 100. *)
Theorem session_counts_consistent (db : Store) (today : Z) :
  let rows := (FacultyAnalytics.loadTodaySession db today).1 in
  let st := (FacultyAnalytics.loadTodaySession db today).2 in
  FacultyAnalytics.sessStudent <$> rows
  = filter (λ s, role s = student) (students db) ∧
  (FacultyAnalytics.present st + FacultyAnalytics.late st
   + FacultyAnalytics.absent st = FacultyAnalytics.total st)%nat ∧
  (FacultyAnalytics.notRecognized st ≤ FacultyAnalytics.absent st)%nat ∧
  (FacultyAnalytics.recognized st + FacultyAnalytics.notRecognized st
   ≤ FacultyAnalytics.total st)%nat ∧
  (0 ≤ FacultyAnalytics.attendanceRate st ≤ Qc_of_Z 100)%Qc ∧
  (0 ≤ FacultyAnalytics.recognitionRate st ≤ Qc_of_Z 100)%Qc.
Proof.
  intros rows st. subst rows st.
  unfold FacultyAnalytics.loadTodaySession. cbn [fst snd].
  set (rows := FacultyAnalytics.sessionStudents db today).
  unfold FacultyAnalytics.calculateStats.
  cbn [FacultyAnalytics.present FacultyAnalytics.late FacultyAnalytics.absent
       FacultyAnalytics.total FacultyAnalytics.notRecognized
       FacultyAnalytics.recognized FacultyAnalytics.attendanceRate
       FacultyAnalytics.recognitionRate].
  pose proof (length_filter_status rows) as Hsum.
  assert (0 ≤ Qc_of_Z 100)%Qc as H100
    by (rewrite <- Z2Qc_inj_0; by apply (proj1 (Z2Qc_inj_le 0 100))).
  split; [|split; [done|split; [|split; [|split]]]].
  - subst rows. unfold FacultyAnalytics.sessionStudents, getStudents.
    rewrite <- list_fmap_compose.
    rewrite <- (list_fmap_id (filter _ (students db))) at 2.
    apply Forall_fmap_ext_1, Forall_forall. intros s _. simpl.
    apply sessionRow_student.
  - apply length_filter_impl, Forall_forall. intros d Hd.
    subst rows. unfold FacultyAnalytics.sessionStudents in Hd.
    apply list_elem_of_fmap in Hd as (s & -> & _).
    apply sessionRow_none_absent.
  - apply length_filter_disjoint. intros d H1 H2. congruence.
  - case_decide; [|done]. split; [by apply percentOf_nonneg|].
    apply percentOf_le_100; [done|lia].
  - case_decide; [|done]. split; [by apply percentOf_nonneg|].
    apply percentOf_le_100; [done|]. apply length_filter.
Qed.

Lemma list_find_None_markedToday db today sid :
  list_find (λ r, studentId r = sid) (getTodayAttendance db today) = None
  ↔ ¬ markedToday db today sid.
Proof.
  rewrite <- alreadyMarked_None. unfold alreadyMarked.
  by rewrite fmap_None.
Qed.

Lemma markedToday_markAttendance db newId sid now conf st today :
  sameLocalDay now today →
  markedToday (markAttendance db newId sid now conf st).1 today sid.
Proof.
  intros Hd. exists (mkRecord newId sid now st conf). split; [|done].
  unfold getTodayAttendance, markAttendance, getAttendanceRecords. simpl.
  rewrite filter_app, elem_of_app. right.
  rewrite filter_cons, decide_True by done. apply list_elem_of_here.
Qed.

Lemma saveEach_spec people now today genId edits :
  ∀ db n,
    let out := FacultyAnalytics.saveEach db people edits now today genId n in
    students out.1 = students db ∧
    ∃ added,
      attendance out.1 = attendance db ++ added ∧
      out.2 = (n + length added)%nat ∧
      (length added ≤ length edits)%nat ∧
      Forall (λ r, timestamp r = now ∧ confidence r = 1%Qc ∧
                   status r ≠ Absent ∧ (studentId r, status r) ∈ edits ∧
                   ¬ markedToday db today (studentId r) ∧
                   studentId r ∈ id <$> people) added.
Proof.
  induction edits as [|[sid st] rest IH]; intros db n; simpl.
  - split; [done|]. exists []. by rewrite app_nil_r, Nat.add_0_r.
  - assert (
      let out := FacultyAnalytics.saveEach db people rest now today genId n in
      students out.1 = students db ∧
      ∃ added,
        attendance out.1 = attendance db ++ added ∧
        out.2 = (n + length added)%nat ∧
        (length added ≤ S (length rest))%nat ∧
        Forall (λ r, timestamp r = now ∧ confidence r = 1%Qc ∧
                     status r ≠ Absent ∧
                     (studentId r, status r) ∈ (sid, st) :: rest ∧
                     ¬ markedToday db today (studentId r) ∧
                     studentId r ∈ id <$> people) added) as Hskip.
    { destruct (IH db n) as (Hs & added & Ha & Hn & Hlen & Hall).
      split; [done|]. exists added. split; [done|]. split; [done|].
      split; [lia|].
      eapply Forall_impl; [exact Hall|]. simpl.
      intros r (? & ? & ? & ? & ? & ?). repeat split; try done.
      by apply list_elem_of_further. }
    destruct (list_find _ (getTodayAttendance db today)) as [e|] eqn:Hex;
      [exact Hskip|].
    case_decide as Hst; [|exact Hskip].
    destruct (list_find (λ s, id s = sid) people) as [[i s]|] eqn:Hp;
      [|exact Hskip].
    clear Hskip.
    match goal with |- context [FacultyAnalytics.saveEach ?d people rest] =>
      set (db1 := d) end.
    destruct (IH db1 (S n)) as (Hs & added & Ha & Hn & Hlen & Hall).
    split; [done|]. eexists (_ :: added). split; [|split; [|split]].
    + rewrite Ha. subst db1. simpl. unfold getAttendanceRecords.
      by rewrite <- app_assoc.
    + rewrite Hn. simpl. lia.
    + simpl. lia.
    + constructor.
      * simpl. repeat split; try done.
        -- apply list_elem_of_here.
        -- by apply list_find_None_markedToday.
        -- apply list_find_Some in Hp as (Hi & <- & _).
           apply list_elem_of_fmap_2. by eapply list_elem_of_lookup_2.
      * eapply Forall_impl; [exact Hall|]. simpl.
        intros r (? & ? & ? & ? & Hn' & ?). repeat split; try done.
        -- by apply list_elem_of_further.
        -- intros Hm. apply Hn'. eapply markedToday_mono; [|done].
           subst db1. simpl. done.
Qed.

(** X8: saving manual edits writes at most one record per edit, stamped
    with the time of saving and with confidence 1, and never touches
    the people.  No record with status Absent is written, none for a
    person who already has a record today, none for an identifier
    outside the listed people; the number reported is the number of
    records written. *)
Theorem saveManualAttendance_writes
    (db : Store) (people : list Student) (edits : list (string * Status))
    (now today : Z) (genId : nat → string) :
  let out := FacultyAnalytics.saveManualAttendance db people edits now today
                                                   genId in
  students out.1.1 = students db ∧
  out.1.2 = FacultyAnalytics.loadTodaySession out.1.1 today ∧
  ∃ added,
    attendance out.1.1 = attendance db ++ added ∧
    out.2 = length added ∧ (length added ≤ length edits)%nat ∧
    Forall (λ r, timestamp r = now ∧ confidence r = 1%Qc ∧
                 status r ≠ Absent ∧ (studentId r, status r) ∈ edits ∧
                 ¬ markedToday db today (studentId r) ∧
                 studentId r ∈ id <$> people) added.
Proof.
  unfold FacultyAnalytics.saveManualAttendance. cbn [fst snd].
  destruct (saveEach_spec people now today genId edits db 0)
    as (Hs & added & Ha & Hn & Hlen & Hall).
  split; [done|]. split; [done|]. by exists added.
Qed.

Lemma saveEach_keeps_marked people now today genId edits db n sid :
  markedToday db today sid →
  markedToday (FacultyAnalytics.saveEach db people edits now today genId n).1
              today sid.
Proof.
  intros Hm.
  destruct (saveEach_spec people now today genId edits db n)
    as (_ & added & Ha & _).
  by eapply markedToday_mono.
Qed.

Lemma saveEach_marks people now today genId edits :
  sameLocalDay now today →
  ∀ db n sid st,
    (sid, st) ∈ edits → st ≠ Absent → sid ∈ id <$> people →
    markedToday (FacultyAnalytics.saveEach db people edits now today genId n).1
                today sid.
Proof.
  intros Hday. induction edits as [|[k v] rest IH];
    intros db n sid st Hin Hst Hp; [by apply elem_of_nil in Hin|].
  apply elem_of_cons in Hin as [[= -> ->]|Hin]; simpl.
  - destruct (list_find _ (getTodayAttendance db today)) as [e|] eqn:Hex.
    + apply saveEach_keeps_marked. destruct e as [i r].
      apply list_find_Some in Hex as (Hi & Hr & _).
      exists r. split; [by eapply list_elem_of_lookup_2|done].
    + rewrite decide_True by done.
      destruct (list_find (λ s, id s = k) people) as [[i s]|] eqn:Hf.
      * apply saveEach_keeps_marked. by apply markedToday_markAttendance.
      * apply list_find_None in Hf. rewrite Forall_forall in Hf.
        apply list_elem_of_fmap in Hp as (s & -> & Hs). by destruct (Hf s).
  - destruct (list_find _ (getTodayAttendance db today));
      [by eapply IH|].
    case_decide; [|by eapply IH].
    destruct (list_find (λ s, id s = k) people); by eapply IH.
Qed.

Lemma NoDup_fst_functional {A B} (l : list (A * B)) x y1 y2 :
  NoDup l.*1 → (x, y1) ∈ l → (x, y2) ∈ l → y1 = y2.
Proof.
  induction l as [|[a b] l IH]; intros Hnd H1 H2;
    [by apply elem_of_nil in H1|].
  rewrite fmap_cons in Hnd. apply NoDup_cons in Hnd as [Ha Hnd]. simpl in Ha.
  apply elem_of_cons in H1 as [E1|H1];
    apply elem_of_cons in H2 as [E2|H2]; simplify_eq; try done.
  - destruct Ha. by apply (list_elem_of_fmap_2 fst _ (a, y2)).
  - destruct Ha. by apply (list_elem_of_fmap_2 fst _ (a, y1)).
  - by apply IH.
Qed.

(** X9: a saved edit shows in the reloaded session.  When the edits carry
    one status per person, a listed student without record today who is
    edited to Present or Late on the day of saving appears in the session
    reloaded after saving with that status, marked manually, at the time
    of saving. *)
Theorem saveManualAttendance_shows_edit
    (db : Store) (edits : list (string * Status)) (now today : Z)
    (genId : nat → string) (s : Student) (st : Status) :
  let people := filter (λ s, role s = student) (students db) in
  let out := FacultyAnalytics.saveManualAttendance db people edits now today
                                                   genId in
  NoDup edits.*1 → (id s, st) ∈ edits → st ≠ Absent →
  s ∈ students db → role s = student →
  ¬ markedToday db today (id s) → sameLocalDay now today →
  FacultyAnalytics.mkSessionStudent s st FacultyAnalytics.manual
                                    (Some now) (Some 1%Qc)
  ∈ out.1.2.1.
Proof.
  intros people out Hnd Hin Hst Hs Hrole Hnm Hday. subst out.
  unfold FacultyAnalytics.saveManualAttendance. cbn [fst snd].
  set (db' := (FacultyAnalytics.saveEach db people edits now today genId 0).1).
  assert (s ∈ people) as Hsp by (by apply list_elem_of_filter).
  assert (markedToday db' today (id s)) as Hm.
  { eapply saveEach_marks; [done..|]. by apply list_elem_of_fmap_2. }
  destruct (saveEach_spec people now today genId edits db 0)
    as (Hstud & added & Ha & _ & _ & Hall). fold db' in Hstud, Ha.
  set (P := λ r, sameLocalDay (timestamp r) today ∧ studentId r = id s).
  assert (∃ r, lastStored P (attendance db') r) as [r Hlast].
  { destruct Hm as (r0 & Hr0 & Hid).
    destruct (last (filter P (attendance db'))) as [r|] eqn:Hl.
    - exists r. by apply last_filter_Some in Hl.
    - apply last_filter_None in Hl. rewrite Forall_forall in Hl.
      apply list_elem_of_filter in Hr0 as [Hd Hr0]. by destruct (Hl r0). }
  pose proof Hlast as (before & after & Hsplit & [Hd Hid] & _).
  assert (r ∈ added) as Hradded.
  { assert (r ∈ attendance db ++ added) as Hr
      by (rewrite <- Ha, Hsplit, elem_of_app; right; apply list_elem_of_here).
    apply elem_of_app in Hr as [Hr|Hr]; [|done].
    destruct Hnm. exists r. split; [|done].
    by apply list_elem_of_filter. }
  rewrite Forall_forall in Hall.
  destruct (Hall r Hradded) as (Hts & Hconf & _ & Hedit & _).
  rewrite Hid in Hedit.
  assert (status r = st) as Hstat by by eapply NoDup_fst_functional.
  unfold FacultyAnalytics.loadTodaySession. cbn [fst].
  unfold FacultyAnalytics.sessionStudents, getStudents. rewrite Hstud.
  fold people.
  assert (FacultyAnalytics.sessionRow
            (FacultyAnalytics.attendanceMapOf (getTodayAttendance db' today)) s
          = FacultyAnalytics.mkSessionStudent s st FacultyAnalytics.manual
              (Some now) (Some 1%Qc)) as <-.
  { rewrite (sessionRow_last db' today s r Hlast).
    by rewrite Hconf, Hts, Hstat, decide_True. }
  by apply list_elem_of_fmap_2.
Qed.

End SessionProps.

Lemma saveManualAttendance_shows_edit_witness :
  FacultyAnalytics.mkSessionStudent personC Late FacultyAnalytics.manual
                                    (Some exampleNow) (Some 1%Qc)
  ∈ (@FacultyAnalytics.saveManualAttendance 0 exampleStore
       (filter (λ s, role s = student) (students exampleStore))
       [("idC", Late)] exampleNow exampleNow (λ _, "r9")).1.2.1.
Proof.
  apply (@saveManualAttendance_shows_edit 0 exampleStore [("idC", Late)]
           exampleNow exampleNow (λ _, "r9") personC Late).
  - apply (bool_decide_unpack _). by vm_compute.
  - apply list_elem_of_here.
  - discriminate.
  - apply (bool_decide_unpack _). by vm_compute.
  - reflexivity.
  - apply (proj1 (@alreadyMarked_None 0 _ _ _)). by vm_compute.
  - reflexivity.
Defined.

Lemma handleStatusChange_cons k v rest sid st :
  FacultyAnalytics.handleStatusChange ((k, v) :: rest) sid st
  = if decide (k = sid) then (k, st) :: rest
    else (k, v) :: FacultyAnalytics.handleStatusChange rest sid st.
Proof. done. Qed.

Lemma handleStatusChange_keys edits sid st :
  (FacultyAnalytics.handleStatusChange edits sid st).*1
  = if decide (sid ∈ edits.*1) then edits.*1 else edits.*1 ++ [sid].
Proof.
  induction edits as [|[a b] l IH].
  - by rewrite decide_False by apply not_elem_of_nil.
  - rewrite handleStatusChange_cons, (fmap_cons fst (a, b) l).
    change ((a, b).1) with a.
    destruct (decide (a = sid)) as [->|Ha].
    + by rewrite decide_True by apply list_elem_of_here.
    + rewrite fmap_cons, IH. change ((a, b).1) with a.
      destruct (decide (sid ∈ l.*1)) as [Hin|Hin].
      * by rewrite decide_True by by apply list_elem_of_further.
      * rewrite decide_False; [done|].
        rewrite not_elem_of_cons. by split; [intros ->|].
Qed.

Lemma handleStatusChange_elem_of edits sid st k v :
  (k, v) ∈ FacultyAnalytics.handleStatusChange edits sid st
  → (k = sid ∧ v = st) ∨ (k, v) ∈ edits.
Proof.
  induction edits as [|[a b] l IH].
  - intros Hin. apply list_elem_of_singleton in Hin. left. by simplify_eq.
  - rewrite handleStatusChange_cons. case_decide as Ha.
    + subst a. rewrite !elem_of_cons. intros [E|Hin]; [left; by simplify_eq|].
      right. by right.
    + rewrite !elem_of_cons. intros [E|Hin]; [right; by left|].
      destruct (IH Hin) as [?|?]; [by left|right; by right].
Qed.

Lemma handleStatusChange_other edits sid st k v :
  k ≠ sid → (k, v) ∈ edits →
  (k, v) ∈ FacultyAnalytics.handleStatusChange edits sid st.
Proof.
  intros Hk. induction edits as [|[a b] l IH];
    [intros Hin; by apply elem_of_nil in Hin|].
  rewrite handleStatusChange_cons. case_decide as Ha.
  - subst a. rewrite !elem_of_cons. intros [E|Hin]; [by simplify_eq|by right].
  - rewrite !elem_of_cons. intros [E|Hin]; [by left|right; by apply IH].
Qed.

Lemma handleStatusChange_here edits sid st :
  (sid, st) ∈ FacultyAnalytics.handleStatusChange edits sid st.
Proof.
  induction edits as [|[a b] l IH]; [apply list_elem_of_here|].
  rewrite handleStatusChange_cons. case_decide as Ha.
  - subst a. apply list_elem_of_here.
  - by apply list_elem_of_further.
Qed.

(** X10: the map of pending edits keeps one entry per person.  Choosing a
    status stores it under the person's identifier, leaves the entries of
    the other people as they were, and keeps the identifiers distinct. *)
Theorem handleStatusChange_set
    (edits : list (string * Status)) (sid : string) (st : Status) :
  let edits' := FacultyAnalytics.handleStatusChange edits sid st in
  (NoDup edits.*1 → NoDup edits'.*1) ∧
  (sid, st) ∈ edits' ∧
  (∀ k v, k ≠ sid → (k, v) ∈ edits' ↔ (k, v) ∈ edits) ∧
  (NoDup edits.*1 → ∀ v, (sid, v) ∈ edits' → v = st).
Proof.
  assert (NoDup edits.*1 →
          NoDup (FacultyAnalytics.handleStatusChange edits sid st).*1) as Hnd.
  { intros Hn. rewrite handleStatusChange_keys. case_decide as Hin; [done|].
    apply NoDup_app. split; [done|]. split; [|apply NoDup_singleton].
    intros x Hx Hx'. apply list_elem_of_singleton in Hx'. by subst x. }
  split; [done|]. split; [apply handleStatusChange_here|]. split.
  - intros k v Hk. split.
    + intros Hin. apply handleStatusChange_elem_of in Hin as [[? _]|?]; done.
    + by apply handleStatusChange_other.
  - intros Hn v Hv. eapply NoDup_fst_functional; [by apply Hnd|done|].
    apply handleStatusChange_here.
Qed.

Lemma handleStatusChange_set_witness :
  NoDup (FacultyAnalytics.handleStatusChange
           [("idA", Present); ("idB", Late)] "idA" Absent).*1.
Proof.
  apply (handleStatusChange_set [("idA", Present); ("idB", Late)] "idA" Absent).
  apply (bool_decide_unpack _). by vm_compute.
Defined.

(** ** Per-student statistics, continued (StudentMonitoring.tsx) *)

Section MonitoringMore.
Import StudentMonitoring.

Lemma daysAgo_eq (now t k : Z) :
  daysAgo now t = k ↔ k * msPerDay ≤ now - t ∧ now - t < (k + 1) * msPerDay.
Proof.
  unfold daysAgo, msPerDay. change (1000 * 60 * 60 * 24) with 86400000.
  Z.to_euclidean_division_equations. lia.
Qed.

Lemma length_filter_pos {A} (P : A → Prop) `{!∀ x, Decision (P x)} (l : list A) :
  (0 < length (filter P l))%nat ↔ ∃ x, x ∈ l ∧ P x.
Proof.
  split.
  - destruct (filter P l) as [|x k] eqn:E; simpl; [lia|]. intros _.
    assert (x ∈ filter P l) as Hx by (rewrite E; apply list_elem_of_here).
    apply list_elem_of_filter in Hx as [? ?]. by exists x.
  - intros (x & Hx & HP).
    assert (x ∈ filter P l) as Hin by by apply list_elem_of_filter.
    destruct (filter P l); [by apply elem_of_nil in Hin|simpl; lia].
Qed.

Lemma dayFlag_spec now (mine : list AttendanceRecord) (i : Z) :
  (if decide (0 < length (filter (λ r, status r ≠ Absent)
                            (filter (λ r, daysAgo now (timestamp r) = i) mine)))%nat
   then 1%nat else 0%nat) = 1%nat
  ↔ ∃ r, r ∈ mine ∧ attendedAt r ∧
         i * msPerDay ≤ now - timestamp r ∧
         now - timestamp r < (i + 1) * msPerDay.
Proof.
  case_decide as Hpos; rewrite length_filter_pos in Hpos.
  - split; [intros _|done]. destruct Hpos as (r & Hr & Hatt).
    apply list_elem_of_filter in Hr as [Hd Hr]. apply daysAgo_eq in Hd.
    by exists r.
  - split; [done|]. intros (r & Hr & Hatt & Hd). destruct Hpos.
    exists r. split; [|done]. apply list_elem_of_filter. split; [|done].
    by apply daysAgo_eq.
Qed.

(** X11: the week strip of a person has seven cells, oldest day first.
    The cell [i] days back (0 is the 24 hours up to the clock reading) is
    1 exactly when the person has an entry other than Absent whose age
    lies in that span of 24 hours, and 0 otherwise. *)
Theorem weeklyAttendance_cells
    (now : Z) (records : list AttendanceRecord) (s : Student) (i : nat) :
  let cells := weeklyAttendance (studentStats now records s) in
  length cells = 7%nat ∧
  ((i ≤ 6)%nat →
   ∃ cell, cells !! (6 - i)%nat = Some cell ∧
           (cell = 0%nat ∨ cell = 1%nat) ∧
           (cell = 1%nat
            ↔ ∃ r, r ∈ recordsOf s records ∧ attendedAt r ∧
                   Z.of_nat i * msPerDay ≤ now - timestamp r ∧
                   now - timestamp r < (Z.of_nat i + 1) * msPerDay)).
Proof.
  unfold studentStats; simpl. fold (recordsOf s records).
  split; [done|]. intros Hi.
  do 7 (destruct i as [|i]; [simpl; eexists; split; [reflexivity|];
         split; [by case_decide; auto|apply dayFlag_spec]|]).
  lia.
Qed.

Lemma weeklyAttendance_cells_witness :
  ∃ cell,
    weeklyAttendance
      (studentStats exampleNow (attendance exampleStore) personA) !! 6%nat
    = Some cell ∧ (cell = 0%nat ∨ cell = 1%nat) ∧
    (cell = 1%nat
     ↔ ∃ r, r ∈ recordsOf personA (attendance exampleStore) ∧ attendedAt r ∧
            Z.of_nat 0 * msPerDay ≤ exampleNow - timestamp r ∧
            exampleNow - timestamp r < (Z.of_nat 0 + 1) * msPerDay).
Proof.
  apply (weeklyAttendance_cells exampleNow (attendance exampleStore) personA 0).
  lia.
Defined.

Lemma countLeadingAbsent_le (l : list AttendanceRecord) :
  (countLeadingAbsent l ≤ countStatus Absent l)%nat.
Proof.
  induction l as [|r l IH]; [done|]. simpl. rewrite countStatus_cons.
  case_decide; simpl; lia.
Qed.

Lemma countLeadingAbsent_all (l : list AttendanceRecord) :
  countLeadingAbsent l = length l ↔ Forall isAbsent l.
Proof.
  induction l as [|r l IH]; [by split; [constructor|]|]. simpl.
  rewrite Forall_cons. unfold isAbsent at 1. case_decide as Hr.
  - rewrite <- IH. split.
    + intros [= E]. by split.
    + intros [_ E]. by rewrite E.
  - split; [done|]. by intros [? _].
Qed.

Lemma countStatus_perm st (l k : list AttendanceRecord) :
  l ≡ₚ k → countStatus st l = countStatus st k.
Proof. intros Hp. unfold countStatus. by rewrite Hp. Qed.

Lemma never_attended (l : list AttendanceRecord) :
  Forall isAbsent l ↔ filter (λ r, status r ≠ Absent) l = [].
Proof.
  induction l as [|r l IH]; [by split; [|constructor]|].
  rewrite Forall_cons, filter_cons, IH. unfold isAbsent.
  destruct (decide (status r ≠ Absent)) as [Hn|Hn].
  - split; [by intros [? _]|done].
  - split; [by intros [_ ?]|]. intros E. split; [|done].
    by destruct (decide (status r = Absent)).
Qed.

(** X12: the figures of one person fit together.  attended is present
    plus late, the three counts add up to the classes observed, the run
    of consecutive absences is never longer than the number of Absent
    entries, it covers all entries exactly when the person never
    attended (lastAttended is null), and every entry of the run is at
    least as recent as lastAttended. *)
Theorem studentStats_consistent
    (now : Z) (records : list AttendanceRecord) (s : Student) :
  let st := studentStats now records s in
  attended st = (present st + late st)%nat ∧
  (present st + late st + absent st = totalClasses st)%nat ∧
  (consecutiveAbsences st ≤ absent st)%nat ∧
  (consecutiveAbsences st = totalClasses st ↔ lastAttended st = None) ∧
  (∀ t, lastAttended st = Some t →
        Forall (λ r, t ≤ timestamp r)
               (take (consecutiveAbsences st)
                     (sortByTimestampDesc (recordsOf s records)))).
Proof.
  unfold studentStats; simpl. fold (recordsOf s records).
  set (mine := recordsOf s records).
  pose proof (sortByTimestampDesc_perm mine) as Hperm.
  split; [done|]. split; [apply counts_partition|]. split; [|split].
  - rewrite <- (countStatus_perm Absent _ _ Hperm).
    apply countLeadingAbsent_le.
  - rewrite <- (Permutation_length Hperm), countLeadingAbsent_all.
    rewrite fmap_None, head_None, sortByTimestampDesc_nil, Hperm.
    apply never_attended.
  - intros t Ht. apply fmap_Some in Ht as (x & Hx & ->).
    apply sortByTimestampDesc_head in Hx as [Hx _].
    apply list_elem_of_filter in Hx as [Hatt Hx].
    destruct (countLeadingAbsent_run (sortByTimestampDesc mine))
      as (run & rest & Hsplit & Hrun & _ & ->).
    pose proof (sortByTimestampDesc_sorted mine) as Hs.
    rewrite Hsplit in Hs |- *. rewrite take_app_length.
    apply Forall_forall. intros r Hr.
    assert (x ∈ rest) as Hxrest.
    { rewrite <- Hperm, Hsplit in Hx. apply elem_of_app in Hx as [Hx|Hx]; [|done].
      rewrite Forall_forall in Hrun. by destruct Hatt; apply Hrun. }
    by apply (StronglySorted_app_1_elem_of notOlder run rest r x).
Qed.

Lemma studentStats_consistent_witness :
  Forall (λ r, 32520000 ≤ timestamp r)
    (take (consecutiveAbsences
             (studentStats exampleNow (attendance exampleStore) personA))
          (sortByTimestampDesc (recordsOf personA (attendance exampleStore)))).
Proof.
  apply (studentStats_consistent exampleNow (attendance exampleStore) personA).
  reflexivity.
Defined.

(** X13: a person without entries gets empty figures: every count and
    the percentage 0, trend stable, lastAttended null, no consecutive
    absences, an all-zero week strip. *)
Theorem studentStats_no_entries
    (now : Z) (records : list AttendanceRecord) (s : Student) :
  recordsOf s records = [] →
  studentStats now records s
  = mkStudentStats s 0 0 0 0 0 0%Qc stable None 0 [0; 0; 0; 0; 0; 0; 0]%nat.
Proof.
  intros He. unfold studentStats. fold (recordsOf s records). rewrite He.
  reflexivity.
Qed.

Lemma studentStats_no_entries_witness :
  studentStats exampleNow (attendance exampleStore) personC
  = mkStudentStats personC 0 0 0 0 0 0%Qc stable None 0
                   [0; 0; 0; 0; 0; 0; 0]%nat.
Proof.
  by apply (studentStats_no_entries exampleNow (attendance exampleStore)
              personC).
Defined.

End MonitoringMore.

(** ** The student's own analytics, continued (StudentAnalytics.tsx) *)

Section AnalyticsMore.
Import StudentAnalytics.
Context {zone : LocalZone}.

Lemma sum_indicator (x : Z) (ks : list Z) :
  NoDup ks → x ∈ ks →
  sum_list_with (λ k, if decide (x = k) then 1%nat else 0%nat) ks = 1%nat.
Proof.
  induction 1 as [|k ks Hk Hnd IH]; intros Hin; [by apply elem_of_nil in Hin|].
  simpl. apply elem_of_cons in Hin as [->|Hin].
  - rewrite decide_True by done.
    assert (sum_list_with (λ k0, if decide (k = k0) then 1%nat else 0%nat) ks
            = 0%nat) as ->; [|done].
    clear IH Hnd. induction ks as [|a ks IH]; [done|]. simpl.
    rewrite not_elem_of_cons in Hk. destruct Hk as [Hne Hk].
    by rewrite decide_False, IH.
  - rewrite decide_False by (by intros ->). by rewrite IH.
Qed.

Lemma sum_weekGroups (records : list AttendanceRecord) (ks : list Z) :
  NoDup ks →
  Forall (λ r, weekKeyOf (timestamp r) ∈ ks) records →
  sum_list_with (λ k, length (weekGroup k records)) ks = length records.
Proof.
  intros Hnd. induction 1 as [|r l Hr _ IH].
  - clear Hnd. induction ks as [|k ks IHk]; [done|].
    cbn [sum_list_with]. by rewrite IHk.
  - transitivity
      (sum_list_with
         (λ k, if decide (weekKeyOf (timestamp r) = k) then 1%nat else 0%nat) ks
       + sum_list_with (λ k, length (weekGroup k l)) ks)%nat.
    + clear. induction ks as [|k ks IHk]; [done|].
      cbn [sum_list_with]. rewrite IHk.
      unfold weekGroup at 1. rewrite filter_cons. fold (weekGroup k l).
      case_decide; simpl; lia.
    + rewrite IH, sum_indicator by done. done.
Qed.

(** X14: the weekly buckets.  There are as many as distinct weeks among
    the entries, but at most eight, no week occurs twice, and every
    bucket is non-empty with a total equal to its three counters and to
    the number of entries of its week.  With at most eight weeks the
    totals add up to the number of entries: each entry is counted once. *)
Theorem weekly_buckets_account (records : list AttendanceRecord) :
  let out := calculateWeeklyStats records in
  let keys := specFirstSeen ((λ r, weekKeyOf (timestamp r)) <$> records) in
  length out = (8 `min` length keys)%nat ∧
  NoDup (week <$> out) ∧
  Forall (λ b, total (data b)
               = (present (data b) + late (data b) + absent (data b))%nat ∧
               (0 < total (data b))%nat ∧
               total (data b) = length (weekGroup (week b) records)) out ∧
  ((length keys ≤ 8)%nat →
   sum_list_with (λ b, total (data b)) out = length records).
Proof.
  intros out keys.
  pose proof (specFirstSeen_NoDup ((λ r, weekKeyOf (timestamp r)) <$> records))
    as Hnd. fold keys in Hnd.
  assert (out = reverse (sliceLast 8
            ((λ k, mkWeekly k (specCounts (weekGroup k records))) <$> keys)))
    as Hout.
  { subst out keys. unfold calculateWeeklyStats. rewrite weekMapOf_closed.
    by rewrite <- list_fmap_compose. }
  split; [|split; [|split]].
  - rewrite Hout, length_reverse. unfold sliceLast.
    rewrite length_drop, length_fmap. lia.
  - subst out. rewrite calculateWeeklyStats_weeks. fold keys.
    rewrite reverse_Permutation. unfold sliceLast.
    eapply sublist_NoDup; [exact Hnd|apply sublist_drop].
  - rewrite Hout, reverse_Permutation. unfold sliceLast. apply Forall_drop.
    apply Forall_fmap, Forall_forall. intros k Hk. simpl.
    pose proof (counts_partition (weekGroup k records)) as Hp.
    split; [lia|]. split; [|done].
    apply length_filter_pos.
    subst keys. apply (proj1 (specFirstSeen_elem_of _ _)) in Hk.
    apply list_elem_of_fmap in Hk as (r & -> & Hr). by exists r.
  - intros Hlen. rewrite Hout, sum_list_with_reverse. unfold sliceLast.
    rewrite length_fmap.
    replace (length keys - 8)%nat with 0%nat by lia. rewrite drop_0.
    rewrite <- (sum_weekGroups records keys Hnd).
    + clear. induction keys as [|k ks IH]; [done|].
      rewrite fmap_cons. simpl. by rewrite IH.
    + apply Forall_forall. intros r Hr. subst keys.
      apply (proj2 (specFirstSeen_elem_of _ _)).
      by apply (list_elem_of_fmap_2 (λ r, weekKeyOf (timestamp r))).
Qed.

Lemma size_list_to_set_le (l : list Z) :
  (size (list_to_set l : gset Z) ≤ length l)%nat.
Proof.
  induction l as [|x l IH]; [done|].
  rewrite list_to_set_cons, size_union_alt, size_singleton. simpl.
  assert (size (list_to_set l ∖ {[x]} : gset Z) ≤ size (list_to_set l : gset Z))%nat
    by (apply subseteq_size; intros y Hy;
        by apply elem_of_difference in Hy as [? _]).
  lia.
Qed.

Lemma countPresent_le_length (l : list AttendanceRecord) :
  (countStatus Present l ≤ length l)%nat.
Proof. unfold countStatus. apply length_filter. Qed.

(** X15: the day statistics of a student.  The days counted are the
    distinct local days with an entry, never more than the entries and
    none exactly when there is no entry; absent is never negative and
    the rate never below 0.  When no day has two entries the days equal
    the entries, absent is the number of Absent entries and the rate is
    at most 100. *)
Theorem calculateDailyStats_bounds (records : list AttendanceRecord) :
  let st := calculateDailyStats records in
  (totalDays st ≤ length records)%nat ∧
  (totalDays st = 0%nat ↔ records = []) ∧
  0 ≤ dailyAbsent st ∧
  (0 ≤ attendanceRate st)%Qc ∧
  (NoDup ((λ r, localDay (timestamp r)) <$> records) →
   totalDays st = length records ∧
   dailyAbsent st = Z.of_nat (countStatus Absent records) ∧
   (attendanceRate st ≤ Qc_of_Z 100)%Qc).
Proof.
  unfold calculateDailyStats.
  cbn [totalDays dailyAbsent attendanceRate dailyPresent dailyLate].
  set (days := (λ r, localDay (timestamp r)) <$> records).
  split; [|split; [|split; [|split]]].
  - rewrite <- (length_fmap (λ r, localDay (timestamp r)) records).
    apply size_list_to_set_le.
  - rewrite size_empty_iff. split.
    + intros He. destruct records as [|r l]; [done|].
      assert (localDay (timestamp r) ∈ (list_to_set days : gset Z)) as Hin
        by (apply elem_of_list_to_set; subst days; apply list_elem_of_here).
      rewrite He in Hin. by apply not_elem_of_empty in Hin.
    + by intros ->.
  - lia.
  - case_decide; [by apply percentOf_nonneg|done].
  - intros Hnd. rewrite (size_list_to_set days Hnd). subst days.
    rewrite length_fmap.
    pose proof (counts_partition records) as Hp.
    split; [done|]. split; [lia|].
    case_decide.
    + apply percentOf_le_100; [done|apply countPresent_le_length].
    + rewrite <- Z2Qc_inj_0. by apply (proj1 (Z2Qc_inj_le 0 100)).
Qed.

(** X16: the calendar cell of a day is null exactly when the student has
    no entry on that local day. *)
Theorem getDayAttendance_null (mine : list AttendanceRecord) (date : Z) :
  getDayAttendance mine date = None
  ↔ Forall (λ r, ¬ sameLocalDay (timestamp r) date) mine.
Proof.
  unfold getDayAttendance. rewrite fmap_None. apply last_filter_None.
Qed.

End AnalyticsMore.

Lemma calculateDailyStats_bounds_witness :
  StudentAnalytics.totalDays
    (@StudentAnalytics.calculateDailyStats 0
       [mkRecord "r1" "idA" 0 Present 1%Qc;
        mkRecord "r2" "idA" msPerDay Late 1%Qc]) = 2%nat.
Proof.
  apply (@calculateDailyStats_bounds 0
           [mkRecord "r1" "idA" 0 Present 1%Qc;
            mkRecord "r2" "idA" msPerDay Late 1%Qc]).
  apply (bool_decide_unpack _). by vm_compute.
Defined.

Lemma weekly_buckets_account_witness :
  sum_list_with (λ b, StudentAnalytics.total (StudentAnalytics.data b))
    (@StudentAnalytics.calculateWeeklyStats 0 (attendance exampleStore))
  = 2%nat.
Proof.
  apply (@weekly_buckets_account 0 (attendance exampleStore)).
  apply (bool_decide_unpack _). by vm_compute.
Defined.

(** ** Marking attendance, continued (AttendanceMarking.tsx,
       ClassroomAttendance.tsx) *)

Section MarkingMore.
Context {zone : LocalZone}.

Lemma getTodayAttendance_same_day db today today' :
  sameLocalDay today' today →
  getTodayAttendance db today' = getTodayAttendance db today.
Proof.
  intros Hd. unfold getTodayAttendance. apply list_filter_iff.
  intros r. unfold sameLocalDay in *. by rewrite Hd.
Qed.

Lemma markedToday_same_day db today today' sid :
  sameLocalDay today' today →
  markedToday db today' sid ↔ markedToday db today sid.
Proof.
  intros Hd. unfold markedToday. by rewrite (getTodayAttendance_same_day _ _ _ Hd).
Qed.

(** X17: a confident first recognition of a person without record today
    appends exactly one record (the person's identifier, the time of the
    capture, the status derived from it, the confidence) and reports
    success; when that capture was stamped today, any further capture of
    the same person on that day reports "already marked" and writes
    nothing. *)
Theorem captureAndRecognize_once
    (db : Store) (seen : Detection) (now today : Z) (newId : string)
    (s : Student) (c : Qc) (rest : list (Student * Qc)) :
  recognized seen = (s, c) :: rest → (threshold < c)%Qc →
  ¬ markedToday db today (id s) →
  let out := captureAndRecognize db seen now today newId in
  out.1 = mkStore (students db)
                  (attendance db ++ [mkRecord newId (id s) now (statusAt now) c]) ∧
  out.2 = mkResult (Some s) c success (MarkedSuccessfully (statusAt now)) ∧
  (sameLocalDay now today →
   ∀ now' today' newId',
     sameLocalDay today' today →
     captureAndRecognize out.1 seen now' today' newId'
     = (out.1, mkResult (Some s) c error AlreadyMarked)).
Proof.
  intros Hrec Hc Hnm out.
  assert (out = (mkStore (students db)
                   (attendance db ++ [mkRecord newId (id s) now (statusAt now) c]),
                 mkResult (Some s) c success (MarkedSuccessfully (statusAt now))))
    as Hout.
  { subst out. unfold captureAndRecognize. rewrite Hrec. simpl.
    rewrite decide_True by done.
    apply alreadyMarked_None in Hnm. by rewrite Hnm. }
  rewrite Hout. cbn [fst snd]. split; [done|]. split; [done|].
  intros Hday now' today' newId' Hd'.
  assert (markedToday
            (mkStore (students db)
               (attendance db ++ [mkRecord newId (id s) now (statusAt now) c]))
            today' (id s)) as Hm.
  { apply (markedToday_same_day _ today today' _ Hd').
    apply (markedToday_markAttendance db newId (id s) now c (statusAt now) today
             Hday). }
  unfold captureAndRecognize. rewrite Hrec. simpl.
  rewrite decide_True by done.
  apply alreadyMarked_Some in Hm as [r0 ->]. done.
Qed.

(** X18: what the single capture rejects.  Without a recognized face, or
    with a first face whose confidence is not above 0.75, nothing is
    written, no student is shown and the result is an error ("no
    matching face" at confidence 0, "confidence too low" above it).  The
    confidence 0.75 itself is rejected here, while the classroom path
    accepts it. *)
Theorem captureAndRecognize_rejects
    (db : Store) (seen : Detection) (now today : Z) (newId : string) :
  let out := captureAndRecognize db seen now today newId in
  (recognized seen = [] →
   out = (db, mkResult None 0%Qc error NoMatchingFace)) ∧
  (∀ s c rest, recognized seen = (s, c) :: rest → (c ≤ threshold)%Qc →
     out.1 = db ∧ resStudent out.2 = None ∧ resStatus out.2 = error ∧
     resConfidence out.2 = c ∧
     ((0 < c)%Qc → resMessage out.2 = ConfidenceTooLow) ∧
     (¬ (0 < c)%Qc → resMessage out.2 = NoMatchingFace)) ∧
  (∀ s genId, recognized seen = [(s, threshold)] →
     ¬ markedToday db today (id s) →
     out.1 = db ∧
     attendance (processUploadedImage db seen now today genId).1.1
     = attendance db
       ++ [mkRecord (genId (length (attendance db))) (id s) now
                    (statusAt now) threshold]).
Proof.
  intros out. subst out. split; [|split].
  - intros Hrec. unfold captureAndRecognize. by rewrite Hrec.
  - intros s c rest Hrec Hc. unfold captureAndRecognize. rewrite Hrec. simpl.
    rewrite decide_False by by apply Qcle_not_lt.
    simpl. repeat split; try done.
    + intros Hp. by rewrite decide_True.
    + intros Hp. by rewrite decide_False.
  - intros s genId Hrec Hnm. split.
    + unfold captureAndRecognize. by rewrite Hrec.
    + unfold processUploadedImage. rewrite Hrec.
      cbn [markEach]. rewrite decide_True by by vm_compute.
      apply alreadyMarked_None in Hnm. by rewrite Hnm.
Qed.

Lemma markEach_keeps_marked st now today genId detections db marked sid :
  markedToday db today sid →
  markedToday (markEach db detections st now today genId marked).1 today sid.
Proof.
  intros Hm.
  destruct (markEach_spec st now today genId detections db marked)
    as (_ & _ & added & Ha & _).
  by eapply markedToday_mono.
Qed.

Lemma markEach_marks st now today genId detections :
  sameLocalDay now today →
  ∀ db marked d,
    d ∈ detections → qualifies d →
    markedToday (markEach db detections st now today genId marked).1
                today (id d.1).
Proof.
  intros Hday. induction detections as [|[s c] rest IH];
    intros db marked d Hin Hq; [by apply elem_of_nil in Hin|].
  apply elem_of_cons in Hin as [->|Hin]; simpl.
  - unfold qualifies in Hq. simpl in Hq. rewrite decide_True by done.
    destruct (alreadyMarked db today (id s)) as [r0|] eqn:Ha.
    + apply markEach_keeps_marked, alreadyMarked_Some. by rewrite Ha.
    + apply markEach_keeps_marked. by apply markedToday_markAttendance.
  - case_decide; [|by apply IH].
    destruct (alreadyMarked db today (id s)); by apply IH.
Qed.

Lemma markEach_noop st now today genId detections :
  ∀ db marked,
    (∀ d, d ∈ detections → qualifies d → markedToday db today (id d.1)) →
    (markEach db detections st now today genId marked).1 = db.
Proof.
  induction detections as [|[s c] rest IH]; intros db marked Hall; [done|].
  simpl. case_decide as Hq.
  - assert (markedToday db today (id s)) as Hm
      by (apply (Hall (s, c)); [apply list_elem_of_here|done]).
    apply alreadyMarked_Some in Hm as [r0 ->].
    apply IH. intros d Hd. apply Hall. by apply list_elem_of_further.
  - apply IH. intros d Hd. apply Hall. by apply list_elem_of_further.
Qed.

Lemma markEach_added_NoDup st now today genId detections :
  sameLocalDay now today →
  ∀ db marked added,
    attendance (markEach db detections st now today genId marked).1
    = attendance db ++ added →
    NoDup (studentId <$> added) ∧
    (length added ≤ length (filter qualifies detections))%nat.
Proof.
  intros Hday. induction detections as [|[s c] rest IH];
    intros db marked added Ha; simpl in Ha.
  - rewrite <- (app_nil_r (attendance db)) in Ha at 1.
    apply app_inv_head in Ha as <-. split; [constructor|done].
  - rewrite filter_cons.
    destruct (decide (qualifies (s, c))) as [Hq|Hq];
      unfold qualifies in Hq; simpl in Hq;
      [rewrite decide_True in Ha by done|rewrite decide_False in Ha by done];
      [|by eapply IH].
    destruct (alreadyMarked db today (id s)) as [r0|] eqn:Hal.
    { destruct (IH _ _ _ Ha) as [? ?]. split; [done|simpl; lia]. }
    match type of Ha with context [markEach ?d rest] => set (db1 := d) in * end.
    destruct (markEach_spec st now today genId rest db1
                (marked ++ [mkMarked s c st]))
      as (_ & _ & added1 & Ha1 & Hall1).
    destruct (IH _ _ _ Ha1) as [Hnd Hlen].
    rewrite Ha1 in Ha. subst db1. simpl in Ha. unfold getAttendanceRecords in Ha.
    rewrite <- app_assoc in Ha. apply app_inv_head in Ha as <-.
    split; [|simpl; lia].
    cbn [app fmap list_fmap]. apply NoDup_cons. split; [|done].
    simpl. intros Hin. apply list_elem_of_fmap in Hin as (r & Hid & Hr).
    rewrite Forall_forall in Hall1.
    destruct (Hall1 r Hr) as (_ & _ & Hnm & _). apply Hnm. rewrite <- Hid.
    by apply markedToday_markAttendance.
Qed.

(** X19: a classroom run stamped today writes one record per person.
    After it every detection at or above the threshold belongs to a
    person with a record today, no two of the records written belong to
    the same person even when a face is detected twice, and running the
    same detections again on that day writes nothing. *)
Theorem processUploadedImage_once
    (db : Store) (seen : Detection) (now today : Z) (genId : nat → string) :
  sameLocalDay now today →
  let out := processUploadedImage db seen now today genId in
  (∀ d, d ∈ recognized seen → qualifies d →
        markedToday out.1.1 today (id d.1)) ∧
  (∃ added, attendance out.1.1 = attendance db ++ added ∧
            NoDup (studentId <$> added) ∧
            (length added ≤ length (filter qualifies (recognized seen)))%nat) ∧
  (∀ now' today' genId',
     sameLocalDay today' today →
     (processUploadedImage out.1.1 seen now' today' genId').1.1 = out.1.1).
Proof.
  intros Hday out.
  assert (out.1.1 = (markEach db (recognized seen) (statusAt now) now today
                               genId []).1) as Hstore.
  { subst out. unfold processUploadedImage.
    destruct (recognized seen) as [|d l]; [done|].
    by destruct (markEach db (d :: l) _ _ _ _ _). }
  assert (∀ d, d ∈ recognized seen → qualifies d →
               markedToday out.1.1 today (id d.1)) as Hmarks.
  { intros d Hd Hq. rewrite Hstore. by apply markEach_marks. }
  split; [done|]. split.
  - destruct (processUploadedImage_spec db seen now today genId)
      as (_ & _ & added & Ha & _). fold out in Ha.
    exists added. split; [done|].
    eapply markEach_added_NoDup; [done|]. by rewrite <- Hstore.
  - intros now' today' genId' Hd'. unfold processUploadedImage at 1.
    destruct (recognized seen) as [|d l] eqn:Hrec; [done|].
    destruct (markEach out.1.1 (d :: l) _ _ _ _ _) as [db2 m2] eqn:E.
    cbn [fst snd]. change db2 with (db2, m2).1. rewrite <- E.
    apply markEach_noop. intros d' Hd Hq.
    apply (markedToday_same_day _ today today' _ Hd'). by apply Hmarks.
Qed.

End MarkingMore.

Lemma captureAndRecognize_once_witness :
  (@captureAndRecognize 0 exampleStore (mkDetection 1 [(personC, 1%Qc)])
     exampleNow exampleNow "r3").2
  = mkResult (Some personC) 1%Qc success (MarkedSuccessfully Late).
Proof.
  apply (@captureAndRecognize_once 0 exampleStore
           (mkDetection 1 [(personC, 1%Qc)]) exampleNow exampleNow "r3"
           personC 1%Qc []).
  - reflexivity.
  - reflexivity.
  - apply (proj1 (@alreadyMarked_None 0 _ _ _)). by vm_compute.
Defined.

Lemma captureAndRecognize_rejects_witness :
  @captureAndRecognize 0 exampleStore (mkDetection 0 []) exampleNow exampleNow
                       "r3"
  = (exampleStore, mkResult None 0%Qc error NoMatchingFace).
Proof.
  by apply (@captureAndRecognize_rejects 0 exampleStore (mkDetection 0 [])
              exampleNow exampleNow "r3").
Defined.

Lemma processUploadedImage_once_witness :
  let seen := mkDetection 2 [(personC, 1%Qc); (personC, 1%Qc)] in
  ∃ added,
    attendance
      (@processUploadedImage 0 exampleStore seen exampleNow exampleNow
         (λ _, "r3")).1.1
    = attendance exampleStore ++ added ∧
    NoDup (studentId <$> added) ∧
    (length added ≤ length (filter qualifies (recognized seen)))%nat.
Proof.
  intros seen.
  apply (@processUploadedImage_once 0 exampleStore seen exampleNow exampleNow
           (λ _, "r3")).
  reflexivity.
Defined.

(** ** The classroom photo (ClassroomAttendance.tsx) *)

Section ClassroomProps.
Context {zone : LocalZone}.

Lemma markEachDetected_markEach st now today genId detections :
  Forall qualifies detections →
  ∀ db marked,
    ClassroomAttendance.markEachDetected db detections st now today genId marked
    = markEach db detections st now today genId marked.
Proof.
  induction 1 as [|[s c] rest Hq _ IH]; intros db marked; [done|].
  simpl. unfold qualifies in Hq. simpl in Hq. rewrite decide_True by done.
  destruct (alreadyMarked db today (id s)); apply IH.
Qed.

(** X20: the two classroom paths agree.  When every detection handed
    over is at or above the confidence threshold, marking from a
    classroom photo leaves the same store and the same list of marked
    students as marking from an uploaded image; in particular it writes
    no record for a person already marked today. *)
Theorem processClassroomAttendance_as_upload
    (db : Store) (result : Detection) (now today : Z) (genId : nat → string) :
  Forall qualifies (recognized result) →
  ClassroomAttendance.processClassroomAttendance db result now today genId
  = (processUploadedImage db result now today genId).1 ∧
  ∃ added,
    attendance
      (ClassroomAttendance.processClassroomAttendance db result now today
                                                      genId).1
    = attendance db ++ added ∧
    Forall (λ r, ¬ markedToday db today (studentId r)) added.
Proof.
  intros Hq.
  assert (ClassroomAttendance.processClassroomAttendance db result now today
                                                          genId
          = (processUploadedImage db result now today genId).1) as Heq.
  { unfold ClassroomAttendance.processClassroomAttendance, processUploadedImage.
    rewrite markEachDetected_markEach by done.
    destruct (recognized result) as [|d l]; [done|].
    by destruct (markEach db (d :: l) _ _ _ _ _). }
  split; [done|]. rewrite Heq.
  destruct (processUploadedImage_spec db result now today genId)
    as (_ & _ & added & Ha & Hall).
  exists added. split; [done|].
  eapply Forall_impl; [exact Hall|]. simpl. tauto.
Qed.

End ClassroomProps.

Lemma processClassroomAttendance_as_upload_witness :
  let seen := mkDetection 1 [(personC, 1%Qc)] in
  @ClassroomAttendance.processClassroomAttendance 0 exampleStore seen
    exampleNow exampleNow (λ _, "r3")
  = (@processUploadedImage 0 exampleStore seen exampleNow exampleNow
       (λ _, "r3")).1.
Proof.
  intros seen.
  apply (@processClassroomAttendance_as_upload 0 exampleStore seen exampleNow
           exampleNow (λ _, "r3")).
  repeat constructor. by vm_compute.
Defined.

(** ** Matching faces (facialRecognition.ts) *)

Section RecognitionProps.
Import FacialRecognition.
Local Open Scope Qc_scope.
Context {Descriptor : Type} (distance : Descriptor → Descriptor → Qc).
Context (faceDescriptors : gmap string Descriptor).
Hypothesis distance_nonneg : ∀ a b, 0 ≤ distance a b.

Lemma MIN_CONFIDENCE_pos : ¬ MIN_CONFIDENCE ≤ 0.
Proof. intros H. vm_compute in H. by destruct H. Qed.

Lemma Qc_zero_le_one : (0 : Qc) ≤ 1.
Proof. intros H. vm_compute in H. discriminate. Qed.

Lemma confidence_bounds (d T : Qc) :
  0 < T → 0 ≤ d → d ≤ T → 0 ≤ 1 - d / T ∧ 1 - d / T ≤ 1.
Proof.
  intros HT Hd HdT.
  assert (0 ≤ / T) as Hinv by (apply Qclt_le_weak, Qcinv_pos, HT).
  assert (0 ≤ d / T) as Hx by (by apply Qcmult_nonneg_nonneg).
  assert (d / T ≤ 1) as Hx1.
  { rewrite <- (Qcmult_inv_r T) by (apply not_eq_sym, Qclt_not_eq, HT).
    by apply Qcmult_le_compat_r. }
  split.
  - by apply (proj1 (Qcle_minus_iff _ _)) in Hx1.
  - apply (proj2 (Qcle_minus_iff _ _)).
    replace (1 + - (1 - d / T)) with (d / T) by ring. done.
Qed.

(** What the loop of [findBestMatch] holds after the people seen so far:
    nothing while no one of them has a registered face, afterwards a
    person with a registered face at least as near as every other. *)
Lemma bestStep_invariant (descriptor : Descriptor) (people : list Student) :
  match foldl (bestStep distance faceDescriptors descriptor) (None, None) people
  with
  | (None, None) =>
      ∀ s, s ∈ people → rollNo s = "" ∨ faceDescriptors !! rollNo s = None
  | (Some s, Some d) =>
      s ∈ people ∧ rollNo s ≠ "" ∧
      ∃ face, faceDescriptors !! rollNo s = Some face ∧
              d = distance descriptor face ∧
              ∀ s' face', s' ∈ people → rollNo s' ≠ "" →
                          faceDescriptors !! rollNo s' = Some face' →
                          d ≤ distance descriptor face'
  | _ => False
  end.
Proof.
  induction people as [|x l IH] using rev_ind.
  - simpl. intros s Hs. by apply elem_of_nil in Hs.
  - rewrite foldl_snoc.
    destruct (foldl _ _ l) as [[s|] [d|]]; try done; unfold bestStep at 1.
    + destruct IH as (Hs & Hr & face & Hf & Hd & Hmin).
      assert (s ∈ l ++ [x]) as Hs' by (apply elem_of_app; by left).
      destruct (decide (rollNo x = "")) as [Hx|Hx].
      { split; [done|]. split; [done|]. exists face.
        split; [done|]. split; [done|].
        intros s' face' Hin. apply elem_of_app in Hin as [Hin|Hin];
          [by apply Hmin|].
        apply list_elem_of_singleton in Hin as ->. done. }
      destruct (faceDescriptors !! rollNo x) as [fx|] eqn:Hfx.
      2:{ split; [done|]. split; [done|]. exists face.
          split; [done|]. split; [done|].
          intros s' face' Hin. apply elem_of_app in Hin as [Hin|Hin];
            [by apply Hmin|].
          apply list_elem_of_singleton in Hin as ->. congruence. }
      cbn [snd]. destruct (decide (distance descriptor fx < d)) as [Hlt|Hge].
      * split; [apply elem_of_app; right; apply list_elem_of_here|].
        split; [done|]. exists fx. split; [done|]. split; [done|].
        intros s' face' Hin Hr' Hf'. apply elem_of_app in Hin as [Hin|Hin].
        -- apply Qclt_le_weak. eapply Qclt_le_trans; [exact Hlt|].
           by eapply Hmin.
        -- apply list_elem_of_singleton in Hin as ->.
           rewrite Hfx in Hf'. simplify_eq. apply Qcle_refl.
      * split; [done|]. split; [done|]. exists face.
        split; [done|]. split; [done|].
        intros s' face' Hin Hr' Hf'. apply elem_of_app in Hin as [Hin|Hin];
          [by eapply Hmin|].
        apply list_elem_of_singleton in Hin as ->.
        rewrite Hfx in Hf'. simplify_eq. by apply Qcnot_lt_le.
    + destruct (decide (rollNo x = "")) as [Hx|Hx].
      { intros s Hin. apply elem_of_app in Hin as [Hin|Hin]; [by apply IH|].
        apply list_elem_of_singleton in Hin as ->. by left. }
      destruct (faceDescriptors !! rollNo x) as [fx|] eqn:Hfx.
      * cbn [snd]. split; [apply elem_of_app; right; apply list_elem_of_here|].
        split; [done|]. exists fx. split; [done|]. split; [done|].
        intros s' face' Hin Hr' Hf'. apply elem_of_app in Hin as [Hin|Hin].
        -- destruct (IH s' Hin); congruence.
        -- apply list_elem_of_singleton in Hin as ->.
           rewrite Hfx in Hf'. simplify_eq. apply Qcle_refl.
      * intros s Hin. apply elem_of_app in Hin as [Hin|Hin]; [by apply IH|].
        apply list_elem_of_singleton in Hin as ->. by right.
Qed.

Lemma findBestMatch_props (descriptor : Descriptor) (people : list Student) :
  let out := findBestMatch distance faceDescriptors descriptor people in
  (0 ≤ out.2 ∧ out.2 ≤ 1) ∧
  (∀ s, out.1 = Some s →
        s ∈ people ∧ rollNo s ≠ "" ∧ MIN_CONFIDENCE ≤ out.2 ∧
        ∃ face, faceDescriptors !! rollNo s = Some face ∧
                out.2 = 1 - distance descriptor face / RECOGNITION_THRESHOLD ∧
                ∀ s' face', s' ∈ people → rollNo s' ≠ "" →
                            faceDescriptors !! rollNo s' = Some face' →
                            distance descriptor face
                            ≤ distance descriptor face') ∧
  ((∀ s, s ∈ people → rollNo s = "" ∨ faceDescriptors !! rollNo s = None) →
   out = (None, 0)).
Proof.
  intros out. subst out. unfold findBestMatch.
  pose proof (bestStep_invariant descriptor people) as Hinv.
  destruct (foldl _ _ people) as [[s|] [d|]]; [|done|done|]; cbn [fst snd].
  - destruct Hinv as (Hs & Hr & face & Hf & -> & Hmin).
    set (d := distance descriptor face) in *.
    assert (0 < RECOGNITION_THRESHOLD) as HT by done.
    destruct (decide (d < RECOGNITION_THRESHOLD)) as [Hlt|Hge].
    + destruct (confidence_bounds d RECOGNITION_THRESHOLD HT
                  (distance_nonneg _ _) (Qclt_le_weak _ _ Hlt)) as [H0 H1].
      rewrite (decide_True (P := 1 - d / RECOGNITION_THRESHOLD ≤ 1)) by done.
      split; [done|]. split.
      * intros s0. case_decide as Hc; [|done]. intros [= <-].
        split; [done|]. split; [done|]. split; [done|]. by exists face.
      * intros Hnone. destruct (Hnone s Hs); congruence.
    + rewrite (decide_False (P := MIN_CONFIDENCE ≤ 0)) by apply MIN_CONFIDENCE_pos.
      rewrite (decide_True (P := (0 : Qc) ≤ 1)) by apply Qc_zero_le_one.
      split; [done|]. split; [done|].
      intros Hnone. destruct (Hnone s Hs); congruence.
  - rewrite (decide_False (P := MIN_CONFIDENCE ≤ 0)) by apply MIN_CONFIDENCE_pos.
    rewrite (decide_True (P := (0 : Qc) ≤ 1)) by apply Qc_zero_le_one.
    split; [done|]. split; done.
Qed.

(** X21: the best match.  The confidence reported lies between 0 and 1.
    A student is reported only with a confidence of at least 0.75, and is
    then one of the people given, with a roll number and a registered
    face, nearest to the probe among all such people, the confidence
    being 1 - distance / 0.6.  When none of the people has a registered
    face the answer is no student at confidence 0. *)
Theorem findBestMatch_result (descriptor : Descriptor) (people : list Student) :
  let out := findBestMatch distance faceDescriptors descriptor people in
  (0 ≤ out.2 ∧ out.2 ≤ 1) ∧
  (∀ s, out.1 = Some s →
        s ∈ people ∧ rollNo s ≠ "" ∧ MIN_CONFIDENCE ≤ out.2 ∧
        ∃ face, faceDescriptors !! rollNo s = Some face ∧
                out.2 = 1 - distance descriptor face / RECOGNITION_THRESHOLD ∧
                ∀ s' face', s' ∈ people → rollNo s' ≠ "" →
                            faceDescriptors !! rollNo s' = Some face' →
                            distance descriptor face
                            ≤ distance descriptor face') ∧
  ((∀ s, s ∈ people → rollNo s = "" ∨ faceDescriptors !! rollNo s = None) →
   out = (None, 0)).
Proof. apply findBestMatch_props. Qed.

(** Every face [matchStep] adds to the recognized list carries a student
    found by [findBestMatch] at a confidence of at least 0.75, and the
    two counters together count the faces seen. *)
Lemma matchStep_invariant (registeredStudents : list Student)
    (faces : list Descriptor) :
  let out := foldl (matchStep distance faceDescriptors registeredStudents)
                   ([], 0%nat) faces in
  (length out.1 + out.2 = length faces)%nat ∧
  Forall (λ d, qualifies d ∧ d.2 ≤ 1 ∧ d.1 ∈ registeredStudents ∧
               rollNo d.1 ≠ "" ∧ is_Some (faceDescriptors !! rollNo d.1)) out.1.
Proof.
  induction faces as [|f l IH] using rev_ind; [by split|].
  rewrite foldl_snoc. simpl in IH.
  destruct (foldl _ _ l) as [rec unrec]. destruct IH as [Hlen Hall].
  unfold matchStep. cbn [fst snd] in *.
  pose proof (findBestMatch_props f registeredStudents) as Haux.
  rewrite (length_app l [f]). cbn [length].
  destruct (findBestMatch distance faceDescriptors f registeredStudents)
    as [[s|] c]; cbn [fst snd] in *.
  - destruct Haux as (Hb & Hs & _).
    destruct (Hs s eq_refl) as (Hin & Hr & Hc & face & Hf & _).
    rewrite (decide_True (P := MIN_CONFIDENCE ≤ c)) by exact Hc.
    cbn [fst snd]. rewrite length_app. cbn [length]. split; [lia|].
    apply Forall_app. split; [done|]. rewrite Forall_singleton.
    cbn [fst snd]. split; [exact Hc|]. split; [by destruct Hb|].
    split; [done|]. split; [done|]. by exists face.
  - split; [lia|done].
Qed.

(** X22: what a classroom detection hands over.  For an image that is not
    a data URL of an image nothing is detected.  Otherwise every face
    given is either recognized or counted as unrecognized, and every
    recognized entry names one of the registered people with a
    registered face at a confidence from 0.75 to 1, so it passes the
    threshold of the classroom marking. *)
Theorem detectClassroomFaces_result (imageData : string)
    (registeredStudents : list Student) (faces : list Descriptor) :
  let out := detectClassroomFaces distance faceDescriptors imageData
                                  registeredStudents faces in
  (String.prefix "data:image/" imageData = false →
   out = (AttendanceMarking.mkDetection 0 [], 0%nat)) ∧
  (String.prefix "data:image/" imageData = true →
   AttendanceMarking.totalDetected out.1 = length faces ∧
   (length (AttendanceMarking.recognized out.1) + out.2 = length faces)%nat) ∧
  Forall (λ d, qualifies d ∧ d.2 ≤ 1 ∧ d.1 ∈ registeredStudents ∧
               rollNo d.1 ≠ "" ∧ is_Some (faceDescriptors !! rollNo d.1))
         (AttendanceMarking.recognized out.1).
Proof.
  intros out. subst out. unfold detectClassroomFaces.
  destruct (matchStep_invariant registeredStudents faces) as [Hlen Hall].
  destruct (String.prefix "data:image/" imageData); cbn [fst snd].
  - split; [done|]. split; [done|]. done.
  - split; [done|]. split; [done|]. simpl. constructor.
Qed.

End RecognitionProps.

Lemma findBestMatch_result_witness :
  let out := @FacialRecognition.findBestMatch Z (λ _ _, 0%Qc)
               {["CS001" := 0]} 0 [personA] in
  (0 ≤ out.2 ∧ out.2 ≤ 1)%Qc.
Proof.
  apply (@findBestMatch_result Z (λ _ _, 0%Qc) {["CS001" := 0]}
           (λ _ _, Qcle_refl 0%Qc) 0 [personA]).
Defined.

Lemma detectClassroomFaces_result_witness :
  Forall (λ d, qualifies d ∧ (d.2 ≤ 1)%Qc ∧ d.1 ∈ [personA] ∧
               rollNo d.1 ≠ "" ∧
               is_Some (({["CS001" := 0]} : gmap string Z) !! rollNo d.1))
    (AttendanceMarking.recognized
       (@FacialRecognition.detectClassroomFaces Z (λ _ _, 0%Qc)
          {["CS001" := 0]} "data:image/png;base64,AAAA" [personA] [0; 0]).1).
Proof.
  apply (@detectClassroomFaces_result Z (λ _ _, 0%Qc) {["CS001" := 0]}
           (λ _ _, Qcle_refl 0%Qc) "data:image/png;base64,AAAA" [personA]
           [0; 0]).
Defined.

(** ** The faculty dashboard (FacultyDashboard.tsx) *)

Section FacultyDashboardProps.
Context {zone : LocalZone}.

Lemma dailyRow_status (m : gmap string AttendanceRecord) (s : Student) :
  FacultyDashboard.rowStatus
    (match m !! id s with
     | Some record =>
         FacultyDashboard.mkAttendanceStatus s (status record)
           (Some (timestamp record)) (Some (confidence record)) false
     | None => FacultyDashboard.mkAttendanceStatus s Absent None None false
     end)
  = FacultyAnalytics.sessStatus (FacultyAnalytics.sessionRow m s).
Proof. unfold FacultyAnalytics.sessionRow. by destruct (m !! id s). Qed.

Lemma length_filter_rows (m : gmap string AttendanceRecord) (st : Status)
    (people : list Student) :
  length (filter (λ d, FacultyDashboard.rowStatus d = st)
            ((λ s,
                match m !! id s with
                | Some record =>
                    FacultyDashboard.mkAttendanceStatus s (status record)
                      (Some (timestamp record)) (Some (confidence record)) false
                | None =>
                    FacultyDashboard.mkAttendanceStatus s Absent None None false
                end) <$> people))
  = length (filter (λ d, FacultyAnalytics.sessStatus d = st)
              (FacultyAnalytics.sessionRow m <$> people)).
Proof.
  induction people as [|s l IH]; [done|].
  rewrite !fmap_cons, !filter_cons, dailyRow_status.
  case_decide; simpl; by rewrite IH.
Qed.

(** X23: the faculty dashboard and the session view agree on a store of
    students.  The dashboard lists every registered person, the session
    view those of role student; when everyone is a student both report
    the same total, present, late and absent counts and the same rate,
    and in any case the dashboard's three counts add up to its total. *)
Theorem facultyDashboard_matches_session (db : Store) (today : Z) :
  let daily := (FacultyDashboard.loadData db today).2 in
  let session := (FacultyAnalytics.loadTodaySession db today).2 in
  FacultyDashboard.total daily = length (students db) ∧
  (FacultyDashboard.present daily + FacultyDashboard.late daily
   + FacultyDashboard.absent daily = FacultyDashboard.total daily)%nat ∧
  (Forall (λ s, role s = student) (students db) →
   FacultyDashboard.total daily = FacultyAnalytics.total session ∧
   FacultyDashboard.present daily = FacultyAnalytics.present session ∧
   FacultyDashboard.late daily = FacultyAnalytics.late session ∧
   FacultyDashboard.absent daily = FacultyAnalytics.absent session ∧
   FacultyDashboard.percentage daily = FacultyAnalytics.attendanceRate session).
Proof.
  intros daily session. subst daily session.
  unfold FacultyDashboard.loadData, FacultyAnalytics.loadTodaySession.
  cbn [fst snd].
  unfold FacultyDashboard.loadDailyAttendance, FacultyAnalytics.sessionStudents,
    getStudents.
  set (m := FacultyAnalytics.attendanceMapOf (getTodayAttendance db today)).
  unfold FacultyDashboard.calculateStats, FacultyAnalytics.calculateStats.
  cbn [FacultyDashboard.total FacultyDashboard.present FacultyDashboard.late
       FacultyDashboard.absent FacultyDashboard.percentage
       FacultyAnalytics.total FacultyAnalytics.present FacultyAnalytics.late
       FacultyAnalytics.absent FacultyAnalytics.attendanceRate].
  rewrite !length_filter_rows, !length_fmap.
  split; [done|]. split.
  - pose proof (length_filter_status
                  (FacultyAnalytics.sessionRow m <$> students db)) as Hsum.
    rewrite length_fmap in Hsum. done.
  - intros Hall.
    assert (filter (λ s, role s = student) (students db) = students db) as ->.
    { induction Hall as [|s l Hs _ IH]; [done|].
      by rewrite filter_cons, decide_True, IH. }
    done.
Qed.

End FacultyDashboardProps.

Lemma facultyDashboard_matches_session_witness :
  FacultyDashboard.percentage (@FacultyDashboard.loadData 0 exampleStore exampleNow).2
  = FacultyAnalytics.attendanceRate
      (@FacultyAnalytics.loadTodaySession 0 exampleStore exampleNow).2.
Proof.
  apply (@facultyDashboard_matches_session 0 exampleStore exampleNow).
  repeat constructor.
Defined.

Section WeeklyStatsProps.
Context {zone : LocalZone}.

Lemma localDay_startOfWeek (today : Z) :
  let startOfWeek := startOfLocalDay (minusDays today (getDay today)) in
  startOfWeek + offsetMs = (localDay today - getDay today) * msPerDay.
Proof.
  unfold startOfLocalDay, minusDays, msOfLocalDay, getDay, localDay, msPerDay.
  change (1000 * 60 * 60 * 24) with 86400000.
  Z.to_euclidean_division_equations. lia.
Qed.

Lemma weekDay_facts (today i : Z) :
  0 ≤ i < 7 →
  let startOfWeek := startOfLocalDay (minusDays today (getDay today)) in
  let date := plusDays startOfWeek i in
  localDay date = localDay today - getDay today + i ∧
  getDay date = i ∧
  ∀ t, sameLocalDay t date → startOfWeek ≤ t.
Proof.
  intros Hi startOfWeek date.
  pose proof (localDay_startOfWeek today) as Hs. cbn zeta in Hs.
  fold startOfWeek in Hs.
  assert (localDay date = localDay today - getDay today + i) as Hd.
  { unfold date, plusDays, localDay at 1.
    replace (startOfWeek + i * msPerDay + offsetMs)
      with ((localDay today - getDay today + i) * msPerDay) by lia.
    by apply Z.div_mul. }
  split; [done|]. split.
  - unfold getDay at 1. rewrite Hd. unfold getDay.
    Z.to_euclidean_division_equations. lia.
  - intros t Ht. unfold sameLocalDay in Ht. rewrite Hd in Ht.
    revert Ht Hs. unfold localDay at 1. unfold msPerDay.
    change (1000 * 60 * 60 * 24) with 86400000.
    generalize (localDay today - getDay today). intros k Ht Hs.
    Z.to_euclidean_division_equations. lia.
Qed.

Lemma filter_filter_impl {A} (P Q : A → Prop)
    `{!∀ x, Decision (P x)} `{!∀ x, Decision (Q x)} (l : list A) :
  (∀ x, P x → Q x) → filter P (filter Q l) = filter P l.
Proof.
  intros HPQ. induction l as [|x l IH]; [done|].
  rewrite (filter_cons Q), (filter_cons P).
  destruct (decide (Q x)) as [HQ|HQ].
  - rewrite filter_cons, IH. done.
  - rewrite IH. destruct (decide (P x)) as [HP|]; [|done].
    exfalso. apply HQ. by apply HPQ.
Qed.

(** X24: the week chart of the faculty dashboard has seven bars, the
    first on the Sunday of the clock reading's local week and one per
    day after it, so the clock reading's own day is bar number
    [getDay today].  A bar counts the stored records of its local day
    that are Present and that are Late (entries of any person, also of
    one no longer registered), its total is the sum of the two, and its
    rate is that total against the number of registered people, 0 when
    there are none. *)
Theorem getWeeklyStats_bars (db : Store) (today : Z) (i : nat) :
  let week := FacultyDashboard.getWeeklyStats db today in
  length week = 7%nat ∧
  ((i ≤ 6)%nat →
   ∃ bar, week !! i = Some bar ∧
     localDay (FacultyDashboard.dayDate bar)
       = localDay today - getDay today + Z.of_nat i ∧
     getDay (FacultyDashboard.dayDate bar) = Z.of_nat i ∧
     (Z.of_nat i = getDay today ↔
      sameLocalDay today (FacultyDashboard.dayDate bar)) ∧
     FacultyDashboard.dayPresent bar
       = countStatus Present
           (filter (λ r, sameLocalDay (timestamp r)
                           (FacultyDashboard.dayDate bar)) (attendance db)) ∧
     FacultyDashboard.dayLate bar
       = countStatus Late
           (filter (λ r, sameLocalDay (timestamp r)
                           (FacultyDashboard.dayDate bar)) (attendance db)) ∧
     FacultyDashboard.dayTotal bar
       = (FacultyDashboard.dayPresent bar + FacultyDashboard.dayLate bar)%nat ∧
     FacultyDashboard.dayPercentage bar
       = match students db with
         | [] => 0%Qc
         | _ => percentOf (FacultyDashboard.dayTotal bar) (length (students db))
         end).
Proof.
  intros week. split; [done|]. intros Hi.
  assert (∃ k : Z, 0 ≤ k < 7 ∧ Z.of_nat i = k ∧
            [0; 1; 2; 3; 4; 5; 6] !! i = Some k) as (k & Hk & Hik & Hlook).
  { do 7 (destruct i as [|i]; [eexists; split; [|split; reflexivity]; lia|]).
    lia. }
  subst week. unfold FacultyDashboard.getWeeklyStats.
  rewrite list_lookup_fmap, Hlook. cbn [fmap option_fmap option_map].
  eexists. split; [reflexivity|].
  cbn [FacultyDashboard.dayDate FacultyDashboard.dayPresent
       FacultyDashboard.dayLate FacultyDashboard.dayTotal
       FacultyDashboard.dayPercentage].
  destruct (weekDay_facts today k Hk) as (Hday & Hwd & Hge).
  rewrite Hik. unfold getAttendanceRecords, getStudents.
  rewrite (filter_filter_impl _ _ (attendance db))
    by (intros r Hr; by apply Hge).
  split; [done|]. split; [done|]. split.
  { unfold sameLocalDay. rewrite Hday. lia. }
  split; [done|]. split; [done|]. split; [done|].
  destruct (students db); [done|]. by rewrite decide_True by (simpl; lia).
Qed.

End WeeklyStatsProps.

Lemma getWeeklyStats_bars_witness :
  ∃ bar,
    @FacultyDashboard.getWeeklyStats 0 exampleStore exampleNow !! 0%nat
      = Some bar ∧
    @getDay 0 (FacultyDashboard.dayDate bar) = 0.
Proof.
  destruct (@getWeeklyStats_bars 0 exampleStore exampleNow 0) as [_ H].
  destruct (H ltac:(lia)) as (bar & Hbar & _ & Hday & _).
  exists bar. split; [exact Hbar|exact Hday].
Defined.

(** ** The student branch of the dashboard *)

Section StudentDashboardProps.
Context {zone : LocalZone}.

Lemma filter_True {A} (l : list A) : filter (λ _, True) l = l.
Proof.
  induction l as [|x l IH]; [done|]. by rewrite filter_cons, decide_True, IH.
Qed.

(** X25: the student view of the dashboard is computed from every stored
    record, whoever it belongs to.  Its count of today's Present entries
    is the one of the faculty view, late and absent are always shown as
    0 and the number of students as 1, and the rate is the share of
    Present entries among all stored records, between 0 and 100, and 0
    for an empty store. *)
Theorem student_dashboard_uses_all_records (db : Store) (today : Z) :
  let st := (Dashboard.loadDashboardDataStudent db today).2 in
  Dashboard.presentToday st
    = Dashboard.presentToday (Dashboard.loadDashboardData db today) ∧
  Dashboard.lateToday st = 0%nat ∧ Dashboard.absentToday st = 0 ∧
  Dashboard.totalStudents st = 1%nat ∧
  (0 ≤ Dashboard.attendanceRate st ≤ Qc_of_Z 100)%Qc ∧
  (attendance db = [] → Dashboard.attendanceRate st = 0%Qc) ∧
  (attendance db ≠ [] →
   Dashboard.attendanceRate st
   = percentOf (countStatus Present (attendance db)) (length (attendance db))).
Proof.
  unfold Dashboard.loadDashboardDataStudent, Dashboard.loadDashboardData,
    getTodayAttendance, getAttendanceRecords.
  cbn [snd Dashboard.presentToday Dashboard.lateToday Dashboard.absentToday
       Dashboard.totalStudents Dashboard.attendanceRate].
  rewrite !filter_True.
  split; [done|]. split; [done|]. split; [done|]. split; [done|].
  destruct (attendance db) as [|r l] eqn:E.
  - rewrite decide_False by (simpl; lia).
    split; [|done]. split; [done|].
    rewrite <- Z2Qc_inj_0. by apply (proj1 (Z2Qc_inj_le 0 100)).
  - rewrite decide_True by (simpl; lia).
    split; [|done]. split.
    + apply percentOf_nonneg. simpl; lia.
    + apply percentOf_le_100; [simpl; lia|apply countPresent_le_length].
Qed.

End StudentDashboardProps.

Lemma student_dashboard_uses_all_records_witness :
  Dashboard.attendanceRate
    (@Dashboard.loadDashboardDataStudent 0 exampleStore exampleNow).2
  = percentOf (countStatus Present (attendance exampleStore))
              (length (attendance exampleStore)).
Proof.
  apply (@student_dashboard_uses_all_records 0 exampleStore exampleNow).
  discriminate.
Defined.
